(** * Sakhi: the cycle and fertility engine

    A shallow embedding of the three services that carry the statistics of
    the application,

    - [CycleCalculationService]   (day-level projection, integer day counts),
    - [CyclePredictionService]    (summary prediction, regularity, confidence),
    - [FertilityPredictionService] (fertility windows around ovulation),

    together with the properties stated about them.

    Conventions of the embedding.
    - A JavaScript [Date] is its [getTime()] value: an integer number of
      milliseconds since the epoch.  The date-fns helpers are read in UTC
      (no daylight-saving shifts), so a calendar day is a block of
      [MS_PER_DAY] milliseconds.
    - Day counts are integers ([Z]).  [Math.round (a / b)] on integer day
      counts is computed exactly as [floor ((2a + b) / 2b)].
    - The numbers of [CyclePredictionService] (means, deviations, scores)
      are IEEE doubles in the source; they are idealised as real numbers. *)

From Stdlib Require Import ZArith List Lia Bool String QArith Reals Lra Permutation Sorted.
From stdpp Require Import base list gmap.

Local Open Scope Z_scope.

(* ===================================================================== *)
(** ** Dates (JavaScript [Date] and the date-fns helpers) *)

Module DateFns.

(** [Date.getTime()]: milliseconds since 1970-01-01T00:00:00Z. *)
Definition Date := Z.

Definition MS_PER_DAY : Z := 24 * 60 * 60 * 1000.

(** date-fns [differenceInDays left right]: the number of full days
    between the two instants, truncated toward zero. *)
Definition differenceInDays (dateLeft dateRight : Date) : Z :=
  Z.quot (dateLeft - dateRight) MS_PER_DAY.

Definition addDays (d : Date) (amount : Z) : Date := d + amount * MS_PER_DAY.
Definition subDays (d : Date) (amount : Z) : Date := addDays d (- amount).

(** The calendar day an instant falls on (days since the epoch). *)
Definition dayNumber (d : Date) : Z := d / MS_PER_DAY.

Definition isSameDay (a b : Date) : bool := dayNumber a =? dayNumber b.
Definition isAfter (d dateToCompare : Date) : bool := dateToCompare <? d.

(** Proleptic Gregorian calendar date to day number; used only to write
    the dates of the scenarios as year-month-day. *)
Definition daysFromCivil (y m d : Z) : Z :=
  let y' := if m <=? 2 then y - 1 else y in
  let era := y' / 400 in
  let yoe := y' - era * 400 in
  let doy := (153 * (if 2 <? m then m - 3 else m + 9) + 2) / 5 + d - 1 in
  let doe := yoe * 365 + yoe / 4 - yoe / 100 + doy in
  era * 146097 + doe - 719468.

(** Midnight (UTC) of a calendar date. *)
Definition ymd (y m d : Z) : Date := daysFromCivil y m d * MS_PER_DAY.

(** A calendar date: an instant with no time-of-day component. *)
Definition calendarDate (d : Date) : Prop := d mod MS_PER_DAY = 0.

End DateFns.
Import DateFns.

(** [Math.round (n / d)] for integers [n] and [d > 0]: nearest integer,
  ties toward plus infinity. *)
Definition Math_round_div (n d : Z) : Z := (2 * n + d) / (2 * d).

(** [Array.prototype.sort(compareFn)].  The sort is stable, so for a
    consistent comparator its result is the one of inserting the elements
    from left to right, each behind the elements it does not precede. *)
Section ArraySort.
Context {A : Type} (compareFn : A -> A -> Z).

Fixpoint insertSorted (x : A) (sorted : list A) : list A :=
  match sorted with
  | [] => [x]
  | y :: rest =>
      if compareFn x y <? 0 then x :: y :: rest else y :: insertSorted x rest
  end.

Definition Array_sort (l : list A) : list A :=
  fold_left (fun sorted x => insertSorted x sorted) l [].

(** [a] may stand before [b]. *)
Definition inOrder (a b : A) : Prop := compareFn a b <= 0.

End ArraySort.

(* ===================================================================== *)
(** ** CycleCalculationService *)

Module CycleCalculation.

Inductive Flow := FlowLight | FlowMedium | FlowHeavy.

Record PeriodLog := mkPeriodLog {
  id : option string;
  startDate : Date;
  endDate : Date;
  flow : Flow
}.

Inductive DayPhase := period | fertile | ovulation | unknown.
Inductive Intensity := light | medium | heavy | none.

Record CycleDay := mkCycleDay {
  date : Date;
  phase : DayPhase;
  intensity : Intensity;
  prediction : option bool
}.

Definition DEFAULT_CYCLE_LENGTH : Z := 28.
Definition DEFAULT_PERIOD_LENGTH : Z := 6.
Definition MIN_LOGS_FOR_PREDICTION : Z := 1.

(** The comparator of [addPeriodLog]'s sort. *)
Definition byStartDescending (a b : PeriodLog) : Z := startDate b - startDate a.

(** Newest first: [a] starts no earlier than [b]. *)
Definition newestFirst (a b : PeriodLog) : Prop := startDate b <= startDate a.

(** [addPeriodLog] on the contents of [this.periodLogs]: push a copy of
    the log, then sort newest first. *)
Definition addPeriodLog (log : PeriodLog) (periodLogs : list PeriodLog)
  : list PeriodLog :=
  let newLog := {| id := id log; startDate := startDate log;
                   endDate := endDate log; flow := flow log |} in
  Array_sort byStartDescending (periodLogs ++ [newLog]).

Definition clearLogs (periodLogs : list PeriodLog) : list PeriodLog := [].

Definition plausibleCycle (cycleDays : Z) : bool :=
  (21 <=? cycleDays) && (cycleDays <=? 35).

(** The loop of [calculateAverageCycleLength] over [i] and [i + 1]. *)
Fixpoint cycleLoop (periodLogs : list PeriodLog) (totalDays validCycles : Z)
  : Z * Z :=
  match periodLogs with
  | current :: (next :: _) as rest =>
      let cycleDays := differenceInDays (startDate current) (startDate next) in
      if plausibleCycle cycleDays
      then cycleLoop rest (totalDays + cycleDays) (validCycles + 1)
      else cycleLoop rest totalDays validCycles
  | _ => (totalDays, validCycles)
  end.

Definition calculateAverageCycleLength (periodLogs : list PeriodLog) : Z :=
  if Z.of_nat (length periodLogs) <? 2 then DEFAULT_CYCLE_LENGTH
  else
    let '(totalDays, validCycles) := cycleLoop periodLogs 0 0 in
    if 0 <? validCycles then Math_round_div totalDays validCycles
    else DEFAULT_CYCLE_LENGTH.

Definition plausiblePeriod (periodDays : Z) : bool :=
  (3 <=? periodDays) && (periodDays <=? 10).

Definition periodLoop (periodLogs : list PeriodLog) : Z * Z :=
  fold_left
    (fun '(totalDays, validPeriods) log =>
       let periodDays := differenceInDays (endDate log) (startDate log) + 1 in
       if plausiblePeriod periodDays
       then (totalDays + periodDays, validPeriods + 1)
       else (totalDays, validPeriods))
    periodLogs (0, 0).

Definition calculateAveragePeriodLength (periodLogs : list PeriodLog) : Z :=
  if Z.of_nat (length periodLogs) =? 0 then DEFAULT_PERIOD_LENGTH
  else
    let '(totalDays, validPeriods) := periodLoop periodLogs in
    if 0 <? validPeriods then Math_round_div totalDays validPeriods
    else DEFAULT_PERIOD_LENGTH.

(** [for (let i = lo; i < lo + n; i++)]: the values taken by [i]. *)
Definition range (lo : Z) (n : Z) : list Z :=
  map (fun k => lo + Z.of_nat k) (seq 0 (Z.to_nat n)).

Definition taper (i : Z) : Intensity :=
  if i =? 0 then heavy else if i <? 2 then medium else light.

(** The entries pushed for one logged period. *)
Definition loggedDays (log : PeriodLog) : list CycleDay :=
  let days := differenceInDays (endDate log) (startDate log) + 1 in
  map (fun i => {| date := addDays (startDate log) i; phase := period;
                   intensity := taper i; prediction := Some false |})
      (range 0 days).

(** [if (!cycleDays.some(d => isSameDay(d.date, date))) cycleDays.push(..)] *)
Definition pushUnlessSameDay (cycleDays : list CycleDay) (entry : CycleDay)
  : list CycleDay :=
  if existsb (fun d => isSameDay (date d) (date entry)) cycleDays
  then cycleDays else cycleDays ++ [entry].

(** The anchor of the projection (lines "Calculate next period start"). *)
Definition nextPeriodStart (periodLogs : list PeriodLog) (fromDate : Date)
  : option Date :=
  match periodLogs with
  | [] => None
  | mostRecentPeriod :: _ =>
      let cycleLength := calculateAverageCycleLength periodLogs in
      if isAfter fromDate (startDate mostRecentPeriod) then
        let daysSinceLastPeriod :=
          differenceInDays fromDate (startDate mostRecentPeriod) in
        let daysUntilNextPeriod :=
          cycleLength - Z.rem daysSinceLastPeriod cycleLength in
        Some (addDays fromDate daysUntilNextPeriod)
      else Some (startDate mostRecentPeriod)
  end.

(** The body of [for (let cycle = 0; cycle < 3; cycle++)]. *)
Definition projectCycle (anchor : Date) (cycleLength periodLength : Z)
    (cycleDays : list CycleDay) (cycle : Z) : list CycleDay :=
  let cycleStartDate := addDays anchor (cycle * cycleLength) in
  let withPeriod :=
    fold_left
      (fun acc day =>
         pushUnlessSameDay acc
           {| date := addDays cycleStartDate day; phase := period;
              intensity := taper day; prediction := Some true |})
      (range 0 periodLength) cycleDays in
  let nextCycleStart := addDays cycleStartDate cycleLength in
  let ovulationDay := subDays nextCycleStart 14 in
  fold_left
    (fun acc day =>
       pushUnlessSameDay acc
         {| date := addDays ovulationDay day;
            phase := if day =? 0 then ovulation else fertile;
            intensity := none; prediction := Some true |})
    (range (-5) 6) withPeriod.

(** The comparator of the final sort. *)
Definition byDateAscending (a b : CycleDay) : Z := date a - date b.

Definition predictNextCycle (periodLogs : list PeriodLog) (fromDate : Date)
  : list CycleDay :=
  match nextPeriodStart periodLogs fromDate with
  | None => []
  | Some anchor =>
      let past := flat_map loggedDays periodLogs in
      let cycleLength := calculateAverageCycleLength periodLogs in
      let periodLength := calculateAveragePeriodLength periodLogs in
      let cycleDays :=
        fold_left (projectCycle anchor cycleLength periodLength)
                  (range 0 3) past in
      Array_sort byDateAscending cycleDays
  end.

(** *** Notions used to state the properties *)

(** The candidate cycle lengths: the day differences between the start
    dates of neighbouring logs of the (newest first) array. *)
Fixpoint candidateCycles (periodLogs : list PeriodLog) : list Z :=
  match periodLogs with
  | current :: (next :: _) as rest =>
      differenceInDays (startDate current) (startDate next) :: candidateCycles rest
  | _ => []
  end.

Definition sumZ (l : list Z) : Z := fold_right Z.add 0 l.

(** [z] is an integer nearest to the fraction [num / den]. *)
Definition nearestInteger (num den z : Z) : Prop :=
  Z.abs (2 * den * z - 2 * num) <= den.

(** The service after [logs.forEach(log => service.addPeriodLog(log))]. *)
Definition loadLogs (logs : list PeriodLog) : list PeriodLog :=
  fold_left (fun periodLogs log => addPeriodLog log periodLogs) logs [].

Definition mostRecent (m : PeriodLog) (logs : list PeriodLog) : Prop :=
  In m logs /\ forall l, In l logs -> startDate l <= startDate m.

(** [a] is [start] advanced by a whole multiple of [cycleLength] days. *)
Definition advancedBy (start : Date) (cycleLength : Z) (a : Date) : Prop :=
  exists k, 0 <= k /\ a = addDays start (k * cycleLength).

(** Advancing "until the projected start is on or after [fromDate]". *)
Definition firstAdvanceOnOrAfter (start : Date) (cycleLength : Z)
    (fromDate a : Date) : Prop :=
  advancedBy start cycleLength a /\ fromDate <= a
  /\ forall b, advancedBy start cycleLength b -> fromDate <= b -> a <= b.

(** Advancing until the projected start is strictly after [fromDate]. *)
Definition firstAdvanceAfter (start : Date) (cycleLength : Z)
    (fromDate a : Date) : Prop :=
  advancedBy start cycleLength a /\ fromDate < a
  /\ forall b, advancedBy start cycleLength b -> fromDate < b -> a <= b.

(** [cycleDays] holds every entry of [past], and whatever else it holds
    shares its calendar day with no entry of [past]. *)
Definition extendsPast (past cycleDays : list CycleDay) : Prop :=
  (forall e, In e past -> In e cycleDays)
  /\ (forall e, In e cycleDays ->
       In e past \/ forall p, In p past -> isSameDay (date p) (date e) = false).

End CycleCalculation.

(* ===================================================================== *)
(** ** The service object: [this.periodLogs] as a shared array *)

(** [CycleCalculationService] keeps its logs in an array that [addPeriodLog]
  mutates in place ([push], [sort]), that [clearLogs] replaces by a new
  empty array and that [getPeriodLogs] copies.  Arrays live in a store
  indexed by references, so that two names for one array can be told
  from two arrays with the same contents. *)
Module Service.

Definition ref := positive.

Record t := mk {
  arrays : gmap ref (list CycleCalculation.PeriodLog);
  periodLogs : ref
}.

(** What [this.periodLogs] holds. *)
Definition contents (s : t) : list CycleCalculation.PeriodLog :=
  default [] (arrays s !! periodLogs s).

(** [new CycleCalculationService()]: [periodLogs = []]. *)
Definition create : t := {| arrays := {[ 1%positive := [] ]}; periodLogs := 1%positive |}.

Definition clearLogs (s : t) : t :=
  let r := fresh (dom (arrays s)) in
  {| arrays := <[ r := [] ]> (arrays s); periodLogs := r |}.

Definition addPeriodLog (log : CycleCalculation.PeriodLog) (s : t) : t :=
  {| arrays := <[ periodLogs s := CycleCalculation.addPeriodLog log (contents s) ]> (arrays s);
     periodLogs := periodLogs s |}.

(** [return [...this.periodLogs]]: the reference handed out and the
    service afterwards. *)
Definition getPeriodLogs (s : t) : ref * t :=
  let r := fresh (dom (arrays s)) in
  (r, {| arrays := <[ r := contents s ]> (arrays s); periodLogs := periodLogs s |}).

(** A caller overwriting an array it holds a reference to. *)
Definition overwrite (r : ref) (new : list CycleCalculation.PeriodLog) (s : t) : t :=
  {| arrays := <[ r := new ]> (arrays s); periodLogs := periodLogs s |}.

Definition predictNextCycle (s : t) (fromDate : Date) : list CycleCalculation.CycleDay :=
  CycleCalculation.predictNextCycle (contents s) fromDate.

Inductive Call :=
| CallAdd (log : CycleCalculation.PeriodLog)
| CallClear.

Definition call (s : t) (c : Call) : t :=
  match c with
  | CallAdd log => addPeriodLog log s
  | CallClear => clearLogs s
  end.

Definition run (calls : list Call) : t := fold_left call calls create.

(** The array reference of a service is allocated in the store. *)
Definition allocated (s : t) : Prop := is_Some (arrays s !! periodLogs s).

End Service.

(* ===================================================================== *)
(** ** CycleLog (types/cycle.ts), the fields the services read *)

Module CycleLog.
Record t := mk {
  startDate : Date;
  endDate : option Date;      (* Date | null *)
  length : option R           (* number | null *)
}.
End CycleLog.

(* ===================================================================== *)
(** ** FertilityPredictionService *)

Module FertilityPrediction.

Inductive FertilityType := HIGHLY_FERTILE | FERTILE | LESS_FERTILE | INFERTILE.
Inductive FertilityPhase := MENSTRUAL | FOLLICULAR | OVULATION | LUTEAL.

Record FertilityWindow := mkWindow {
  start : Date;
  end_ : Date;
  type : FertilityType;
  probability : Q
}.

Record OvulationPrediction := mkPrediction {
  expectedDate : Date;
  confidence : Q;
  fertilityWindows : list FertilityWindow
}.

(** The fields of [FertilityStats] that [predictNextOvulation] reads. *)
Record FertilityStats := mkStats {
  averageOvulationDay : Z;
  confidenceLevel : Q
}.

Definition HIGHLY_FERTILE_WINDOW : Z := 3.

(** The windows built around an ovulation instant. *)
Definition windowsAround (expectedOvulationDate : Date) : list FertilityWindow :=
  [ {| start := expectedOvulationDate - HIGHLY_FERTILE_WINDOW * 24 * 60 * 60 * 1000;
       end_ := expectedOvulationDate;
       type := HIGHLY_FERTILE; probability := 3 # 10 |};
    {| start := expectedOvulationDate;
       end_ := expectedOvulationDate + 2 * 24 * 60 * 60 * 1000;
       type := FERTILE; probability := 2 # 10 |};
    {| start := expectedOvulationDate - (HIGHLY_FERTILE_WINDOW + 2) * 24 * 60 * 60 * 1000;
       end_ := expectedOvulationDate - HIGHLY_FERTILE_WINDOW * 24 * 60 * 60 * 1000;
       type := LESS_FERTILE; probability := 1 # 10 |} ].

(** [None]: [cycles[0]] is undefined and reading its [startDate] throws. *)
Definition predictNextOvulation (cycles : list CycleLog.t) (stats : FertilityStats)
  : option OvulationPrediction :=
  match cycles with
  | [] => None
  | lastCycle :: _ =>
      let expectedOvulationDate :=
        addDays (CycleLog.startDate lastCycle) (averageOvulationDay stats) in
      Some {| expectedDate := expectedOvulationDate;
              confidence := confidenceLevel stats;
              fertilityWindows := windowsAround expectedOvulationDate |}
  end.

Definition determineFertilityPhase (date : Date) (prediction : OvulationPrediction)
  : FertilityPhase :=
  let daysDiff := Math_round_div (date - expectedDate prediction) (1000 * 60 * 60 * 24) in
  if daysDiff =? 0 then OVULATION
  else if (daysDiff <? 0) && (-5 <=? daysDiff) then FOLLICULAR
  else if (0 <? daysDiff) && (daysDiff <=? 14) then LUTEAL
  else FOLLICULAR.

(** The test of [calculateDailyProbability]:
    [date >= w.start && date <= w.end]. *)
Definition inWindow (date : Date) (w : FertilityWindow) : bool :=
  (start w <=? date) && (date <=? end_ w).

Definition calculateDailyProbability (date : Date) (prediction : OvulationPrediction)
  : Q :=
  match List.find (inWindow date) (fertilityWindows prediction) with
  | Some window => (probability window * confidence prediction)%Q
  | None => 0%Q
  end.

(** *** Notions used to state the properties *)

(** A window covers the calendar days [first]..[last]: the instants it
    answers are those from midnight of [first] up to, and not including,
    the midnight that closes [last]. *)
Definition coversDays (w : FertilityWindow) (first last : Date) : Prop :=
  forall date, inWindow date w = true <-> first <= date < addDays last 1.

End FertilityPrediction.

(* ===================================================================== *)
(** ** CyclePredictionService *)

(** JavaScript numbers are read as real numbers: rounding error of the
  double arithmetic is not represented.  Where the source would leave the
  finite numbers (a division by zero: no usable cycle length, or a zero
  mean) this reading says nothing, and the statements below exclude it by
  hypothesis. *)
Module CyclePrediction.

Local Open Scope R_scope.

Record CycleAnalysis := mkAnalysis {
  mean : R;
  standardDeviation : R;
  regularityScore : R;
  isRegular : bool
}.

Inductive Exception := Error (message : string).

Definition REGULARITY_THRESHOLD : R := 15 / 100.
Definition MIN_CYCLES_FOR_PREDICTION : Z := 3.

Inductive CyclePhase := menstrual | follicular | ovulation | luteal.

(** [TYPICAL_PHASE_LENGTHS], in the order of its keys. *)
Definition TYPICAL_PHASE_LENGTHS : list (CyclePhase * (R * R)) :=
  [ (menstrual, (3, 7)); (follicular, (7, 14));
    (ovulation, (1, 2)); (luteal, (12, 16)) ].

(** Truthiness of a number: neither zero nor absent. *)
Definition truthy (x : R) : bool := if Req_dec_T x 0 then false else true.

(** [cycles.filter(c => c.endDate && c.length).map(c => c.length!)] *)
Definition usableLengths (cycles : list CycleLog.t) : list R :=
  flat_map
    (fun cycle =>
       match CycleLog.endDate cycle, CycleLog.length cycle with
       | Some _, Some len => if truthy len then [len] else []
       | _, _ => []
       end)
    cycles.

Definition Math_max (a b : R) : R := Rmax a b.
Definition Math_min (a b : R) : R := Rmin a b.
Definition Math_sqrt (x : R) : R := sqrt x.

(** [Math.round]: nearest integer, ties toward plus infinity. *)
Definition Math_round (x : R) : R := IZR (Int_part (x + / 2)).

(** The time value of [new Date(x)]: [x] truncated toward zero. *)
Definition timeClip (x : R) : Date :=
  if Rle_dec 0 x then Int_part x else (- Int_part (- x))%Z.

Definition analyzeCycles (cycles : list CycleLog.t) : Exception + CycleAnalysis :=
  if (Z.of_nat (List.length cycles) <? MIN_CYCLES_FOR_PREDICTION)%Z
  then inl (Error "Not enough cycle data for analysis")
  else
    let lengths := usableLengths cycles in
    let mean :=
      fold_left (fun sum len => sum + len) lengths 0 / INR (List.length lengths) in
    let variance :=
      fold_left (fun sum len => let diff := len - mean in sum + diff * diff)
                lengths 0 / INR (List.length lengths) in
    let standardDeviation := Math_sqrt variance in
    let variationCoefficient := standardDeviation / mean in
    let regularityScore :=
      Math_max 0 (Math_min 100 (100 * (1 - variationCoefficient / (3 / 10)))) in
    let isRegular :=
      if Rle_dec variationCoefficient REGULARITY_THRESHOLD then true else false in
    inr {| mean := mean; standardDeviation := standardDeviation;
           regularityScore := regularityScore; isRegular := isRegular |}.

Definition calculatePredictionConfidence (analysis : CycleAnalysis) (cycleCount : Z)
  : R :=
  let confidence := regularityScore analysis in
  let cycleCountFactor :=
    Math_min 1 (IZR (cycleCount - MIN_CYCLES_FOR_PREDICTION) / 9) in
  let confidence := confidence * (7 / 10 + 3 / 10 * cycleCountFactor) in
  let variationPenalty :=
    Math_max 0 (1 - standardDeviation analysis / mean analysis) in
  let confidence := confidence * (8 / 10 + 2 / 10 * variationPenalty) in
  Math_round (Math_max 0 (Math_min 100 confidence)).

(** [predictCyclePhases]: the phases in key order, each with its start
    and end instant. *)
Definition predictCyclePhases (cycleStart : Date) (cycleLength : R)
  : list (CyclePhase * (Date * Date)) :=
  let totalPhaseLength :=
    fold_left (fun sum '(_, (min, max)) => sum + (min + max) / 2)
              TYPICAL_PHASE_LENGTHS 0 in
  let scaleFactor := cycleLength / totalPhaseLength in
  snd (fold_left
         (fun '(currentDate, phases) '(phase, (min, max)) =>
            let avgLength := (min + max) / 2 * scaleFactor in
            let start := currentDate in
            let end_ := timeClip (IZR currentDate + avgLength * 24 * 60 * 60 * 1000) in
            (end_, phases ++ [(phase, (start, end_))]))
         TYPICAL_PHASE_LENGTHS (cycleStart, [])).

Record CyclePrediction := mkPrediction {
  nextPeriodStart : Date;
  nextPeriodEnd : Date;
  confidence : R;
  basedOnCycles : Z;
  averageCycleLength : R;
  predictionStandardDeviation : R;
  predictionRegularityScore : R;
  phasesPrediction : list (CyclePhase * (Date * Date));
  lastUpdated : Date
}.

(** [now] is the clock reading of [lastUpdated: new Date()]. *)
Definition predictNextCycle (now : Date) (cycles : list CycleLog.t)
  : Exception + CyclePrediction :=
  match analyzeCycles cycles with
  | inl e => inl e
  | inr analysis =>
      match cycles with
      | [] => inl (Error "Cannot read properties of undefined")
      | lastCycle :: _ =>
          let recentCycles := firstn (Nat.min 6 (List.length cycles)) cycles in
          let weights :=
            map (fun i => (8 / 10) ^ i) (seq 0 (List.length recentCycles)) in
          let weightedSum :=
            fold_left
              (fun sum '(cycle, w) =>
                 let len := match CycleLog.length cycle with
                            | Some l => if truthy l then l else mean analysis
                            | None => mean analysis
                            end in
                 sum + len * w)
              (combine recentCycles weights) 0 in
          let totalWeight := fold_left (fun sum w => sum + w) weights 0 in
          let predictedLength := weightedSum / totalWeight in
          let nextStart :=
            timeClip (IZR (CycleLog.startDate lastCycle)
                      + predictedLength * 24 * 60 * 60 * 1000) in
          let nextEnd :=
            timeClip (IZR nextStart + mean analysis * 24 * 60 * 60 * 1000) in
          inr {| nextPeriodStart := nextStart;
                 nextPeriodEnd := nextEnd;
                 confidence :=
                   calculatePredictionConfidence analysis (Z.of_nat (List.length cycles));
                 basedOnCycles := Z.of_nat (List.length cycles);
                 averageCycleLength := mean analysis;
                 predictionStandardDeviation := standardDeviation analysis;
                 predictionRegularityScore := regularityScore analysis;
                 phasesPrediction := predictCyclePhases nextStart (mean analysis);
                 lastUpdated := now |}
      end
  end.

(** *** Notions used to state the properties *)

Definition sumR (l : list R) : R := fold_right Rplus 0 l.

Definition arithmeticMean (l : list R) : R := sumR l / INR (List.length l).

(** The standard deviation of a list about its own mean. *)
Definition standardDeviationOf (l : list R) : R :=
  sqrt (sumR (map (fun x => (x - arithmeticMean l) * (x - arithmeticMean l)) l)
        / INR (List.length l)).

Definition variationCoefficientOf (l : list R) : R :=
  standardDeviationOf l / arithmeticMean l.

(** The lengths of the completed cycles, in the order of the cycles: a
    cycle counts when it has an end date and a recorded length other than
    zero; every other cycle is passed over. *)
Inductive completedLengths : list CycleLog.t -> list R -> Prop :=
| completed_none : completedLengths [] []
| completed_cycle (start end_ : Date) (len : R) cycles lengths :
    len <> 0 ->
    completedLengths cycles lengths ->
    completedLengths (CycleLog.mk start (Some end_) (Some len) :: cycles)
                     (len :: lengths)
| completed_skip (cycle : CycleLog.t) cycles lengths :
    CycleLog.endDate cycle = None \/ CycleLog.length cycle = None
    \/ CycleLog.length cycle = Some 0 ->
    completedLengths cycles lengths ->
    completedLengths (cycle :: cycles) lengths.

End CyclePrediction.

(* ===================================================================== *)
(** ** CycleCalculationService: the queries built on the projection *)

Module CycleQueries.

(** [getCurrentPhase(date)]: the phase and [daysUntil]. *)
Definition getCurrentPhase (periodLogs : list CycleCalculation.PeriodLog)
    (date : Date) : CycleCalculation.DayPhase * Z :=
  if Z.of_nat (length periodLogs) =? 0 then (CycleCalculation.unknown, 0)
  else
    let predictions := CycleCalculation.predictNextCycle periodLogs date in
    match List.find (fun day => isSameDay (CycleCalculation.date day) date)
                    predictions with
    | Some currentDayPrediction => (CycleCalculation.phase currentDayPrediction, 0)
    | None =>
        match List.find (fun day => isAfter (CycleCalculation.date day) date)
                        predictions with
        | Some nextPrediction =>
            (CycleCalculation.phase nextPrediction,
             differenceInDays (CycleCalculation.date nextPrediction) date)
        | None => (CycleCalculation.unknown, 0)
        end
    end.

Record FertilityInfo := mkFertilityInfo {
  isFertile : bool;
  isOvulation : bool;
  nextFertileStart : option Date;
  nextOvulation : option Date
}.

Definition fertileOrOvulation (p : CycleCalculation.DayPhase) : bool :=
  match p with
  | CycleCalculation.fertile | CycleCalculation.ovulation => true
  | _ => false
  end.

Definition isOvulationPhase (p : CycleCalculation.DayPhase) : bool :=
  match p with
  | CycleCalculation.ovulation => true
  | _ => false
  end.

Definition getFertilityInfo (periodLogs : list CycleCalculation.PeriodLog)
    (date : Date) : FertilityInfo :=
  if Z.of_nat (length periodLogs) =? 0
  then {| isFertile := false; isOvulation := false;
          nextFertileStart := None; nextOvulation := None |}
  else
    let predictions := CycleCalculation.predictNextCycle periodLogs date in
    let currentDay :=
      List.find (fun day => isSameDay (CycleCalculation.date day) date) predictions in
    let isFertile :=
      match currentDay with
      | Some day => fertileOrOvulation (CycleCalculation.phase day)
      | None => false
      end in
    let isOvulation :=
      match currentDay with
      | Some day => isOvulationPhase (CycleCalculation.phase day)
      | None => false
      end in
    let futureDays :=
      List.filter (fun day => isAfter (CycleCalculation.date day) date) predictions in
    let nextFertileDay :=
      List.find (fun day => fertileOrOvulation (CycleCalculation.phase day)) futureDays in
    let nextOvulationDay :=
      List.find (fun day => isOvulationPhase (CycleCalculation.phase day)) futureDays in
    {| isFertile := isFertile; isOvulation := isOvulation;
       nextFertileStart := option_map CycleCalculation.date nextFertileDay;
       nextOvulation := option_map CycleCalculation.date nextOvulationDay |}.

End CycleQueries.

(** [CycleCalculationService.calculateCurrentPhase], the fixed-boundary
    phase of a day of the cycle.  [today] is the clock reading of
    [new Date()]. *)
Module PhaseOfCycle.

Inductive CyclePhase := menstrual | follicular | ovulation | luteal.

Record PhaseInfo := mkPhaseInfo {
  name : string;
  description : string;
  symptoms : list string;
  duration : Z
}.

Definition PHASE_INFO (phase : CyclePhase) : PhaseInfo :=
  match phase with
  | menstrual =>
      {| name := "Menstrual Phase"; description := "Your period is here";
         symptoms := ["Menstrual flow"; "Possible cramps"; "May feel tired"]%string;
         duration := 5 |}
  | follicular =>
      {| name := "Follicular Phase"; description := "Building up energy";
         symptoms := ["Increasing energy"; "Enhanced mood"; "Skin improvements"]%string;
         duration := 7 |}
  | ovulation =>
      {| name := "Ovulation Phase"; description := "High fertility window";
         symptoms := ["Increased energy levels"; "Peak fertility";
                      "Heightened sense of well-being"]%string;
         duration := 4 |}
  | luteal =>
      {| name := "Luteal Phase"; description := "Post-ovulation phase";
         symptoms := ["Possible mood changes"; "Energy levels decreasing";
                      "May experience PMS"]%string;
         duration := 12 |}
  end.

Record CurrentPhase := mkCurrentPhase {
  phase : CyclePhase;
  dayOfCycle : Z;
  daysUntilNextPhase : Z;
  nextPeriodIn : Z;
  phaseInfo : PhaseInfo
}.

Definition calculateCurrentPhase (today lastPeriodDate : Date) (cycleLength : Z)
  : CurrentPhase :=
  let dayOfCycle := differenceInDays today lastPeriodDate + 1 in
  let '(phase, daysUntilNextPhase) :=
    if dayOfCycle <=? 5 then (menstrual, 5 - dayOfCycle + 1)
    else if dayOfCycle <=? 12 then (follicular, 12 - dayOfCycle + 1)
    else if dayOfCycle <=? 16 then (ovulation, 16 - dayOfCycle + 1)
    else (luteal, cycleLength - dayOfCycle + 1) in
  let nextPeriodDate := addDays lastPeriodDate cycleLength in
  let nextPeriodIn := differenceInDays nextPeriodDate today in
  {| phase := phase; dayOfCycle := dayOfCycle;
     daysUntilNextPhase := daysUntilNextPhase; nextPeriodIn := nextPeriodIn;
     phaseInfo := PHASE_INFO phase |}.

(** The first day of the phase that follows [phase]. *)
Definition firstDayAfter (phase : CyclePhase) (cycleLength : Z) : Z :=
  match phase with
  | menstrual => 6
  | follicular => 13
  | ovulation => 17
  | luteal => cycleLength + 1
  end.

End PhaseOfCycle.

(* ===================================================================== *)
(** ** BirthControlService: the utility methods *)

(** Calendar readings of a [Date], in UTC. *)
Module Calendar.

(** [d.setHours(0, 0, 0, 0)]: the first instant of the day of [d]. *)
Definition startOfDay (d : Date) : Date := dayNumber d * MS_PER_DAY.

(** [d.getDay()]: 0 is Sunday; 1970-01-01 was a Thursday. *)
Definition getDay (d : Date) : Z := (dayNumber d + 4) mod 7.

(** [d.getDate()]: the day of the month, by the inverse of
    [daysFromCivil]. *)
Definition getDate (d : Date) : Z :=
  let z := dayNumber d + 719468 in
  let era := z / 146097 in
  let doe := z - era * 146097 in
  let yoe := (doe - doe / 1460 + doe / 36524 - doe / 146096) / 365 in
  let doy := doe - (365 * yoe + yoe / 4 - yoe / 100) in
  let mp := (5 * doy + 2) / 153 in
  doy - (153 * mp + 2) / 5 + 1.

Definition weekdayNames : list string :=
  ["sunday"; "monday"; "tuesday"; "wednesday"; "thursday"; "friday"; "saturday"]%string.

End Calendar.

Module BirthControl.

Inductive Frequency :=
  daily | weekly | monthly | quarterly | yearly | multi_year | as_needed.

(** [BirthControlMethod], the fields the utility methods read. *)
Record BirthControlMethod := mkMethod {
  frequency : Frequency;
  startDate : Date;
  reminderDays : option (list string);
  active : bool
}.

(** [BirthControlLog], the fields the utility methods read. *)
Record BirthControlLog := mkLog {
  methodId : string;
  date : Date;
  taken : bool;
  skipped : bool
}.

(** The rate is a JavaScript number, read as a rational. *)
Definition getAdherenceRate (logs : list BirthControlLog) : Q :=
  if Z.of_nat (length logs) =? 0 then 100%Q
  else
    let takenCount := length (List.filter taken logs) in
    ((Z.of_nat takenCount # 1) / (Z.of_nat (length logs) # 1) * 100)%Q.

Definition byDateDescending (a b : BirthControlLog) : Z := date b - date a.

(** [now] is the clock reading of [new Date()]. *)
Definition getMissedDoses (now : Date) (logs : list BirthControlLog) (days : Z)
  : list BirthControlLog :=
  let cutoffDate := addDays now (- days) in
  Array_sort byDateDescending
    (List.filter (fun log => negb (taken log) && (cutoffDate <=? date log)) logs).

Definition shouldTakeToday (now : Date) (method : BirthControlMethod)
    (logs : list BirthControlLog) : bool :=
  if negb (active method) then false
  else
    let today := Calendar.startOfDay now in
    let todayLog :=
      List.find
        (fun log => (Calendar.startOfDay (date log) =? today) && taken log) logs in
    match todayLog with
    | Some _ => false
    | None =>
        match frequency method with
        | daily => true
        | weekly =>
            match reminderDays method with
            | None => false
            | Some reminderDays =>
                let dayOfWeek :=
                  nth (Z.to_nat (Calendar.getDay today)) Calendar.weekdayNames
                      ""%string in
                existsb (String.eqb dayOfWeek) reminderDays
            end
        | monthly =>
            let dayOfMonth := Calendar.getDate today in
            let startDayOfMonth := Calendar.getDate (startDate method) in
            dayOfMonth =? startDayOfMonth
        | _ => false
        end
    end.

End BirthControl.

(* ===================================================================== *)
(** ** FertilityPredictionService: daily status and statistics *)

Module FertilityDaily.
Import FertilityPrediction.

Record DailyFertilityStatus := mkStatus {
  date : Date;
  phase : FertilityPhase;
  probability : Q;
  notes : list string
}.

Definition generateDailyNotes (date : Date) (prediction : OvulationPrediction)
  : list string :=
  let daysDiff := Math_round_div (date - expectedDate prediction) (1000 * 60 * 60 * 24) in
  if daysDiff =? 0 then
    [ "Ovulation day - highest chance of conception";
      "Egg survives for about 24 hours after release" ]%string
  else if (-3 <=? daysDiff) && (daysDiff <? 0) then
    [ "Highly fertile days - recommended for conception";
      "Sperm can survive up to 5 days in fertile cervical mucus" ]%string
  else [].

(** The [while (currentDate <= endDate)] loop; [fuel] bounds the number of
    rounds. *)
Fixpoint dailyLoop (fuel : nat) (currentDate endDate : Date)
    (prediction : OvulationPrediction) : list DailyFertilityStatus :=
  match fuel with
  | O => []
  | S fuel' =>
      if currentDate <=? endDate then
        {| date := currentDate;
           phase := determineFertilityPhase currentDate prediction;
           probability := calculateDailyProbability currentDate prediction;
           notes := generateDailyNotes currentDate prediction |}
        :: dailyLoop fuel' (addDays currentDate 1) endDate prediction
      else []
  end.

(** The loop is given one round per started day of the range. *)
Definition calculateDailyFertilityStatus (startDate endDate : Date)
    (prediction : OvulationPrediction) : list DailyFertilityStatus :=
  dailyLoop (Z.to_nat ((endDate - startDate) / MS_PER_DAY + 1))
            startDate endDate prediction.

End FertilityDaily.

Module FertilityStatistics.

Local Open Scope R_scope.

Definition MINIMUM_CYCLES_FOR_PREDICTION : Z := 3.
Definition AVERAGE_LUTEAL_PHASE : Z := 14.

Inductive Exception := Error (message : string).

(** [FertilityStats] as [calculateFertilityStats] builds it; the numbers
    that pass through [Math.sqrt] are read as reals. *)
Record FertilityStats := mkStats {
  averageOvulationDay : Z;
  cycleRegularity : R;
  confidenceLevel : R;
  lastCalculated : Date;
  ovulationDays : list Z;
  cycleLengths : list Z;
  lutealPhaseLengths : list Z
}.

(** [Math.round((end - start) / (1000 * 60 * 60 * 24))] per cycle, 0 when
    the cycle has no end date, keeping the positive values. *)
Definition cycleLengthsOf (cycles : list CycleLog.t) : list Z :=
  List.filter (fun len => (0 <? len)%Z)
    (map (fun cycle =>
            match CycleLog.endDate cycle with
            | Some endDate =>
                Math_round_div (endDate - CycleLog.startDate cycle)
                               (1000 * 60 * 60 * 24)
            | None => 0%Z
            end)
         cycles).

(** The estimate for every cycle but the last of the array: the rounded
    day difference to the entry that follows it, minus the luteal phase. *)
Fixpoint ovulationDaysOf (cycles : list CycleLog.t) : list Z :=
  match cycles with
  | cycle :: (nextCycle :: _) as rest =>
      (Math_round_div (CycleLog.startDate nextCycle - CycleLog.startDate cycle)
                      (1000 * 60 * 60 * 24)
       - AVERAGE_LUTEAL_PHASE)%Z
      :: ovulationDaysOf rest
  | _ => []
  end.

Definition calculateFertilityStats (now : Date) (cycles : list CycleLog.t)
  : Exception + FertilityStats :=
  if (Z.of_nat (List.length cycles) <? MINIMUM_CYCLES_FOR_PREDICTION)%Z
  then inl (Error "Insufficient cycle data for prediction")
  else
    let cycleLengths := cycleLengthsOf cycles in
    let ovulationDays := ovulationDaysOf cycles in
    let avgCycleLength :=
      fold_left (fun a b => a + IZR b) cycleLengths 0 / INR (List.length cycleLengths) in
    let cycleVariance :=
      fold_left (fun acc len => acc + (IZR len - avgCycleLength) ^ 2) cycleLengths 0
      / INR (List.length cycleLengths) in
    let cycleRegularity :=
      Rmax 0 (Rmin 1 (1 - sqrt cycleVariance / avgCycleLength)) in
    let confidenceLevel :=
      Rmin 1 (cycleRegularity * (7 / 10)
              + Rmin (INR (List.length cycles) / 12) 1 * (3 / 10)) in
    inr {| averageOvulationDay :=
             Math_round_div (fold_left Z.add ovulationDays 0%Z)
                            (Z.of_nat (List.length ovulationDays));
           cycleRegularity := cycleRegularity;
           confidenceLevel := confidenceLevel;
           lastCalculated := now;
           ovulationDays := ovulationDays;
           cycleLengths := cycleLengths;
           lutealPhaseLengths := map (fun _ => AVERAGE_LUTEAL_PHASE) ovulationDays |}.

(** Newest first, as [getCycleHistory] orders the cycles. *)
Definition newestCycleFirst (a b : CycleLog.t) : Prop :=
  (CycleLog.startDate b <= CycleLog.startDate a)%Z.

End FertilityStatistics.

(* ===================================================================== *)
(** ** CycleSummaryCard: the averages the dashboard computes itself *)

Module SummaryCard.
Import CycleCalculation.

(** The dashboard's loop over the logs as the data service returns them. *)
Definition averageCycleLength (periodLogs : list PeriodLog) : Z :=
  let '(totalCycleDays, validCycles) := cycleLoop periodLogs 0 0 in
  if 0 <? validCycles then Math_round_div totalCycleDays validCycles else 28.

Definition averagePeriodLength (periodLogs : list PeriodLog) : Z :=
  let totalPeriodDays :=
    fold_left
      (fun totalPeriodDays log =>
         let periodDays := differenceInDays (endDate log) (startDate log) + 1 in
         if (3 <=? periodDays) && (periodDays <=? 10)
         then totalPeriodDays + periodDays else totalPeriodDays)
      periodLogs 0 in
  if 0 <? Z.of_nat (length periodLogs)
  then Math_round_div totalPeriodDays (Z.of_nat (length periodLogs))
  else 5.

End SummaryCard.

(* ===================================================================== *)
(** ** CyclePredictionService.analyzeFlowPatterns *)

Module FlowPatterns.

Inductive FlowIntensity := SPOTTING | LIGHT | MEDIUM | HEAVY | VERY_HEAVY.

Definition FlowIntensity_eqb (a b : FlowIntensity) : bool :=
  match a, b with
  | SPOTTING, SPOTTING | LIGHT, LIGHT | MEDIUM, MEDIUM
  | HEAVY, HEAVY | VERY_HEAVY, VERY_HEAVY => true
  | _, _ => false
  end.

(** Of a [CycleLog] the function reads [days], and of a day its [flow]
    ([FlowIntensity | null]). *)
Definition CycleDays := list (option FlowIntensity).

(** [Record<FlowIntensity, { count; totalDays }>], keyed by the flow. *)
Definition Patterns := FlowIntensity -> Z * Z.

Definition emptyPatterns : Patterns := fun _ => (0, 0).

(** [patterns[day.flow].count++; patterns[day.flow].totalDays++] *)
Definition countDay (patterns : Patterns) (day : option FlowIntensity) : Patterns :=
  match day with
  | Some flow =>
      fun f => if FlowIntensity_eqb f flow
               then (fst (patterns f) + 1, snd (patterns f) + 1)
               else patterns f
  | None => patterns
  end.

(** The result per flow: [frequency] and [avgDuration].  In the final
    [reduce] the destructured [totalDays] of the entry hides the total
    over all flows computed just before. *)
Definition analyzeFlowPatterns (cycles : list CycleDays) : FlowIntensity -> Z * Q :=
  let patterns :=
    fold_left (fun patterns cycle => fold_left countDay cycle patterns)
              cycles emptyPatterns in
  fun flow =>
    let '(count, totalDays) := patterns flow in
    (Math_round_div (totalDays * 100) (if totalDays =? 0 then 1 else totalDays),
     if count =? 0 then 0%Q else (totalDays # 1) / (count # 1))%Q.

(** Some day of some cycle has the flow [flow]. *)
Definition occurs (flow : FlowIntensity) (cycles : list CycleDays) : Prop :=
  exists cycle, In cycle cycles /\ In (Some flow) cycle.

End FlowPatterns.

(* ===================================================================== *)
(** ** Further notions used to state the properties *)

Module Notions.
Import CycleCalculation.

(** The period length of every log, in days. *)
Definition periodLengths (periodLogs : list PeriodLog) : list Z :=
  map (fun log => differenceInDays (endDate log) (startDate log) + 1) periodLogs.

(** Earliest first. *)
Definition earliestFirst (a b : CycleDay) : Prop := date a <= date b.

(** How many entries of [cycleDays] fall on the calendar day of [d]. *)
Definition sameDayCount (d : Date) (cycleDays : list CycleDay) : nat :=
  length (List.filter (fun e => isSameDay (date e) d) cycleDays).

(** The logs added since the last [clearLogs]. *)
Definition logsSinceClear (calls : list Service.Call) : list PeriodLog :=
  fold_left
    (fun logs c =>
       match c with
       | Service.CallAdd log => logs ++ [log]
       | Service.CallClear => []
       end)
    calls [].

(** [e] is one of the entries the three projected cycles try to push. *)
Definition projectedEntry (anchor : Date) (cycleLength periodLength : Z)
    (e : CycleDay) : Prop :=
  exists cycle day,
    0 <= cycle < 3
    /\ ((0 <= day < periodLength
         /\ e = {| date := addDays (addDays anchor (cycle * cycleLength)) day;
                   phase := period; intensity := taper day;
                   prediction := Some true |})
        \/ (-5 <= day <= 0
            /\ e = {| date := addDays (subDays (addDays (addDays anchor (cycle * cycleLength))
                                                        cycleLength) 14) day;
                      phase := if day =? 0 then ovulation else fertile;
                      intensity := none; prediction := Some true |})).

End Notions.

(* ===================================================================== *)
(** * Properties *)

(** Membership in a list that has been computed. *)
Ltac find_in := repeat (first [left; reflexivity | right]).

(** ** Day arithmetic *)

Section DayArithmetic.

Lemma MS_PER_DAY_value : MS_PER_DAY = 86400000.
Proof. reflexivity. Qed.

Lemma differenceInDays_aligned (a b k : Z) :
  a - b = k * MS_PER_DAY -> differenceInDays a b = k.
Proof.
  intros E. unfold differenceInDays. rewrite E.
  apply Z.quot_mul. rewrite MS_PER_DAY_value. lia.
Qed.

Lemma differenceInDays_addDays (d n : Z) : differenceInDays (addDays d n) d = n.
Proof. apply differenceInDays_aligned. unfold addDays. lia. Qed.

Lemma differenceInDays_nonneg (a b : Z) : b <= a -> 0 <= differenceInDays a b.
Proof.
  intros H. unfold differenceInDays. apply Z.quot_pos; rewrite ?MS_PER_DAY_value; lia.
Qed.

Lemma dayNumber_addDays (d n : Z) : dayNumber (addDays d n) = dayNumber d + n.
Proof.
  unfold dayNumber, addDays. rewrite Z.div_add by (rewrite MS_PER_DAY_value; lia).
  reflexivity.
Qed.

Lemma calendarDate_ymd (y m d : Z) : calendarDate (ymd y m d).
Proof. unfold calendarDate, ymd. apply Z.mod_mul. rewrite MS_PER_DAY_value; lia. Qed.

Lemma calendarDate_difference (a b : Z) :
  calendarDate a -> calendarDate b ->
  a - b = differenceInDays a b * MS_PER_DAY.
Proof.
  unfold calendarDate. rewrite MS_PER_DAY_value. intros Ha Hb.
  assert (Ea : a = 86400000 * (a / 86400000)) by (apply Z.div_exact; lia).
  assert (Eb : b = 86400000 * (b / 86400000)) by (apply Z.div_exact; lia).
  symmetry. rewrite (differenceInDays_aligned a b (a / 86400000 - b / 86400000)).
  - lia.
  - rewrite MS_PER_DAY_value. lia.
Qed.

End DayArithmetic.

(** ** Sorting *)

Section ArraySortCorrect.
Context {A : Type} (compareFn : A -> A -> Z).
Hypothesis compareFn_converse :
  forall a b, 0 <= compareFn a b -> compareFn b a <= 0.
Hypothesis compareFn_transitive :
  forall a b c, compareFn a b <= 0 -> compareFn b c <= 0 -> compareFn a c <= 0.

Lemma insertSorted_Permutation (x : A) (sorted : list A) :
  insertSorted compareFn x sorted ≡ₚ x :: sorted.
Proof.
  induction sorted as [|y rest IH]; simpl; [reflexivity|].
  destruct (compareFn x y <? 0); [reflexivity|].
  rewrite IH. apply Permutation_swap.
Qed.

Lemma Array_sort_from (l sorted : list A) :
  fold_left (fun sorted x => insertSorted compareFn x sorted) l sorted
    ≡ₚ sorted ++ l.
Proof.
  revert sorted. induction l as [|x l IH]; intros sorted; simpl.
  - rewrite app_nil_r. reflexivity.
  - rewrite IH, insertSorted_Permutation. apply Permutation_middle.
Qed.

Lemma Array_sort_Permutation (l : list A) : Array_sort compareFn l ≡ₚ l.
Proof. apply (Array_sort_from l []). Qed.

Lemma insertSorted_sorted (x : A) (sorted : list A) :
  StronglySorted (inOrder compareFn) sorted ->
  StronglySorted (inOrder compareFn) (insertSorted compareFn x sorted).
Proof.
  induction 1 as [|y rest Hrest IH Hy]; simpl.
  - repeat constructor.
  - destruct (Z.ltb_spec (compareFn x y) 0) as [Hlt|Hge].
    + constructor; [constructor; assumption|].
      constructor; [unfold inOrder; lia|].
      apply List.Forall_forall. intros z Hz.
      rewrite List.Forall_forall in Hy.
      apply (compareFn_transitive x y z); [lia | apply Hy, Hz].
    + constructor; [exact IH|].
      apply List.Forall_forall. intros z Hz.
      apply (Permutation_in z (insertSorted_Permutation x rest)) in Hz.
      destruct Hz as [<-|Hz].
      * apply compareFn_converse, Hge.
      * rewrite List.Forall_forall in Hy. apply Hy, Hz.
Qed.

Lemma Array_sort_sorted (l : list A) :
  StronglySorted (inOrder compareFn) (Array_sort compareFn l).
Proof.
  unfold Array_sort.
  assert (H : StronglySorted (inOrder compareFn) []) by constructor.
  revert H. generalize (@nil A). induction l as [|x l IH]; intros sorted H; simpl.
  - exact H.
  - apply IH, insertSorted_sorted, H.
Qed.

End ArraySortCorrect.

Lemma StronglySorted_weaken {A : Type} (R S : A -> A -> Prop) (l : list A) :
  (forall a b, R a b -> S a b) -> StronglySorted R l -> StronglySorted S l.
Proof.
  intros HRS. induction 1 as [|x l _ IH Hx]; constructor; [exact IH|].
  apply (List.Forall_impl _ (HRS x)), Hx.
Qed.

(** ** The log array is kept newest first *)

Section SortedLogs.
Import CycleCalculation.

Lemma copied_log (log : PeriodLog) :
  {| id := id log; startDate := startDate log;
     endDate := endDate log; flow := flow log |} = log.
Proof. destruct log; reflexivity. Qed.

Lemma addPeriodLog_sorted (log : PeriodLog) (periodLogs : list PeriodLog) :
  StronglySorted newestFirst (addPeriodLog log periodLogs).
Proof.
  unfold addPeriodLog.
  apply (StronglySorted_weaken (inOrder byStartDescending)).
  - unfold inOrder, byStartDescending, newestFirst. intros a b. lia.
  - apply Array_sort_sorted; unfold byStartDescending; lia.
Qed.

Lemma addPeriodLog_Permutation (log : PeriodLog) (periodLogs : list PeriodLog) :
  addPeriodLog log periodLogs ≡ₚ log :: periodLogs.
Proof.
  unfold addPeriodLog. rewrite Array_sort_Permutation, copied_log.
  symmetry. apply Permutation_cons_append.
Qed.

Lemma allocated_create : Service.allocated Service.create.
Proof. unfold Service.allocated, Service.create; simpl. rewrite lookup_singleton_eq. eauto. Qed.

Lemma allocated_call (s : Service.t) (c : Service.Call) :
  Service.allocated s -> Service.allocated (Service.call s c).
Proof.
  unfold Service.allocated. intros H. destruct c; simpl; rewrite lookup_insert_eq; eauto.
Qed.

Lemma sorted_call (s : Service.t) (c : Service.Call) :
  StronglySorted newestFirst (Service.contents s) ->
  StronglySorted newestFirst (Service.contents (Service.call s c)).
Proof.
  intros H. destruct c; unfold Service.contents; simpl; rewrite lookup_insert_eq; simpl.
  - apply addPeriodLog_sorted.
  - constructor.
Qed.

Lemma run_invariant (calls : list Service.Call) :
  Service.allocated (Service.run calls)
  /\ StronglySorted newestFirst (Service.contents (Service.run calls)).
Proof.
  unfold Service.run.
  induction calls as [|c calls IH] using rev_ind.
  - split; [apply allocated_create|].
    unfold Service.contents, Service.create; simpl.
    rewrite lookup_singleton_eq. constructor.
  - rewrite fold_left_app; simpl. destruct IH as [IHa IHs].
    split; [apply allocated_call | apply sorted_call]; assumption.
Qed.

Lemma fresh_not_allocated (s : Service.t) :
  Service.arrays s !! fresh (dom (Service.arrays s)) = None.
Proof. apply not_elem_of_dom. apply is_fresh. Qed.

(** C10.  After any sequence of [addPeriodLog] and [clearLogs] calls the
    internal log array is in descending order of start date, and
    [getPeriodLogs] hands out a new array with the same contents: its
    reference is not the internal one and was not allocated before, the
    internal array is unchanged by the call, overwriting the copy leaves
    the internal array alone, and a later [addPeriodLog] leaves the copy
    alone. *)
Theorem periodLogs_newest_first_and_copied (calls : list Service.Call) :
  let s := Service.run calls in
  StronglySorted newestFirst (Service.contents s)
  /\ (let '(r, s') := Service.getPeriodLogs s in
      r <> Service.periodLogs s
      /\ Service.arrays s !! r = None
      /\ Service.arrays s' !! r = Some (Service.contents s)
      /\ Service.contents s' = Service.contents s
      /\ (forall new, Service.contents (Service.overwrite r new s') = Service.contents s)
      /\ (forall log, Service.arrays (Service.addPeriodLog log s') !! r
                      = Some (Service.contents s))).
Proof.
  intros s. destruct (run_invariant calls) as [Ha Hs]. fold s in Ha, Hs.
  split; [exact Hs|]. unfold Service.getPeriodLogs.
  set (r := fresh (dom (Service.arrays s))).
  assert (Hr : Service.arrays s !! r = None) by apply fresh_not_allocated.
  assert (Hne : r <> Service.periodLogs s).
  { intros E. destruct Ha as [x Hx]. rewrite <- E in Hx. congruence. }
  repeat split; try assumption.
  - simpl. apply lookup_insert_eq.
  - unfold Service.contents; simpl. rewrite lookup_insert_ne by exact Hne. reflexivity.
  - intros new. unfold Service.contents, Service.overwrite; simpl.
    rewrite !lookup_insert_ne by exact Hne. reflexivity.
  - intros log. unfold Service.addPeriodLog; simpl.
    rewrite lookup_insert_ne by congruence. apply lookup_insert_eq.
Qed.

End SortedLogs.

(** ** Averages of the day-level service *)

Section Averages.
Import CycleCalculation.

Lemma sumZ_cons (c : Z) (l : list Z) : sumZ (c :: l) = c + sumZ l.
Proof. reflexivity. Qed.

Lemma cycleLoop_spec (periodLogs : list PeriodLog) (totalDays validCycles : Z) :
  cycleLoop periodLogs totalDays validCycles
  = (totalDays + sumZ (List.filter plausibleCycle (candidateCycles periodLogs)),
     validCycles
     + Z.of_nat (length (List.filter plausibleCycle (candidateCycles periodLogs)))).
Proof.
  revert totalDays validCycles.
  induction periodLogs as [|current rest IH]; intros totalDays validCycles.
  - simpl. f_equal; lia.
  - destruct rest as [|next rest'].
    + simpl. f_equal; lia.
    + change (cycleLoop (current :: next :: rest') totalDays validCycles)
        with (let cycleDays := differenceInDays (startDate current) (startDate next) in
              if plausibleCycle cycleDays
              then cycleLoop (next :: rest') (totalDays + cycleDays) (validCycles + 1)
              else cycleLoop (next :: rest') totalDays validCycles).
      change (candidateCycles (current :: next :: rest'))
        with (differenceInDays (startDate current) (startDate next)
              :: candidateCycles (next :: rest')).
      cbv zeta. cbn [List.filter].
      destruct (plausibleCycle (differenceInDays (startDate current) (startDate next))).
      * rewrite IH. rewrite sumZ_cons, length_cons. f_equal; lia.
      * apply IH.
Qed.

Lemma candidateCycles_short (periodLogs : list PeriodLog) :
  (length periodLogs < 2)%nat -> candidateCycles periodLogs = [].
Proof. destruct periodLogs as [|a [|b l]]; simpl; intros; try reflexivity; lia. Qed.

(** The average as a function of the surviving candidates alone. *)
Lemma calculateAverageCycleLength_spec (periodLogs : list PeriodLog) :
  let surviving := List.filter plausibleCycle (candidateCycles periodLogs) in
  calculateAverageCycleLength periodLogs
  = match surviving with
    | [] => DEFAULT_CYCLE_LENGTH
    | _ => Math_round_div (sumZ surviving) (Z.of_nat (length surviving))
    end.
Proof.
  intros surviving. unfold calculateAverageCycleLength.
  destruct (Z.ltb_spec (Z.of_nat (length periodLogs)) 2) as [Hlt|Hge].
  - unfold surviving. rewrite candidateCycles_short by lia. reflexivity.
  - rewrite cycleLoop_spec. fold surviving. rewrite !Z.add_0_l.
    destruct surviving as [|c l]; [reflexivity|].
    destruct (Z.ltb_spec 0 (Z.of_nat (length (c :: l)))) as [_|H]; [reflexivity|].
    simpl in H. lia.
Qed.

Lemma surviving_bounds (l : list Z) :
  Forall (fun c => 21 <= c <= 35) (List.filter plausibleCycle l).
Proof.
  apply List.Forall_forall. intros c Hc. apply List.filter_In in Hc as [_ Hc].
  unfold plausibleCycle in Hc. lia.
Qed.

Lemma sumZ_bounds (lo hi : Z) (l : list Z) :
  Forall (fun c => lo <= c <= hi) l ->
  lo * Z.of_nat (length l) <= sumZ l <= hi * Z.of_nat (length l).
Proof.
  induction 1 as [|c l Hc _ IH]; [simpl; lia|].
  rewrite sumZ_cons, length_cons. lia.
Qed.

Lemma Math_round_div_nearest (n d : Z) :
  0 < d -> nearestInteger n d (Math_round_div n d).
Proof.
  intros Hd. unfold nearestInteger, Math_round_div.
  pose proof (Z.div_mod (2 * n + d) (2 * d) ltac:(lia)) as E.
  pose proof (Z.mod_pos_bound (2 * n + d) (2 * d) ltac:(lia)) as B.
  generalize dependent ((2 * n + d) mod (2 * d)).
  generalize dependent ((2 * n + d) / (2 * d)).
  intros q r E B. nia.
Qed.

Lemma Math_round_div_bounds (lo hi n d : Z) :
  0 < d -> lo * d <= n <= hi * d -> lo <= Math_round_div n d <= hi.
Proof.
  intros Hd [Hlo Hhi]. unfold Math_round_div. split.
  - apply Z.div_le_lower_bound; lia.
  - apply Z.lt_succ_r. apply Z.div_lt_upper_bound; lia.
Qed.

Lemma calculateAverageCycleLength_bounds (periodLogs : list PeriodLog) :
  21 <= calculateAverageCycleLength periodLogs <= 35.
Proof.
  rewrite calculateAverageCycleLength_spec.
  pose proof (surviving_bounds (candidateCycles periodLogs)) as HF.
  destruct (List.filter plausibleCycle (candidateCycles periodLogs)) as [|c l] eqn:E.
  - unfold DEFAULT_CYCLE_LENGTH; lia.
  - apply Math_round_div_bounds.
    + simpl; lia.
    + apply sumZ_bounds, HF.
Qed.

Lemma surviving_Permutation (l l' : list Z) :
  l ≡ₚ l' ->
  sumZ (List.filter plausibleCycle l) = sumZ (List.filter plausibleCycle l')
  /\ length (List.filter plausibleCycle l) = length (List.filter plausibleCycle l').
Proof.
  induction 1 as [|x l l' _ IH|x y l|l l' l'' _ IH1 _ IH2].
  - split; reflexivity.
  - destruct IH as [IHs IHl]. simpl. destruct (plausibleCycle x); simpl; split; lia.
  - simpl. destruct (plausibleCycle x), (plausibleCycle y); simpl; split; lia.
  - destruct IH1, IH2. split; congruence.
Qed.

(** C6.  Whenever some candidate cycle length lies in [21, 35], the
    average cycle length is [Math.round] of the arithmetic mean of the
    candidates in that range, an integer nearest to that mean; every
    candidate outside the range is absent from the sum and from the
    count.  Logs whose candidates are 28, 29 and 60 (in any order) give
    29, the rounded mean of 28 and 29. *)
Theorem averageCycleLength_discards_outliers (periodLogs : list PeriodLog) :
  let surviving := List.filter plausibleCycle (candidateCycles periodLogs) in
  surviving <> [] ->
  calculateAverageCycleLength periodLogs
    = Math_round_div (sumZ surviving) (Z.of_nat (length surviving))
  /\ nearestInteger (sumZ surviving) (Z.of_nat (length surviving))
                    (calculateAverageCycleLength periodLogs)
  /\ (forall c, In c surviving <->
                In c (candidateCycles periodLogs) /\ 21 <= c <= 35)
  /\ (candidateCycles periodLogs ≡ₚ [28; 29; 60] ->
      calculateAverageCycleLength periodLogs = 29).
Proof.
  intros surviving Hne.
  assert (E : calculateAverageCycleLength periodLogs
              = Math_round_div (sumZ surviving) (Z.of_nat (length surviving))).
  { pose proof (calculateAverageCycleLength_spec periodLogs) as H. cbv zeta in H.
    fold surviving in H. destruct surviving; [congruence | exact H]. }
  split; [exact E|]. split; [|split].
  - rewrite E. apply Math_round_div_nearest.
    destruct surviving; [congruence | simpl; lia].
  - intros c. unfold surviving. rewrite List.filter_In. unfold plausibleCycle.
    rewrite andb_true_iff, !Z.leb_le. tauto.
  - intros HP. rewrite E. unfold surviving.
    destruct (surviving_Permutation _ _ HP) as [-> ->]. reflexivity.
Qed.

(** The four logs start 60, 29 and 28 days apart. *)
Lemma averageCycleLength_discards_outliers_witness :
  let periodLogs :=
    loadLogs [ mkPeriodLog None (ymd 2024 1 1) (ymd 2024 1 5) FlowMedium;
               mkPeriodLog None (ymd 2024 3 1) (ymd 2024 3 5) FlowMedium;
               mkPeriodLog None (ymd 2024 3 30) (ymd 2024 4 3) FlowMedium;
               mkPeriodLog None (ymd 2024 4 27) (ymd 2024 5 1) FlowMedium ] in
  candidateCycles periodLogs = [28; 29; 60]
  /\ calculateAverageCycleLength periodLogs = 29.
Proof.
  intros periodLogs. split; [reflexivity|].
  apply (averageCycleLength_discards_outliers periodLogs); [discriminate|].
  reflexivity.
Defined.

End Averages.

(** ** The anchor of the projection *)

Section Anchor.
Import CycleCalculation.

Lemma loadLogs_from (logs periodLogs : list PeriodLog) :
  fold_left (fun periodLogs log => addPeriodLog log periodLogs) logs periodLogs
    ≡ₚ periodLogs ++ logs
  /\ (StronglySorted newestFirst periodLogs ->
      StronglySorted newestFirst
        (fold_left (fun periodLogs log => addPeriodLog log periodLogs) logs periodLogs)).
Proof.
  revert periodLogs. induction logs as [|log logs IH]; intros periodLogs; simpl.
  - rewrite app_nil_r. split; [reflexivity | tauto].
  - destruct (IH (addPeriodLog log periodLogs)) as [IHp IHs]. split.
    + rewrite IHp, addPeriodLog_Permutation.
      rewrite (Permutation_middle periodLogs logs log). reflexivity.
    + intros _. apply IHs, addPeriodLog_sorted.
Qed.

Lemma loadLogs_Permutation (logs : list PeriodLog) : loadLogs logs ≡ₚ logs.
Proof. apply (loadLogs_from logs []). Qed.

Lemma loadLogs_sorted (logs : list PeriodLog) :
  StronglySorted newestFirst (loadLogs logs).
Proof. apply (loadLogs_from logs []). constructor. Qed.

(** The first entry of the loaded array is a most recent log. *)
Lemma loadLogs_head (logs : list PeriodLog) (m : PeriodLog) :
  mostRecent m logs ->
  exists first rest, loadLogs logs = first :: rest /\ startDate first = startDate m.
Proof.
  intros [Hin Hmax].
  pose proof (loadLogs_Permutation logs) as HP.
  pose proof (loadLogs_sorted logs) as HS.
  destruct (loadLogs logs) as [|first rest] eqn:E.
  - apply Permutation_nil in HP. subst logs. destruct Hin.
  - exists first, rest. split; [reflexivity|].
    assert (Hfirst : In first logs).
    { apply (Permutation_in first HP). left; reflexivity. }
    assert (Hm : In m (first :: rest)).
    { apply (Permutation_in m (Permutation_sym HP)), Hin. }
    apply Hmax in Hfirst. inversion HS as [|? ? _ Hall]; subst.
    destruct Hm as [->|Hm]; [reflexivity|].
    rewrite List.Forall_forall in Hall. apply Hall in Hm. unfold newestFirst in Hm. lia.
Qed.

(** The anchor when [fromDate] is a whole number of days after the start
    of the first log of the array. *)
Lemma nextPeriodStart_after (first : PeriodLog) (rest : list PeriodLog)
    (fromDate : Date) (d : Z) :
  0 < d -> fromDate = addDays (startDate first) d ->
  let cycleLength := calculateAverageCycleLength (first :: rest) in
  nextPeriodStart (first :: rest) fromDate
  = Some (addDays (startDate first) ((d / cycleLength + 1) * cycleLength)).
Proof.
  intros Hd -> cycleLength. unfold nextPeriodStart. fold cycleLength.
  pose proof (calculateAverageCycleLength_bounds (first :: rest)) as HL.
  fold cycleLength in HL.
  replace (isAfter (addDays (startDate first) d) (startDate first)) with true.
  2:{ symmetry. unfold isAfter, addDays. apply Z.ltb_lt.
      rewrite MS_PER_DAY_value. lia. }
  rewrite differenceInDays_addDays.
  rewrite Z.rem_mod_nonneg by lia.
  f_equal. unfold addDays.
  pose proof (Z.div_mod d cycleLength ltac:(lia)) as E. nia.
Qed.

Lemma firstAdvanceAfter_formula (start : Date) (cycleLength d : Z) :
  0 < cycleLength -> 0 <= d ->
  firstAdvanceAfter start cycleLength (addDays start d)
    (addDays start ((d / cycleLength + 1) * cycleLength)).
Proof.
  intros HL Hd.
  pose proof (Z.div_mod d cycleLength ltac:(lia)) as E.
  pose proof (Z.mod_pos_bound d cycleLength HL) as B.
  pose proof (Z.div_pos d cycleLength Hd HL) as Q.
  generalize dependent (d mod cycleLength). generalize dependent (d / cycleLength).
  intros q Q r E B.
  unfold firstAdvanceAfter, advancedBy, addDays. rewrite MS_PER_DAY_value.
  split; [|split].
  - exists (q + 1). split; [lia | reflexivity].
  - nia.
  - intros b (k & Hk & ->) Hlt.
    assert (q + 1 <= k) by nia. nia.
Qed.

(** X29.  Load any logs and let [m] be a most recent one.  If [fromDate]
    is later than the start of [m] by a whole number of days (as between
    two calendar dates), the anchor is that start advanced by whole
    multiples of the average cycle length until it is strictly after
    [fromDate].  If [fromDate] is not after the start of [m], the anchor
    is that start itself. *)
Theorem nextPeriodStart_first_advance_after
    (logs : list PeriodLog) (m : PeriodLog) (fromDate : Date) :
  mostRecent m logs ->
  let periodLogs := loadLogs logs in
  let cycleLength := calculateAverageCycleLength periodLogs in
  (startDate m < fromDate -> (MS_PER_DAY | fromDate - startDate m) ->
   exists anchor,
     nextPeriodStart periodLogs fromDate = Some anchor
     /\ firstAdvanceAfter (startDate m) cycleLength fromDate anchor)
  /\ (fromDate <= startDate m ->
      nextPeriodStart periodLogs fromDate = Some (startDate m)).
Proof.
  intros Hm periodLogs cycleLength.
  destruct (loadLogs_head logs m Hm) as (first & rest & E & Hstart).
  unfold cycleLength, periodLogs. rewrite E. split.
  - intros Hlt [d Hd].
    assert (Hfrom : fromDate = addDays (startDate first) d)
      by (unfold addDays; lia).
    assert (Hpos : 0 < d) by (rewrite MS_PER_DAY_value in Hd; lia).
    eexists. split.
    + apply (nextPeriodStart_after first rest fromDate d Hpos Hfrom).
    + rewrite Hfrom, <- Hstart. apply firstAdvanceAfter_formula; [|lia].
      pose proof (calculateAverageCycleLength_bounds (first :: rest)). lia.
  - intros Hle. unfold nextPeriodStart.
    replace (isAfter fromDate (startDate first)) with false.
    + rewrite Hstart. reflexivity.
    + symmetry. unfold isAfter. apply Z.ltb_ge. lia.
Qed.

(** The scenario of the specification: logs 2024-01-01..05 and
    2024-01-29..02-02, predicting from 2024-02-10, give 2024-02-26. *)
Lemma nextPeriodStart_first_advance_after_witness :
  let logs := [ mkPeriodLog None (ymd 2024 1 1) (ymd 2024 1 5) FlowMedium;
                mkPeriodLog None (ymd 2024 1 29) (ymd 2024 2 2) FlowMedium ] in
  let m := mkPeriodLog None (ymd 2024 1 29) (ymd 2024 2 2) FlowMedium in
  mostRecent m logs
  /\ calculateAverageCycleLength (loadLogs logs) = 28
  /\ calculateAveragePeriodLength (loadLogs logs) = 5
  /\ nextPeriodStart (loadLogs logs) (ymd 2024 2 10) = Some (ymd 2024 2 26)
  /\ firstAdvanceAfter (startDate m) 28 (ymd 2024 2 10) (ymd 2024 2 26).
Proof.
  intros logs m.
  assert (Hm : mostRecent m logs).
  { split; [right; left; reflexivity|].
    intros l [<-|[<-|[]]]; vm_compute; discriminate. }
  split; [exact Hm|]. split; [reflexivity|]. split; [reflexivity|].
  split; [reflexivity|].
  destruct (nextPeriodStart_first_advance_after logs m (ymd 2024 2 10) Hm)
    as [Hafter _].
  destruct Hafter as (anchor & Ha & Hfirst).
  - vm_compute; reflexivity.
  - exists 12. reflexivity.
  - assert (E : anchor = ymd 2024 2 26).
    { vm_compute in Ha. injection Ha as <-. reflexivity. }
    rewrite E in Hfirst. exact Hfirst.
Defined.

(** X30.  Whatever the time of day of [fromDate]: when it is after the
    start of the newest log, the anchor is [fromDate] plus [j] days with
    [j] between 1 and the average cycle length, where the whole days from
    that start to [fromDate], plus [j], are a multiple of the cycle
    length.  The anchor keeps the time of day of [fromDate]. *)
Theorem anchor_is_fromDate_plus_whole_days
    (first : PeriodLog) (rest : list PeriodLog) (fromDate : Date) :
  startDate first < fromDate ->
  let cycleLength := calculateAverageCycleLength (first :: rest) in
  let daysSinceLastPeriod := differenceInDays fromDate (startDate first) in
  exists j,
    1 <= j <= cycleLength
    /\ nextPeriodStart (first :: rest) fromDate = Some (addDays fromDate j)
    /\ (cycleLength | daysSinceLastPeriod + j).
Proof.
  intros Hlt cycleLength daysSinceLastPeriod.
  pose proof (calculateAverageCycleLength_bounds (first :: rest)) as HL.
  fold cycleLength in HL.
  pose proof (differenceInDays_nonneg fromDate (startDate first) ltac:(lia)) as Hd.
  fold daysSinceLastPeriod in Hd.
  pose proof (Z.mod_pos_bound daysSinceLastPeriod cycleLength ltac:(lia)) as Hr.
  pose proof (Z.div_mod daysSinceLastPeriod cycleLength ltac:(lia)) as E.
  exists (cycleLength - daysSinceLastPeriod mod cycleLength).
  split; [lia|]. split.
  - unfold nextPeriodStart. fold cycleLength.
    replace (isAfter fromDate (startDate first)) with true
      by (symmetry; unfold isAfter; apply Z.ltb_lt; exact Hlt).
    fold daysSinceLastPeriod. rewrite Z.rem_mod_nonneg by lia. reflexivity.
  - exists (daysSinceLastPeriod / cycleLength + 1). lia.
Qed.

(** A log that started 2024-01-29 at 15:00, predicted from 2024-02-26 at
    10:00: the anchor is 2024-02-27 at 10:00. *)
Lemma anchor_is_fromDate_plus_whole_days_witness :
  let first := mkPeriodLog None (ymd 2024 1 29 + 15 * 3600000)
                           (ymd 2024 2 2) FlowMedium in
  let fromDate := ymd 2024 2 26 + 10 * 3600000 in
  exists j,
    1 <= j <= 28
    /\ nextPeriodStart [first] fromDate = Some (addDays fromDate j)
    /\ nextPeriodStart [first] fromDate = Some (ymd 2024 2 27 + 10 * 3600000).
Proof.
  intros first fromDate.
  destruct (anchor_is_fromDate_plus_whole_days first [] fromDate)
    as (j & Hj & Ha & _).
  - vm_compute. reflexivity.
  - exists j. split; [exact Hj|]. split; [exact Ha | reflexivity].
Defined.

(** C3.  A period due on [fromDate] itself is skipped.  With one log
    2024-01-01..2024-01-05 the average cycle length is 28, and advancing
    the start 2024-01-01 by whole cycles until on or after 2024-01-29
    stops at 2024-01-29; predicting from 2024-01-29, the code answers
    2024-02-26, one cycle later, which is not the first advance on or
    after [fromDate].  On the other branch the same code does answer a
    start that falls on [fromDate]: predicting from 2024-01-01 gives
    2024-01-01. *)
Lemma nextPeriodStart_skips_period_due_on_fromDate :
  let logs := [ mkPeriodLog None (ymd 2024 1 1) (ymd 2024 1 5) FlowMedium ] in
  calculateAverageCycleLength (loadLogs logs) = 28
  /\ firstAdvanceOnOrAfter (ymd 2024 1 1) 28 (ymd 2024 1 29) (ymd 2024 1 29)
  /\ nextPeriodStart (loadLogs logs) (ymd 2024 1 29) = Some (ymd 2024 2 26)
  /\ ~ firstAdvanceOnOrAfter (ymd 2024 1 1) 28 (ymd 2024 1 29) (ymd 2024 2 26)
  /\ nextPeriodStart (loadLogs logs) (ymd 2024 1 1) = Some (ymd 2024 1 1).
Proof.
  intros logs. split; [reflexivity|]. split; [|split; [reflexivity|split]].
  - split; [|split].
    + exists 1. split; [lia | reflexivity].
    + lia.
    + intros b _ Hb. exact Hb.
  - intros (_ & _ & Hmin).
    specialize (Hmin (ymd 2024 1 29)).
    assert (H : ymd 2024 2 26 <= ymd 2024 1 29).
    { apply Hmin; [exists 1; split; [lia | reflexivity] | lia]. }
    vm_compute in H. apply H. reflexivity.
  - reflexivity.
Qed.

End Anchor.

(** ** Logged days in the projection *)

Section LoggedDays.
Import CycleCalculation.

Lemma in_range (lo n i : Z) : In i (range lo n) <-> lo <= i < lo + n.
Proof.
  unfold range. rewrite List.in_map_iff. split.
  - intros (k & <- & Hk). apply List.in_seq in Hk. lia.
  - intros H. exists (Z.to_nat (i - lo)). split; [lia|].
    apply List.in_seq. lia.
Qed.

Lemma in_loggedDays (log : PeriodLog) (e : CycleDay) :
  In e (loggedDays log) <->
  exists i, 0 <= i <= differenceInDays (endDate log) (startDate log)
            /\ e = {| date := addDays (startDate log) i; phase := period;
                      intensity := taper i; prediction := Some false |}.
Proof.
  unfold loggedDays. rewrite List.in_map_iff. split.
  - intros (i & <- & Hi). apply in_range in Hi. exists i. split; [lia | reflexivity].
  - intros (i & Hi & ->). exists i. split; [reflexivity|]. apply in_range. lia.
Qed.

Lemma extendsPast_refl (past : list CycleDay) : extendsPast past past.
Proof. split; auto. Qed.

Lemma extendsPast_push (past cycleDays : list CycleDay) (entry : CycleDay) :
  extendsPast past cycleDays -> extendsPast past (pushUnlessSameDay cycleDays entry).
Proof.
  intros [Hkeep Hnew]. unfold pushUnlessSameDay.
  destruct (existsb (fun d => isSameDay (date d) (date entry)) cycleDays) eqn:E;
    [split; assumption|].
  split.
  - intros e He. apply List.in_or_app. left. auto.
  - intros e He. apply List.in_app_or in He as [He|[<-|[]]]; [auto|].
    right. intros p Hp.
    destruct (isSameDay (date p) (date entry)) eqn:Esame; [|reflexivity].
    assert (existsb (fun d => isSameDay (date d) (date entry)) cycleDays = true).
    { apply List.existsb_exists. exists p. split; [apply Hkeep, Hp | exact Esame]. }
    congruence.
Qed.

Lemma extendsPast_pushes (past : list CycleDay) (entryOf : Z -> CycleDay)
    (days : list Z) (cycleDays : list CycleDay) :
  extendsPast past cycleDays ->
  extendsPast past
    (fold_left (fun acc day => pushUnlessSameDay acc (entryOf day)) days cycleDays).
Proof.
  revert cycleDays. induction days as [|day days IH]; intros cycleDays H; simpl.
  - exact H.
  - apply IH, extendsPast_push, H.
Qed.

Lemma extendsPast_projectCycle (past cycleDays : list CycleDay)
    (anchor : Date) (cycleLength periodLength cycle : Z) :
  extendsPast past cycleDays ->
  extendsPast past (projectCycle anchor cycleLength periodLength cycleDays cycle).
Proof.
  intros H. unfold projectCycle.
  apply (extendsPast_pushes past
           (fun day => {| date := addDays (subDays (addDays (addDays anchor (cycle * cycleLength)) cycleLength) 14) day;
                          phase := if day =? 0 then ovulation else fertile;
                          intensity := none; prediction := Some true |})).
  apply (extendsPast_pushes past
           (fun day => {| date := addDays (addDays anchor (cycle * cycleLength)) day;
                          phase := period; intensity := taper day;
                          prediction := Some true |})).
  exact H.
Qed.

Lemma predictNextCycle_extendsPast (periodLogs : list PeriodLog) (fromDate : Date) :
  periodLogs <> [] ->
  extendsPast (flat_map loggedDays periodLogs) (predictNextCycle periodLogs fromDate).
Proof.
  intros Hne. unfold predictNextCycle.
  destruct (nextPeriodStart periodLogs fromDate) as [anchor|] eqn:E.
  2:{ destruct periodLogs; [congruence|]. unfold nextPeriodStart in E.
      destruct (isAfter _ _); discriminate. }
  set (past := flat_map loggedDays periodLogs).
  set (cycleDays := fold_left _ _ past).
  assert (H : extendsPast past cycleDays).
  { unfold cycleDays. generalize (range 0 3). intros cycles.
    assert (Hp : extendsPast past past) by apply extendsPast_refl.
    revert Hp. generalize past at 2 4. induction cycles as [|c cycles IH]; intros acc Hacc.
    - exact Hacc.
    - simpl. apply IH, extendsPast_projectCycle, Hacc. }
  destruct H as [Hkeep Hnew]. split.
  - intros e He.
    apply (Permutation_in e
             (Permutation_sym (Array_sort_Permutation byDateAscending cycleDays))).
    auto.
  - intros e He. apply Hnew.
    apply (Permutation_in e (Array_sort_Permutation byDateAscending cycleDays)), He.
Qed.

(** X28.  For a log of the service whose start and end are calendar
    dates (midnights), every calendar day [d] of its span appears in the
    projection as an entry with phase [period] that is not a prediction;
    its intensity is heavy on the first day, medium on the second and
    light from the third on; and every entry that the projection holds
    for that calendar day is of phase [period] and not a prediction. *)
Theorem logged_days_are_never_predictions
    (periodLogs : list PeriodLog) (fromDate : Date) (log : PeriodLog) (d : Date) :
  In log periodLogs ->
  calendarDate (startDate log) -> calendarDate (endDate log) -> calendarDate d ->
  startDate log <= d <= endDate log ->
  let projection := predictNextCycle periodLogs fromDate in
  let i := differenceInDays d (startDate log) in
  In {| date := d; phase := period; intensity := taper i; prediction := Some false |}
     projection
  /\ (taper i = if i =? 0 then heavy else if i =? 1 then medium else light)
  /\ (forall e, In e projection -> isSameDay (date e) d = true ->
                phase e = period /\ prediction e = Some false).
Proof.
  intros Hin Hs He Hd Hspan projection i.
  assert (Hne : periodLogs <> []) by (intros ->; destruct Hin).
  destruct (predictNextCycle_extendsPast periodLogs fromDate Hne) as [Hkeep Hnew].
  fold projection in Hkeep, Hnew.
  pose proof (calendarDate_difference d (startDate log) Hd Hs) as Ed. fold i in Ed.
  pose proof (calendarDate_difference (endDate log) (startDate log) He Hs) as Ee.
  assert (Hi : 0 <= i <= differenceInDays (endDate log) (startDate log))
    by (rewrite MS_PER_DAY_value in Ed, Ee; lia).
  assert (Hd' : d = addDays (startDate log) i) by (unfold addDays; lia).
  set (entry := {| date := d; phase := period; intensity := taper i;
                   prediction := Some false |}).
  assert (Hpast : In entry (flat_map loggedDays periodLogs)).
  { apply List.in_flat_map. exists log. split; [exact Hin|].
    apply in_loggedDays. exists i. split; [exact Hi|].
    unfold entry. rewrite Hd' at 1. reflexivity. }
  split; [apply Hkeep, Hpast|]. split.
  - unfold taper. destruct (Z.eqb_spec i 0); [reflexivity|].
    destruct (Z.ltb_spec i 2), (Z.eqb_spec i 1); try reflexivity; lia.
  - intros e Hproj Hsame. apply Hnew in Hproj as [Hlogged|Hfresh].
    + apply List.in_flat_map in Hlogged as (log' & _ & Hlogged).
      apply in_loggedDays in Hlogged as (j & _ & ->). split; reflexivity.
    + specialize (Hfresh entry Hpast). simpl in Hfresh.
      unfold isSameDay in Hsame, Hfresh. lia.
Qed.

(** The third day of the log 2024-01-29..2024-02-02. *)
Lemma logged_days_are_never_predictions_witness :
  let logs := [ mkPeriodLog None (ymd 2024 1 1) (ymd 2024 1 5) FlowMedium;
                mkPeriodLog None (ymd 2024 1 29) (ymd 2024 2 2) FlowHeavy ] in
  let log := mkPeriodLog None (ymd 2024 1 29) (ymd 2024 2 2) FlowHeavy in
  let d := ymd 2024 1 31 in
  In {| date := d; phase := period;
        intensity := taper (differenceInDays d (startDate log));
        prediction := Some false |}
     (predictNextCycle (loadLogs logs) (ymd 2024 2 10))
  /\ taper (differenceInDays d (startDate log)) = light.
Proof.
  intros logs log d.
  assert (Hin : In log (loadLogs logs)) by (vm_compute; left; reflexivity).
  assert (Hs : calendarDate (startDate log)) by apply calendarDate_ymd.
  assert (He : calendarDate (endDate log)) by apply calendarDate_ymd.
  assert (Hd : calendarDate d) by apply calendarDate_ymd.
  assert (Hspan : startDate log <= d <= endDate log)
    by (vm_compute; split; discriminate).
  destruct (logged_days_are_never_predictions
              (loadLogs logs) (ymd 2024 2 10) log d Hin Hs He Hd Hspan)
    as (Hentry & Htaper & _).
  split; [exact Hentry | exact Htaper].
Defined.

(** C9.  A log entered with the form's defaults starts at the time of
    entry and ends at a midnight: 2024-01-29 15:00 to 2024-02-02 00:00,
    next to the log 2024-01-01..2024-01-05.  [differenceInDays] of its end
    and start is 3, so four days are materialized, 2024-01-29 to
    2024-02-01; the last day of the logged span, 2024-02-02, has no logged
    entry, and predicting from 2024-01-29 10:00 the projection marks that
    day as a predicted period day. *)
Lemma end_day_of_log_is_projected_as_prediction :
  let entered := mkPeriodLog None (ymd 2024 1 29 + 15 * 3600000) (ymd 2024 2 2)
                             FlowMedium in
  let logs := [ mkPeriodLog None (ymd 2024 1 1) (ymd 2024 1 5) FlowMedium; entered ] in
  let fromDate := ymd 2024 1 29 + 10 * 3600000 in
  let projection := predictNextCycle (loadLogs logs) fromDate in
  In entered (loadLogs logs)
  /\ startDate entered <= ymd 2024 2 2 <= endDate entered
  /\ differenceInDays (endDate entered) (startDate entered) = 3
  /\ map date (loggedDays entered)
     = map (fun day => day + 15 * 3600000)
           [ymd 2024 1 29; ymd 2024 1 30; ymd 2024 1 31; ymd 2024 2 1]
  /\ List.filter (fun e => isSameDay (date e) (ymd 2024 2 2)) projection
     = [ {| date := ymd 2024 2 2 + 15 * 3600000; phase := period;
            intensity := light; prediction := Some true |} ]
  /\ ~ exists e, In e projection /\ isSameDay (date e) (ymd 2024 2 2) = true
                 /\ prediction e = Some false.
Proof.
  intros entered logs fromDate projection.
  assert (E : List.filter (fun e => isSameDay (date e) (ymd 2024 2 2)) projection
              = [ {| date := ymd 2024 2 2 + 15 * 3600000; phase := period;
                     intensity := light; prediction := Some true |} ])
    by (vm_compute; reflexivity).
  clearbody projection.
  split; [vm_compute; left; reflexivity|].
  split; [vm_compute; split; discriminate|].
  split; [reflexivity|]. split; [vm_compute; reflexivity|].
  split; [exact E|].
  intros (e & Hin & Hsame & Hpred).
  assert (H : In e (List.filter (fun e => isSameDay (date e) (ymd 2024 2 2)) projection)).
  { apply List.filter_In. split; [exact Hin | exact Hsame]. }
  rewrite E in H. destruct H as [<-|[]]. discriminate Hpred.
Qed.

End LoggedDays.

(** ** Fertility windows *)

Section FertilityWindows.
Import FertilityPrediction.

Lemma inWindow_iff (date : Date) (w : FertilityWindow) :
  inWindow date w = true <-> start w <= date <= end_ w.
Proof. unfold inWindow. rewrite andb_true_iff, !Z.leb_le. tauto. Qed.

(** The three windows, in the order of the array, relative to the
    expected ovulation instant. *)
Lemma windowsAround_days (ov : Date) :
  windowsAround ov
  = [ mkWindow (addDays ov (-3)) ov HIGHLY_FERTILE (3 # 10);
      mkWindow ov (addDays ov 2) FERTILE (2 # 10);
      mkWindow (addDays ov (-5)) (addDays ov (-3)) LESS_FERTILE (1 # 10) ].
Proof.
  unfold windowsAround, addDays, HIGHLY_FERTILE_WINDOW. rewrite MS_PER_DAY_value.
  repeat f_equal; lia.
Qed.

Ltac ymd_values :=
  repeat match goal with
         | |- context [ymd ?y ?m ?d] =>
             let v := eval vm_compute in (ymd y m d) in change (ymd y m d) with v
         end.

(** C4.  For a cycle that started on 2024-03-01 with ovulation expected
    14 days later, on 2024-03-15, the prediction carries the three
    documented windows, with their types and base probabilities, and each
    window answers every instant of its documented days (2024-03-12..14,
    2024-03-15..16, 2024-03-10..11).  But each window also answers the
    midnight that follows its last day, so none of them covers exactly
    those days: 2024-03-15, the first day of the fertile window (0.2),
    gets the probability of the highly-fertile window (0.3, times the
    confidence), and 2024-03-17, which lies in no documented window, gets
    the probability of the fertile window and not 0. *)
Lemma fertility_windows_answer_the_next_midnight :
  exists p highly fertile less,
    predictNextOvulation [CycleLog.mk (ymd 2024 3 1) None None] (mkStats 14 (1 # 2))
    = Some p
    /\ expectedDate p = ymd 2024 3 15
    /\ fertilityWindows p = [highly; fertile; less]
    /\ (type highly, probability highly) = (HIGHLY_FERTILE, 3 # 10)
    /\ (type fertile, probability fertile) = (FERTILE, 2 # 10)
    /\ (type less, probability less) = (LESS_FERTILE, 1 # 10)
    /\ (forall date, inWindow date highly = true <->
          ymd 2024 3 12 <= date < addDays (ymd 2024 3 14) 1 \/ date = ymd 2024 3 15)
    /\ (forall date, inWindow date fertile = true <->
          ymd 2024 3 15 <= date < addDays (ymd 2024 3 16) 1 \/ date = ymd 2024 3 17)
    /\ (forall date, inWindow date less = true <->
          ymd 2024 3 10 <= date < addDays (ymd 2024 3 11) 1 \/ date = ymd 2024 3 12)
    /\ ~ coversDays highly (ymd 2024 3 12) (ymd 2024 3 14)
    /\ ~ coversDays fertile (ymd 2024 3 15) (ymd 2024 3 16)
    /\ ~ coversDays less (ymd 2024 3 10) (ymd 2024 3 11)
    /\ calculateDailyProbability (ymd 2024 3 15) p = ((3 # 10) * (1 # 2))%Q
    /\ calculateDailyProbability (ymd 2024 3 17) p = ((2 # 10) * (1 # 2))%Q.
Proof.
  exists (mkPrediction (ymd 2024 3 15) (1 # 2)
            [ mkWindow (ymd 2024 3 12) (ymd 2024 3 15) HIGHLY_FERTILE (3 # 10);
              mkWindow (ymd 2024 3 15) (ymd 2024 3 17) FERTILE (2 # 10);
              mkWindow (ymd 2024 3 10) (ymd 2024 3 12) LESS_FERTILE (1 # 10) ]),
         (mkWindow (ymd 2024 3 12) (ymd 2024 3 15) HIGHLY_FERTILE (3 # 10)),
         (mkWindow (ymd 2024 3 15) (ymd 2024 3 17) FERTILE (2 # 10)),
         (mkWindow (ymd 2024 3 10) (ymd 2024 3 12) LESS_FERTILE (1 # 10)).
  split; [vm_compute; reflexivity|].
  do 5 (split; [reflexivity|]).
  split; [|split; [|split]].
  - intros date. rewrite inWindow_iff. cbn [start end_].
    unfold addDays. rewrite MS_PER_DAY_value. ymd_values. lia.
  - intros date. rewrite inWindow_iff. cbn [start end_].
    unfold addDays. rewrite MS_PER_DAY_value. ymd_values. lia.
  - intros date. rewrite inWindow_iff. cbn [start end_].
    unfold addDays. rewrite MS_PER_DAY_value. ymd_values. lia.
  - split; [|split; [|split; [|split]]].
    + intros H. specialize (H (ymd 2024 3 15)). destruct H as [H _].
      specialize (H eq_refl). vm_compute in H. destruct H as [_ H]. discriminate H.
    + intros H. specialize (H (ymd 2024 3 17)). destruct H as [H _].
      specialize (H eq_refl). vm_compute in H. destruct H as [_ H]. discriminate H.
    + intros H. specialize (H (ymd 2024 3 12)). destruct H as [H _].
      specialize (H eq_refl). vm_compute in H. destruct H as [_ H]. discriminate H.
    + vm_compute. reflexivity.
    + vm_compute. reflexivity.
Qed.

Lemma daysDiff_lower (date ov lo : Z) :
  addDays ov lo - MS_PER_DAY / 2 <= date ->
  lo <= Math_round_div (date - ov) (1000 * 60 * 60 * 24).
Proof.
  unfold addDays, Math_round_div. rewrite MS_PER_DAY_value.
  change (86400000 / 2) with 43200000.
  change (1000 * 60 * 60 * 24) with 86400000. intros H.
  apply Z.div_le_lower_bound; lia.
Qed.

Lemma daysDiff_upper (date ov hi : Z) :
  date < addDays ov hi + MS_PER_DAY / 2 ->
  Math_round_div (date - ov) (1000 * 60 * 60 * 24) <= hi.
Proof.
  unfold addDays, Math_round_div. rewrite MS_PER_DAY_value.
  change (86400000 / 2) with 43200000.
  change (1000 * 60 * 60 * 24) with 86400000. intros H.
  apply Z.lt_succ_r. apply Z.div_lt_upper_bound; lia.
Qed.

(** The phase as a function of the rounded day difference. *)
Lemma determineFertilityPhase_cases (date : Date) (p : OvulationPrediction) :
  let daysDiff := Math_round_div (date - expectedDate p) (1000 * 60 * 60 * 24) in
  (daysDiff = 0 -> determineFertilityPhase date p = OVULATION)
  /\ (daysDiff < 0 -> determineFertilityPhase date p = FOLLICULAR)
  /\ (0 < daysDiff <= 14 -> determineFertilityPhase date p = LUTEAL).
Proof.
  intros daysDiff. unfold determineFertilityPhase. fold daysDiff.
  repeat split; intros H.
  - subst daysDiff. rewrite H. reflexivity.
  - destruct (Z.eqb_spec daysDiff 0); [lia|].
    destruct (Z.ltb_spec daysDiff 0); [|lia].
    destruct (Z.leb_spec (-5) daysDiff); simpl; [reflexivity|].
    destruct (Z.ltb_spec 0 daysDiff); [lia|]. reflexivity.
  - destruct (Z.eqb_spec daysDiff 0); [lia|].
    destruct (Z.ltb_spec daysDiff 0); [lia|]. simpl.
    destruct (Z.ltb_spec 0 daysDiff); [|lia].
    destruct (Z.leb_spec daysDiff 14); [reflexivity|lia].
Qed.

(** C5 (as the code has it).  Every date inside a window of a prediction
    is reported FOLLICULAR, OVULATION or LUTEAL.  It is FOLLICULAR or
    OVULATION whenever the date is not later than the expected ovulation
    instant, hence throughout the highly-fertile and less-fertile
    windows.  A date of the fertile window that lies half a day or more
    after the ovulation instant is reported LUTEAL. *)
Theorem window_dates_phase
    (lastCycle : CycleLog.t) (rest : list CycleLog.t) (stats : FertilityStats) :
  exists p,
    predictNextOvulation (lastCycle :: rest) stats = Some p
    /\ forall w date,
        In w (fertilityWindows p) -> inWindow date w = true ->
        let phase := determineFertilityPhase date p in
        (date <= expectedDate p -> phase = FOLLICULAR \/ phase = OVULATION)
        /\ (type w <> FERTILE -> phase = FOLLICULAR \/ phase = OVULATION)
        /\ (expectedDate p + MS_PER_DAY / 2 <= date -> phase = LUTEAL)
        /\ (phase = LUTEAL -> type w = FERTILE /\ expectedDate p < date).
Proof.
  eexists. split; [reflexivity|]. cbn [expectedDate fertilityWindows].
  set (ov := addDays (CycleLog.startDate lastCycle) (averageOvulationDay stats)).
  set (p := {| expectedDate := ov; confidence := confidenceLevel stats;
               fertilityWindows := windowsAround ov |}).
  intros w date Hw Hin. set (phase := determineFertilityPhase date p).
  rewrite windowsAround_days in Hw. apply inWindow_iff in Hin.
  destruct (determineFertilityPhase_cases date p) as (H0 & Hneg & Hpos).
  cbn [expectedDate p] in H0, Hneg, Hpos. fold phase in H0, Hneg, Hpos.
  assert (Hty : ov - 5 * 86400000 <= date <= ov + 2 * 86400000
                /\ (type w <> FERTILE -> date <= ov)
                /\ (ov < date -> type w = FERTILE)).
  { destruct Hw as [<-|[<-|[<-|[]]]]; revert Hin; simpl; unfold addDays;
      rewrite MS_PER_DAY_value; intros Hin;
      (split; [lia | split; [intros; try lia; congruence | intros; try lia; reflexivity]]). }
  destruct Hty as (Hrange & Hother & Hfertile).
  assert (Hhi : Math_round_div (date - ov) (1000 * 60 * 60 * 24) <= 2).
  { apply daysDiff_upper. unfold addDays. rewrite MS_PER_DAY_value.
    change (86400000 / 2) with 43200000. lia. }
  assert (Hearly : date <= ov -> phase = FOLLICULAR \/ phase = OVULATION).
  { intros Hle.
    assert (Math_round_div (date - ov) (1000 * 60 * 60 * 24) <= 0).
    { apply daysDiff_upper. unfold addDays. rewrite MS_PER_DAY_value.
      change (86400000 / 2) with 43200000. lia. }
    destruct (Z.eq_dec (Math_round_div (date - ov) (1000 * 60 * 60 * 24)) 0);
      [right; auto | left; apply Hneg; lia]. }
  assert (Hlate : ov + MS_PER_DAY / 2 <= date -> phase = LUTEAL).
  { intros Hge. apply Hpos. split; [|lia].
    assert (1 <= Math_round_div (date - ov) (1000 * 60 * 60 * 24)); [|lia].
    apply daysDiff_lower. unfold addDays. rewrite MS_PER_DAY_value in *.
    change (86400000 / 2) with 43200000 in *. clear - Hge. lia. }
  split; [exact Hearly|]. split; [|split; [exact Hlate|]].
  - intros Hne. apply Hearly, Hother, Hne.
  - intros Hlut.
    assert (Hafter : ov < date).
    { destruct (Z.lt_ge_cases ov date) as [|Hle]; [assumption|].
      destruct (Hearly ltac:(lia)) as [E|E]; rewrite E in Hlut; discriminate. }
    split; [apply Hfertile, Hafter | exact Hafter].
Qed.

(** Ovulation expected on 2024-03-15: 2024-03-13 lies in the highly-fertile
    window and is FOLLICULAR, 2024-03-16 lies in the fertile window and is
    LUTEAL. *)
Lemma window_dates_phase_witness :
  exists p,
    predictNextOvulation [CycleLog.mk (ymd 2024 3 1) None None] (mkStats 14 (1 # 2))
    = Some p
    /\ (determineFertilityPhase (ymd 2024 3 13) p = FOLLICULAR
        \/ determineFertilityPhase (ymd 2024 3 13) p = OVULATION)
    /\ determineFertilityPhase (ymd 2024 3 16) p = LUTEAL.
Proof.
  destruct (window_dates_phase (CycleLog.mk (ymd 2024 3 1) None None) []
              (mkStats 14 (1 # 2))) as (p & E & H).
  exists p. split; [exact E|].
  injection E as <-. split.
  - apply (H (mkWindow (ymd 2024 3 12) (ymd 2024 3 15) HIGHLY_FERTILE (3 # 10))
             (ymd 2024 3 13)).
    + left. reflexivity.
    + reflexivity.
    + vm_compute. discriminate.
  - apply (H (mkWindow (ymd 2024 3 15) (ymd 2024 3 17) FERTILE (2 # 10))
             (ymd 2024 3 16)).
    + right. left. reflexivity.
    + reflexivity.
    + vm_compute. discriminate.
Defined.

(** C5 as stated fails: for ovulation expected on 2024-03-15 the date
    2024-03-16 lies inside the fertile window and is reported LUTEAL. *)
Lemma fertile_window_date_reported_luteal :
  exists p w,
    predictNextOvulation [CycleLog.mk (ymd 2024 3 1) None None] (mkStats 14 (1 # 2))
    = Some p
    /\ In w (fertilityWindows p)
    /\ type w = FERTILE
    /\ inWindow (ymd 2024 3 16) w = true
    /\ determineFertilityPhase (ymd 2024 3 16) p = LUTEAL.
Proof.
  do 2 eexists. split; [reflexivity|].
  split; [right; left; reflexivity|]. repeat split.
Qed.

End FertilityWindows.

(** ** The summary prediction *)

Section SummaryPrediction.
Import CyclePrediction.
Local Open Scope R_scope.

Lemma fold_left_sum (f : R -> R) (l : list R) (acc : R) :
  fold_left (fun sum len => sum + f len) l acc = acc + sumR (map f l).
Proof.
  revert acc. induction l as [|x l IH]; intros acc; simpl.
  - lra.
  - rewrite IH. lra.
Qed.

Lemma analysis_mean (l : list R) :
  fold_left (fun sum len => sum + len) l 0 / INR (List.length l) = arithmeticMean l.
Proof.
  unfold arithmeticMean. rewrite (fold_left_sum (fun x => x) l 0).
  rewrite List.map_id. f_equal. lra.
Qed.

Lemma analysis_deviation (l : list R) (m : R) :
  fold_left (fun sum len => let diff := len - m in sum + diff * diff) l 0
  = sumR (map (fun x => (x - m) * (x - m)) l).
Proof. cbv zeta. rewrite (fold_left_sum (fun x => (x - m) * (x - m)) l 0). lra. Qed.

(** From three cycles on, [analyzeCycles] returns, and its fields are the
    mean, the standard deviation and the clamped score of the usable
    lengths. *)
Lemma analyzeCycles_returns (cycles : list CycleLog.t) :
  (3 <= List.length cycles)%nat ->
  exists analysis,
    analyzeCycles cycles = inr analysis
    /\ mean analysis = arithmeticMean (usableLengths cycles)
    /\ standardDeviation analysis = standardDeviationOf (usableLengths cycles)
    /\ regularityScore analysis
       = Rmax 0 (Rmin 100 (100 * (1 - variationCoefficientOf (usableLengths cycles)
                                        / (3 / 10)))).
Proof.
  intros Hlen. unfold analyzeCycles.
  destruct (Z.ltb_spec (Z.of_nat (List.length cycles)) MIN_CYCLES_FOR_PREDICTION)
    as [Hlt|_]; [unfold MIN_CYCLES_FOR_PREDICTION in Hlt; lia|].
  eexists. split; [reflexivity|]. cbn [mean standardDeviation regularityScore].
  rewrite !analysis_mean, analysis_deviation. repeat split.
Qed.

Lemma analyzeCycles_throws (cycles : list CycleLog.t) :
  (List.length cycles < 3)%nat ->
  analyzeCycles cycles = inl (Error "Not enough cycle data for analysis").
Proof.
  intros Hlen. unfold analyzeCycles.
  destruct (Z.ltb_spec (Z.of_nat (List.length cycles)) MIN_CYCLES_FOR_PREDICTION)
    as [_|Hge]; [reflexivity | unfold MIN_CYCLES_FOR_PREDICTION in Hge; lia].
Qed.

(** C2 (as the code has it).  With fewer than three logs, a single log
    included, [predictNextCycle] throws the error of [analyzeCycles]; from
    three logs on it returns a prediction whose [basedOnCycles] is the
    number of logs. *)
Theorem predictNextCycle_needs_three_cycles (now : Date) (cycles : list CycleLog.t) :
  ((List.length cycles < 3)%nat ->
   predictNextCycle now cycles = inl (Error "Not enough cycle data for analysis"))
  /\ ((3 <= List.length cycles)%nat ->
      exists prediction,
        predictNextCycle now cycles = inr prediction
        /\ basedOnCycles prediction = Z.of_nat (List.length cycles)).
Proof.
  split; intros Hlen; unfold predictNextCycle.
  - rewrite analyzeCycles_throws by exact Hlen. reflexivity.
  - destruct (analyzeCycles_returns cycles Hlen) as (analysis & -> & _).
    destruct cycles as [|lastCycle rest]; [simpl in Hlen; lia|].
    eexists. split; reflexivity.
Qed.

Lemma predictNextCycle_needs_three_cycles_witness :
  let cycle := CycleLog.mk (ymd 2024 1 1) (Some (ymd 2024 1 29)) (Some 28) in
  predictNextCycle 0%Z [cycle; cycle]
    = inl (Error "Not enough cycle data for analysis")
  /\ exists prediction,
       predictNextCycle 0%Z [cycle; cycle; cycle] = inr prediction
       /\ basedOnCycles prediction = 3%Z.
Proof.
  intros cycle. split.
  - apply (predictNextCycle_needs_three_cycles 0%Z [cycle; cycle]). simpl. lia.
  - apply (predictNextCycle_needs_three_cycles 0%Z [cycle; cycle; cycle]). simpl. lia.
Defined.

(** C2 as stated fails: on a single log the summary prediction throws
    instead of returning a result with a cycle count of 1. *)
Lemma predictNextCycle_single_log_throws :
  let cycle := CycleLog.mk (ymd 2024 1 1) (Some (ymd 2024 1 29)) (Some 28) in
  predictNextCycle 0%Z [cycle] = inl (Error "Not enough cycle data for analysis")
  /\ ~ exists prediction,
        predictNextCycle 0%Z [cycle] = inr prediction
        /\ basedOnCycles prediction = 1%Z.
Proof.
  intros cycle.
  assert (E : predictNextCycle 0%Z [cycle]
              = inl (Error "Not enough cycle data for analysis")) by reflexivity.
  split; [exact E|]. intros (prediction & H & _). rewrite E in H. discriminate.
Qed.

Lemma clamp_high (x : R) : x <= 0 -> Rmax 0 (Rmin 100 x) = 0.
Proof.
  intros H. unfold Rmax, Rmin.
  destruct (Rle_dec 100 x); [lra|]. destruct (Rle_dec 0 x); lra.
Qed.

Lemma clamp_range (x : R) : 0 <= Rmax 0 (Rmin 100 x) <= 100.
Proof.
  unfold Rmax, Rmin.
  destruct (Rle_dec 100 x); destruct (Rle_dec 0 _); lra.
Qed.

Lemma clamp_monotone (x y : R) :
  x <= y -> Rmax 0 (Rmin 100 x) <= Rmax 0 (Rmin 100 y).
Proof.
  intros H. unfold Rmax, Rmin.
  destruct (Rle_dec 100 x), (Rle_dec 100 y);
    repeat match goal with |- context [Rle_dec ?a ?b] => destruct (Rle_dec a b) end;
    lra.
Qed.

Lemma truthy_nonzero (x : R) : x <> 0 -> truthy x = true.
Proof. intros H. unfold truthy. destruct (Req_dec_T x 0); [contradiction | reflexivity]. Qed.

Lemma completedLengths_usable (cycles : list CycleLog.t) (lengths : list R) :
  completedLengths cycles lengths -> usableLengths cycles = lengths.
Proof.
  induction 1 as [|start end_ len cycles lengths Hlen _ IH
                  |cycle cycles lengths Hskip _ IH].
  - reflexivity.
  - unfold usableLengths in *. cbn [flat_map CycleLog.endDate CycleLog.length].
    rewrite truthy_nonzero by exact Hlen. rewrite IH. reflexivity.
  - unfold usableLengths in *. cbn [flat_map]. rewrite IH.
    destruct cycle as [start [end_|] [len|]]; cbn in Hskip |- *;
      try reflexivity; destruct Hskip as [H|[H|H]]; try discriminate H.
    injection H as ->. unfold truthy.
    destruct (Req_dec_T 0 0) as [_|Hne]; [reflexivity | contradiction].
Qed.

(** C7.  Take at least three cycles and let [lengths] be the lengths of
    the completed ones, with [v] their standard deviation divided by
    their mean (there is a completed cycle and the mean is not zero, so
    that [v] is a number).  Then [analyzeCycles] returns an analysis whose
    regularity score is [max(0, min(100, 100 (1 - v / 0.3)))]; the score
    is 0 when [v] is at least 0.3, it is 100 when [v] is 0, and it always
    lies between 0 and 100. *)
Theorem regularityScore_of_cycle_lengths
    (cycles : list CycleLog.t) (lengths : list R) :
  (3 <= List.length cycles)%nat ->
  completedLengths cycles lengths ->
  lengths <> [] ->
  arithmeticMean lengths <> 0 ->
  let v := standardDeviationOf lengths / arithmeticMean lengths in
  exists analysis,
    analyzeCycles cycles = inr analysis
    /\ regularityScore analysis = Rmax 0 (Rmin 100 (100 * (1 - v / (3 / 10))))
    /\ (3 / 10 <= v -> regularityScore analysis = 0)
    /\ (v = 0 -> regularityScore analysis = 100)
    /\ 0 <= regularityScore analysis <= 100.
Proof.
  intros Hlen Hcompleted _ _ v.
  destruct (analyzeCycles_returns cycles Hlen) as (analysis & E & _ & _ & Hscore).
  rewrite (completedLengths_usable cycles lengths Hcompleted) in Hscore.
  exists analysis. split; [exact E|].
  unfold variationCoefficientOf in Hscore. fold v in Hscore. rewrite Hscore.
  split; [reflexivity|]. split; [|split].
  - intros Hv. apply clamp_high. lra.
  - intros ->. unfold Rmax, Rmin.
    destruct (Rle_dec 100 _); destruct (Rle_dec 0 _); lra.
  - apply clamp_range.
Qed.

(** An ongoing cycle and four completed ones of 31, 25, 31 and 25 days:
    mean 28, standard deviation 3, score [100 (1 - (3 / 28) / 0.3)],
    which is 450 / 7 (about 64.3). *)
Lemma regularityScore_of_cycle_lengths_witness :
  let completed start len :=
    CycleLog.mk start (Some (addDays start 4)) (Some len) in
  let cycles := [ CycleLog.mk (ymd 2024 4 22) None None;
                  completed (ymd 2024 3 22) 31; completed (ymd 2024 2 26) 25;
                  completed (ymd 2024 1 26) 31; completed (ymd 2024 1 1) 25 ] in
  exists analysis,
    analyzeCycles cycles = inr analysis
    /\ regularityScore analysis = 450 / 7.
Proof.
  intros completed cycles.
  assert (Hlen : (3 <= List.length cycles)%nat) by (simpl; lia).
  assert (Hc : completedLengths cycles [31; 25; 31; 25]).
  { apply completed_skip; [left; reflexivity|].
    repeat (apply completed_cycle; [lra|]). apply completed_none. }
  assert (Hne : [31; 25; 31; 25] <> @nil R) by discriminate.
  assert (Hm : arithmeticMean [31; 25; 31; 25] = 28).
  { unfold arithmeticMean, sumR. simpl. field. }
  assert (Hm0 : arithmeticMean [31; 25; 31; 25] <> 0) by (rewrite Hm; lra).
  assert (Hs : standardDeviationOf [31; 25; 31; 25] = 3).
  { unfold standardDeviationOf. rewrite Hm. unfold sumR. simpl.
    replace (_ / _) with (3 * 3) by field. apply sqrt_square. lra. }
  pose proof (regularityScore_of_cycle_lengths cycles [31; 25; 31; 25]
                Hlen Hc Hne Hm0) as H.
  cbv zeta in H. destruct H as (analysis & E & Hscore & _).
  exists analysis. split; [exact E|]. rewrite Hscore, Hs, Hm.
  replace (100 * (1 - 3 / 28 / (3 / 10))) with (450 / 7) by field.
  unfold Rmax, Rmin. destruct (Rle_dec 100 (450 / 7)); [lra|].
  destruct (Rle_dec 0 (450 / 7)); lra.
Defined.

Lemma Int_part_monotone (x y : R) : x <= y -> (Int_part x <= Int_part y)%Z.
Proof.
  intros H.
  destruct (base_Int_part x) as [Hx _], (base_Int_part y) as [_ Hy].
  destruct (Z.le_gt_cases (Int_part x) (Int_part y)) as [|Hgt]; [assumption|].
  assert (Hz : (Int_part y + 1 <= Int_part x)%Z) by lia.
  apply IZR_le in Hz. rewrite plus_IZR in Hz. lra.
Qed.

Lemma Math_round_monotone (x y : R) : x <= y -> Math_round x <= Math_round y.
Proof. intros H. unfold Math_round. apply IZR_le, Int_part_monotone. lra. Qed.

Lemma cycleCountFactor_monotone (n m : Z) :
  (3 <= n)%Z -> (n <= m)%Z ->
  0 <= Rmin 1 (IZR (n - 3) / 9) <= Rmin 1 (IZR (m - 3) / 9).
Proof.
  intros H3 Hnm.
  assert (H0 : 0 <= IZR (n - 3)) by (apply IZR_le; lia).
  assert (H1 : IZR (n - 3) <= IZR (m - 3)) by (apply IZR_le; lia).
  unfold Rmin. destruct (Rle_dec 1 _), (Rle_dec 1 _); lra.
Qed.

(** C8.  For one and the same analysis (regularity score, standard
    deviation and mean held fixed, the mean nonzero), the confidence does
    not decrease when the cycle count grows within 3..12. *)
Theorem confidence_monotone_in_cycle_count (analysis : CycleAnalysis) (n m : Z) :
  mean analysis <> 0 ->
  (3 <= n)%Z -> (n <= m)%Z -> (m <= 12)%Z ->
  calculatePredictionConfidence analysis n <= calculatePredictionConfidence analysis m.
Proof.
  intros _ H3 Hnm _. unfold calculatePredictionConfidence, Math_max, Math_min,
    MIN_CYCLES_FOR_PREDICTION.
  destruct (cycleCountFactor_monotone n m H3 Hnm) as [Hn Hm].
  set (fn := Rmin 1 (IZR (n - 3) / 9)) in *.
  set (fm := Rmin 1 (IZR (m - 3) / 9)) in *.
  set (penalty := Rmax 0 (1 - standardDeviation analysis / mean analysis)).
  assert (Hp : 0 <= penalty) by apply Rmax_l.
  set (r := regularityScore analysis).
  apply Math_round_monotone.
  destruct (Rle_dec 0 r) as [Hr|Hr].
  - apply clamp_monotone.
    apply Rmult_le_compat_r; [lra|]. apply Rmult_le_compat_l; lra.
  - assert (En : r * (7 / 10 + 3 / 10 * fn) * (8 / 10 + 2 / 10 * penalty) <= 0).
    { assert (0 <= (- r) * (7 / 10 + 3 / 10 * fn) * (8 / 10 + 2 / 10 * penalty)).
      { apply Rmult_le_pos; [apply Rmult_le_pos|]; lra. }
      lra. }
    assert (Em : r * (7 / 10 + 3 / 10 * fm) * (8 / 10 + 2 / 10 * penalty) <= 0).
    { assert (0 <= (- r) * (7 / 10 + 3 / 10 * fm) * (8 / 10 + 2 / 10 * penalty)).
      { apply Rmult_le_pos; [apply Rmult_le_pos|]; lra. }
      lra. }
    rewrite (clamp_high _ En), (clamp_high _ Em). lra.
Qed.

(** A regular analysis (score 90, deviation 1 on a mean of 28), counts 3
    and 12. *)
Lemma confidence_monotone_in_cycle_count_witness :
  let analysis := mkAnalysis 28 1 90 true in
  calculatePredictionConfidence analysis 3 <= calculatePredictionConfidence analysis 12.
Proof.
  intros analysis.
  apply (confidence_monotone_in_cycle_count analysis 3 12).
  - simpl. lra.
  - lia.
  - lia.
  - lia.
Defined.

End SummaryPrediction.

(** ** More on the day-level service *)

Section DayLevelService.
Import CycleCalculation Notions.

(** X1.  The average cycle length is always between 21 and 35 days,
    whatever the logs are. *)
Theorem averageCycleLength_between_21_and_35 (periodLogs : list PeriodLog) :
  21 <= calculateAverageCycleLength periodLogs <= 35.
Proof. apply calculateAverageCycleLength_bounds. Qed.

Lemma periodLoop_from (periodLogs : list PeriodLog) (totalDays validPeriods : Z) :
  fold_left
    (fun '(totalDays, validPeriods) log =>
       let periodDays := differenceInDays (endDate log) (startDate log) + 1 in
       if plausiblePeriod periodDays
       then (totalDays + periodDays, validPeriods + 1)
       else (totalDays, validPeriods))
    periodLogs (totalDays, validPeriods)
  = (totalDays + sumZ (List.filter plausiblePeriod (periodLengths periodLogs)),
     validPeriods
     + Z.of_nat (length (List.filter plausiblePeriod (periodLengths periodLogs)))).
Proof.
  revert totalDays validPeriods.
  induction periodLogs as [|log rest IH]; intros totalDays validPeriods.
  - simpl. f_equal; lia.
  - cbn [fold_left periodLengths map List.filter]. cbv zeta.
    destruct (plausiblePeriod (differenceInDays (endDate log) (startDate log) + 1)).
    + rewrite IH. fold (periodLengths rest). rewrite sumZ_cons, length_cons.
      f_equal; lia.
    + apply IH.
Qed.

Lemma plausiblePeriod_bounds (l : list Z) :
  Forall (fun c => 3 <= c <= 10) (List.filter plausiblePeriod l).
Proof.
  apply List.Forall_forall. intros c Hc. apply List.filter_In in Hc as [_ Hc].
  unfold plausiblePeriod in Hc. lia.
Qed.

(** X2.  The average period length is [Math.round] of the mean of the
    period lengths that lie in 3..10 days, the default 6 when no log has
    such a length; it is always between 3 and 10. *)
Theorem averagePeriodLength_of_plausible_periods (periodLogs : list PeriodLog) :
  let plausible := List.filter plausiblePeriod (periodLengths periodLogs) in
  calculateAveragePeriodLength periodLogs
  = match plausible with
    | [] => 6
    | _ => Math_round_div (sumZ plausible) (Z.of_nat (length plausible))
    end
  /\ 3 <= calculateAveragePeriodLength periodLogs <= 10.
Proof.
  intros plausible.
  assert (E : calculateAveragePeriodLength periodLogs
              = match plausible with
                | [] => 6
                | _ => Math_round_div (sumZ plausible) (Z.of_nat (length plausible))
                end).
  { unfold calculateAveragePeriodLength, periodLoop.
    destruct (Z.eqb_spec (Z.of_nat (length periodLogs)) 0) as [H0|_].
    - destruct periodLogs; [reflexivity | simpl in H0; lia].
    - rewrite periodLoop_from. fold plausible. rewrite !Z.add_0_l.
      destruct plausible as [|c l]; [reflexivity|].
      destruct (Z.ltb_spec 0 (Z.of_nat (length (c :: l)))) as [_|H];
        [reflexivity | simpl in H; lia]. }
  split; [exact E|]. rewrite E.
  pose proof (plausiblePeriod_bounds (periodLengths periodLogs)) as HF.
  fold plausible in HF. destruct plausible as [|c l]; [lia|].
  apply Math_round_div_bounds; [simpl; lia | apply sumZ_bounds, HF].
Qed.

End DayLevelService.

(** ** The defaults of the averages *)

Section Defaults.
Import CycleCalculation Notions.

Lemma no_plausible_period (l : list Z) :
  Forall (fun days => days < 3 \/ 10 < days) l -> List.filter plausiblePeriod l = [].
Proof.
  induction 1 as [|days l Hdays _ IH]; [reflexivity|]. cbn [List.filter].
  replace (plausiblePeriod days) with false; [exact IH|].
  symmetry. unfold plausiblePeriod. rewrite andb_false_iff, !Z.leb_gt. exact Hdays.
Qed.

(** C1 (as the code has it).  The defaults are a cycle of 28 days and a
    period of 6 days.  With fewer than two logs the average cycle length
    is 28.  When no log has a period length of 3 to 10 days, in particular
    when there is no log, the average period length is 6.  Without logs
    the projection is empty, so that neither default shows. *)
Theorem default_lengths_are_28_and_6 (periodLogs : list PeriodLog) :
  ((length periodLogs < 2)%nat -> calculateAverageCycleLength periodLogs = 28)
  /\ (Forall (fun days => days < 3 \/ 10 < days) (periodLengths periodLogs) ->
      calculateAveragePeriodLength periodLogs = 6)
  /\ (periodLogs = [] ->
      calculateAverageCycleLength periodLogs = 28
      /\ calculateAveragePeriodLength periodLogs = 6
      /\ forall fromDate, predictNextCycle periodLogs fromDate = []).
Proof.
  split; [|split].
  - intros Hlen. destruct periodLogs as [|a [|b l]]; [reflexivity | reflexivity |].
    simpl in Hlen. lia.
  - intros Hnone. unfold calculateAveragePeriodLength, periodLoop.
    destruct (Z.eqb_spec (Z.of_nat (length periodLogs)) 0) as [_|_]; [reflexivity|].
    rewrite periodLoop_from, (no_plausible_period _ Hnone). reflexivity.
  - intros ->. repeat split.
Qed.

(** A single log of one day, 2024-01-01. *)
Lemma default_lengths_are_28_and_6_witness :
  let periodLogs :=
    loadLogs [ mkPeriodLog None (ymd 2024 1 1) (ymd 2024 1 1) FlowMedium ] in
  calculateAverageCycleLength periodLogs = 28
  /\ calculateAveragePeriodLength periodLogs = 6.
Proof.
  intros periodLogs.
  destruct (default_lengths_are_28_and_6 periodLogs) as (Hcycle & Hperiod & _).
  split.
  - apply Hcycle. vm_compute. lia.
  - apply Hperiod. vm_compute. constructor; [left; reflexivity | constructor].
Defined.

(** C1 as stated fails: the default period length is 6 and not 5.  It
    shows in the projection: after a single log of one day, 2024-01-01,
    predicting from 2024-01-10, the next period starts on 2024-01-29 and
    is projected for six days, 2024-01-29 to 2024-02-03. *)
Lemma default_period_is_projected_for_six_days :
  let periodLogs :=
    loadLogs [ mkPeriodLog None (ymd 2024 1 1) (ymd 2024 1 1) FlowMedium ] in
  let projection := predictNextCycle periodLogs (ymd 2024 1 10) in
  calculateAveragePeriodLength [] = 6
  /\ calculateAveragePeriodLength [] <> 5
  /\ calculateAveragePeriodLength periodLogs = 6
  /\ nextPeriodStart periodLogs (ymd 2024 1 10) = Some (ymd 2024 1 29)
  /\ List.filter
       (fun e => (ymd 2024 1 29 <=? date e) && (date e <? ymd 2024 2 26)
                 && match phase e with period => true | _ => false end)
       projection
     = map (fun day => {| date := day; phase := period;
                          intensity := taper (differenceInDays day (ymd 2024 1 29));
                          prediction := Some true |})
           [ ymd 2024 1 29; ymd 2024 1 30; ymd 2024 1 31;
             ymd 2024 2 1; ymd 2024 2 2; ymd 2024 2 3 ].
Proof.
  intros periodLogs projection.
  split; [reflexivity|]. split; [discriminate|]. split; [reflexivity|].
  split; vm_compute; reflexivity.
Qed.

End Defaults.

(** ** The projection as a whole *)

Section Projection.
Import CycleCalculation Notions.

Lemma pushes_invariant (I : list CycleDay -> Prop) (G : Z -> Prop)
    (entryOf : Z -> CycleDay) (days : list Z) :
  (forall acc day, G day -> I acc -> I (pushUnlessSameDay acc (entryOf day))) ->
  (forall day, In day days -> G day) ->
  forall acc, I acc ->
    I (fold_left (fun acc day => pushUnlessSameDay acc (entryOf day)) days acc).
Proof.
  intros Hpush. induction days as [|day days IH]; intros HG acc Hacc; simpl.
  - exact Hacc.
  - apply IH.
    + intros d Hd. apply HG. right. exact Hd.
    + apply Hpush; [apply HG; left; reflexivity | exact Hacc].
Qed.

(** Whatever holds of the logged entries and survives every attempted
    push holds of the list that is finally sorted. *)
Lemma projection_invariant (I : list CycleDay -> Prop)
    (anchor : Date) (cycleLength periodLength : Z) (past : list CycleDay) :
  I past ->
  (forall acc e, I acc -> projectedEntry anchor cycleLength periodLength e ->
                 I (pushUnlessSameDay acc e)) ->
  I (fold_left (projectCycle anchor cycleLength periodLength) (range 0 3) past).
Proof.
  intros Hpast Hpush.
  assert (Hcycles : forall c, In c (range 0 3) -> 0 <= c < 3).
  { intros c Hc. apply in_range in Hc. lia. }
  revert Hcycles Hpast. generalize (range 0 3) past.
  induction l as [|cycle cycles IH]; intros acc Hcycles Hacc; simpl; [exact Hacc|].
  apply IH; [intros c Hc; apply Hcycles; right; exact Hc|].
  assert (Hc : 0 <= cycle < 3) by (apply Hcycles; left; reflexivity).
  unfold projectCycle.
  apply (pushes_invariant I (fun day => -5 <= day <= 0)
           (fun day => {| date := addDays (subDays (addDays (addDays anchor (cycle * cycleLength)) cycleLength) 14) day;
                          phase := if day =? 0 then ovulation else fertile;
                          intensity := none; prediction := Some true |})).
  - intros a day Hday Ha. apply Hpush; [exact Ha|].
    exists cycle, day. split; [exact Hc|]. right. split; [exact Hday | reflexivity].
  - intros day Hday. apply in_range in Hday. lia.
  - apply (pushes_invariant I (fun day => 0 <= day < periodLength)
             (fun day => {| date := addDays (addDays anchor (cycle * cycleLength)) day;
                            phase := period; intensity := taper day;
                            prediction := Some true |})).
    + intros a day Hday Ha. apply Hpush; [exact Ha|].
      exists cycle, day. split; [exact Hc|]. left. split; [exact Hday | reflexivity].
    + intros day Hday. apply in_range in Hday. lia.
    + exact Hacc.
Qed.

Lemma logged_entries_not_predictions (periodLogs : list PeriodLog) (e : CycleDay) :
  In e (flat_map loggedDays periodLogs) ->
  phase e = period /\ prediction e = Some false.
Proof.
  intros H. apply List.in_flat_map in H as (log & _ & H).
  apply in_loggedDays in H as (i & _ & ->). split; reflexivity.
Qed.

Lemma predictNextCycle_unfold (periodLogs : list PeriodLog) (fromDate anchor : Date) :
  nextPeriodStart periodLogs fromDate = Some anchor ->
  predictNextCycle periodLogs fromDate
  = Array_sort byDateAscending
      (fold_left (projectCycle anchor (calculateAverageCycleLength periodLogs)
                               (calculateAveragePeriodLength periodLogs))
                 (range 0 3) (flat_map loggedDays periodLogs)).
Proof. intros E. unfold predictNextCycle. rewrite E. reflexivity. Qed.

Lemma nextPeriodStart_some (periodLogs : list PeriodLog) (fromDate : Date) :
  periodLogs <> [] -> exists anchor, nextPeriodStart periodLogs fromDate = Some anchor.
Proof.
  destruct periodLogs as [|first rest]; [congruence|]. intros _.
  unfold nextPeriodStart. destruct (isAfter _ _); eexists; reflexivity.
Qed.

Lemma push_nonempty (acc : list CycleDay) (e : CycleDay) :
  pushUnlessSameDay acc e <> [].
Proof.
  unfold pushUnlessSameDay. destruct (existsb _ acc) eqn:E.
  - destruct acc; [discriminate E | discriminate].
  - destruct acc; discriminate.
Qed.

Lemma projectCycle_nonempty (anchor : Date) (cycleLength periodLength : Z)
    (acc : list CycleDay) (cycle : Z) :
  projectCycle anchor cycleLength periodLength acc cycle <> [].
Proof.
  unfold projectCycle. change (range (-5) 6) with [-5; -4; -3; -2; -1; 0].
  cbn [fold_left]. apply push_nonempty.
Qed.

Lemma projection_sorted (periodLogs : list PeriodLog) (fromDate : Date) :
  StronglySorted earliestFirst (predictNextCycle periodLogs fromDate).
Proof.
  unfold predictNextCycle. destruct (nextPeriodStart periodLogs fromDate); [|constructor].
  apply (StronglySorted_weaken (inOrder byDateAscending)).
  - unfold inOrder, byDateAscending, earliestFirst. intros a b. lia.
  - apply Array_sort_sorted; unfold byDateAscending; lia.
Qed.

(** X3.  The projection is ordered by ascending date, and it is empty
    exactly when the service holds no log. *)
Theorem projection_sorted_by_date (periodLogs : list PeriodLog) (fromDate : Date) :
  StronglySorted earliestFirst (predictNextCycle periodLogs fromDate)
  /\ (predictNextCycle periodLogs fromDate = [] <-> periodLogs = []).
Proof.
  split.
  - apply projection_sorted.
  - split; [|intros ->; reflexivity].
    intros Hempty. destruct periodLogs as [|first rest]; [reflexivity|]. exfalso.
    destruct (nextPeriodStart_some (first :: rest) fromDate) as [anchor Ea]; [discriminate|].
    rewrite (predictNextCycle_unfold _ _ _ Ea) in Hempty.
    change (range 0 3) with [0; 1; 2] in Hempty. cbn [fold_left] in Hempty.
    match type of Hempty with
    | Array_sort _ ?l = [] =>
        pose proof (Array_sort_Permutation byDateAscending l) as HP
    end.
    rewrite Hempty in HP. apply Permutation_nil in HP.
    revert HP. apply projectCycle_nonempty.
Qed.

Lemma sameDayCount_Permutation (d : Date) (l l' : list CycleDay) :
  l ≡ₚ l' -> sameDayCount d l = sameDayCount d l'.
Proof.
  unfold sameDayCount.
  induction 1 as [|x l l' _ IH|x y l|l l' l'' _ IH1 _ IH2]; simpl.
  - reflexivity.
  - destruct (isSameDay (date x) d); simpl; congruence.
  - destruct (isSameDay (date x) d), (isSameDay (date y) d); reflexivity.
  - congruence.
Qed.

Lemma sameDayCount_app (d : Date) (l l' : list CycleDay) :
  sameDayCount d (l ++ l') = (sameDayCount d l + sameDayCount d l')%nat.
Proof. unfold sameDayCount. rewrite List.filter_app, length_app. reflexivity. Qed.

Lemma sameDayCount_zero (d : Date) (l : list CycleDay) :
  existsb (fun e => isSameDay (date e) d) l = false -> sameDayCount d l = 0%nat.
Proof.
  unfold sameDayCount. induction l as [|x l IH]; simpl; [reflexivity|].
  destruct (isSameDay (date x) d); simpl; [discriminate | exact IH].
Qed.

Lemma isSameDay_sym (a b : Date) : isSameDay a b = isSameDay b a.
Proof. unfold isSameDay. apply Z.eqb_sym. Qed.

(** X4.  Deduplication: an entry marked as a prediction is the only entry
    of the projection on its calendar day. *)
Theorem predicted_day_is_unique
    (periodLogs : list PeriodLog) (fromDate : Date) (e : CycleDay) :
  In e (predictNextCycle periodLogs fromDate) ->
  prediction e = Some true ->
  sameDayCount (date e) (predictNextCycle periodLogs fromDate) = 1%nat.
Proof.
  intros Hin Hpred.
  destruct periodLogs as [|first rest]; [destruct Hin|].
  destruct (nextPeriodStart_some (first :: rest) fromDate) as [anchor Ea]; [discriminate|].
  rewrite (predictNextCycle_unfold _ _ _ Ea) in *.
  match type of Hin with
  | In _ (Array_sort _ ?l) =>
      pose proof (Array_sort_Permutation byDateAscending l) as HP; set (cycleDays := l) in *
  end.
  rewrite (sameDayCount_Permutation _ _ _ HP).
  apply (Permutation_in e HP) in Hin. revert e Hin Hpred.
  unfold cycleDays.
  apply (projection_invariant
           (fun acc => forall e, In e acc -> prediction e = Some true ->
                                 sameDayCount (date e) acc = 1%nat)).
  - intros e He Hpred. apply logged_entries_not_predictions in He as [_ He]. congruence.
  - intros acc entry Hacc _ e He Hpred. unfold pushUnlessSameDay in *.
    destruct (existsb (fun d => isSameDay (date d) (date entry)) acc) eqn:Eex;
      [apply Hacc; assumption|].
    rewrite sameDayCount_app. apply List.in_app_or in He as [He|[<-|[]]].
    + rewrite (Hacc e He Hpred). unfold sameDayCount at 1. simpl.
      assert (Hno : isSameDay (date entry) (date e) = false).
      { rewrite isSameDay_sym.
        destruct (isSameDay (date e) (date entry)) eqn:Es; [|reflexivity].
        assert (existsb (fun d => isSameDay (date d) (date entry)) acc = true)
          by (apply List.existsb_exists; exists e; split; assumption).
        congruence. }
      rewrite Hno. reflexivity.
    + rewrite (sameDayCount_zero _ _ Eex). unfold sameDayCount. simpl.
      unfold isSameDay. rewrite Z.eqb_refl. reflexivity.
Qed.

Lemma nextPeriodStart_not_before (periodLogs : list PeriodLog) (fromDate anchor : Date) :
  nextPeriodStart periodLogs fromDate = Some anchor -> fromDate <= anchor.
Proof.
  destruct periodLogs as [|first rest]; [discriminate|]. unfold nextPeriodStart.
  pose proof (calculateAverageCycleLength_bounds (first :: rest)) as HL.
  set (cycleLength := calculateAverageCycleLength (first :: rest)) in *.
  destruct (Z.ltb_spec (startDate first) fromDate) as [Hlt|Hge];
    unfold isAfter;
    [replace (startDate first <? fromDate) with true by (symmetry; apply Z.ltb_lt; lia)
    |replace (startDate first <? fromDate) with false by (symmetry; apply Z.ltb_ge; lia)];
    intros [= <-]; [|lia].
  pose proof (differenceInDays_nonneg fromDate (startDate first) ltac:(lia)) as Hd.
  pose proof (Z.rem_bound_pos (differenceInDays fromDate (startDate first)) cycleLength
                Hd ltac:(lia)) as Hr.
  unfold addDays. rewrite MS_PER_DAY_value. nia.
Qed.

(** X5.  No predicted entry lies before the anchor of the projection, and
    the anchor is never before [fromDate]: every predicted entry is on or
    after [fromDate]. *)
Theorem predictions_not_before_fromDate
    (periodLogs : list PeriodLog) (fromDate : Date) (e : CycleDay) :
  In e (predictNextCycle periodLogs fromDate) ->
  prediction e = Some true ->
  exists anchor,
    nextPeriodStart periodLogs fromDate = Some anchor
    /\ fromDate <= anchor /\ anchor <= date e.
Proof.
  intros Hin Hpred.
  destruct periodLogs as [|first rest]; [destruct Hin|].
  destruct (nextPeriodStart_some (first :: rest) fromDate) as [anchor Ea]; [discriminate|].
  exists anchor. split; [exact Ea|]. split; [apply (nextPeriodStart_not_before _ _ _ Ea)|].
  rewrite (predictNextCycle_unfold _ _ _ Ea) in Hin.
  match type of Hin with
  | In _ (Array_sort _ ?l) =>
      apply (Permutation_in e (Array_sort_Permutation byDateAscending l)) in Hin
  end.
  revert e Hin Hpred.
  pose proof (calculateAverageCycleLength_bounds (first :: rest)) as HL.
  apply (projection_invariant
           (fun acc => forall e, In e acc -> prediction e = Some true -> anchor <= date e)).
  - intros e He Hpred. apply logged_entries_not_predictions in He as [_ He]. congruence.
  - intros acc entry Hacc Hproj e He Hpred. unfold pushUnlessSameDay in He.
    destruct (existsb _ acc); [apply Hacc; assumption|].
    apply List.in_app_or in He as [He|[<-|[]]]; [apply Hacc; assumption|].
    destruct Hproj as (cycle & day & Hc & [[Hday ->]|[Hday ->]]); simpl;
      unfold subDays, addDays; rewrite MS_PER_DAY_value; nia.
Qed.

Lemma predicted_day_is_unique_witness :
  let logs := [ mkPeriodLog None (ymd 2024 1 1) (ymd 2024 1 5) FlowMedium;
                mkPeriodLog None (ymd 2024 1 29) (ymd 2024 2 2) FlowMedium ] in
  sameDayCount (ymd 2024 2 26) (predictNextCycle (loadLogs logs) (ymd 2024 2 10)) = 1%nat.
Proof.
  intros logs.
  apply (predicted_day_is_unique (loadLogs logs) (ymd 2024 2 10)
           {| date := ymd 2024 2 26; phase := period; intensity := heavy;
              prediction := Some true |}).
  - vm_compute. find_in.
  - reflexivity.
Defined.

Lemma predictions_not_before_fromDate_witness :
  let logs := [ mkPeriodLog None (ymd 2024 1 1) (ymd 2024 1 5) FlowMedium;
                mkPeriodLog None (ymd 2024 1 29) (ymd 2024 2 2) FlowMedium ] in
  exists anchor,
    nextPeriodStart (loadLogs logs) (ymd 2024 2 10) = Some anchor
    /\ ymd 2024 2 10 <= anchor /\ anchor <= ymd 2024 3 11.
Proof.
  intros logs.
  apply (predictions_not_before_fromDate (loadLogs logs) (ymd 2024 2 10)
           {| date := ymd 2024 3 11; phase := ovulation; intensity := none;
              prediction := Some true |}).
  - vm_compute. find_in.
  - reflexivity.
Defined.

(** X6.  After any sequence of calls the service holds exactly the logs
    added since the last [clearLogs], each as often as it was added. *)
Theorem service_holds_logs_since_clear (calls : list Service.Call) :
  Service.contents (Service.run calls) ≡ₚ logsSinceClear calls.
Proof.
  unfold Service.run, logsSinceClear.
  induction calls as [|c calls IH] using rev_ind.
  - unfold Service.contents, Service.create. simpl. rewrite lookup_singleton_eq.
    reflexivity.
  - rewrite !fold_left_app. simpl.
    destruct c as [log|]; unfold Service.contents at 1; simpl; rewrite lookup_insert_eq; simpl.
    + rewrite addPeriodLog_Permutation, IH. apply Permutation_cons_append.
    + reflexivity.
Qed.

End Projection.

(** ** Queries on the projection *)

Section Queries.
Import CycleCalculation Notions CycleQueries.

(** X7.  [getCurrentPhase] never answers a negative [daysUntil], and
    without logs it answers [unknown] with 0 days. *)
Theorem getCurrentPhase_daysUntil_nonnegative
    (periodLogs : list PeriodLog) (date : Date) :
  0 <= snd (getCurrentPhase periodLogs date)
  /\ (periodLogs = [] -> getCurrentPhase periodLogs date = (unknown, 0)).
Proof.
  split; [|intros ->; reflexivity].
  unfold getCurrentPhase.
  destruct (Z.of_nat (length periodLogs) =? 0); [simpl; lia|].
  destruct (List.find _ _); [simpl; lia|].
  destruct (List.find _ _) as [next|] eqn:E; [|simpl; lia].
  apply List.find_some in E as [_ E]. unfold isAfter in E. simpl.
  apply differenceInDays_nonneg. lia.
Qed.

Lemma logged_calendar_day (periodLogs : list PeriodLog) (log : PeriodLog) (d : Date) :
  In log periodLogs ->
  calendarDate (startDate log) -> calendarDate (endDate log) -> calendarDate d ->
  startDate log <= d <= endDate log ->
  exists entry, In entry (flat_map loggedDays periodLogs) /\ date entry = d.
Proof.
  intros Hin Hs He Hd Hspan.
  pose proof (calendarDate_difference d (startDate log) Hd Hs) as Ed.
  pose proof (calendarDate_difference (endDate log) (startDate log) He Hs) as Ee.
  set (i := differenceInDays d (startDate log)) in *.
  exists {| date := addDays (startDate log) i; phase := period;
            intensity := taper i; prediction := Some false |}.
  split.
  - apply List.in_flat_map. exists log. split; [exact Hin|].
    apply in_loggedDays. exists i. split; [|reflexivity].
    rewrite MS_PER_DAY_value in Ed, Ee. lia.
  - simpl. unfold addDays. lia.
Qed.

(** X8.  On a calendar day inside a logged period (the log's dates being
    calendar dates), [getCurrentPhase] answers [period] with 0 days. *)
Theorem getCurrentPhase_on_logged_day
    (periodLogs : list PeriodLog) (log : PeriodLog) (d : Date) :
  In log periodLogs ->
  calendarDate (startDate log) -> calendarDate (endDate log) -> calendarDate d ->
  startDate log <= d <= endDate log ->
  getCurrentPhase periodLogs d = (period, 0).
Proof.
  intros Hin Hs He Hd Hspan.
  assert (Hne : periodLogs <> []) by (intros ->; destruct Hin).
  destruct (logged_calendar_day periodLogs log d Hin Hs He Hd Hspan)
    as (entry & Hentry & Edate).
  destruct (predictNextCycle_extendsPast periodLogs d Hne) as [Hkeep Hnew].
  unfold getCurrentPhase.
  destruct (Z.eqb_spec (Z.of_nat (length periodLogs)) 0) as [H0|_];
    [destruct periodLogs; [congruence | simpl in H0; lia]|].
  destruct (List.find _ _) as [cur|] eqn:E.
  - apply List.find_some in E as [Hcur Hsame]. f_equal.
    apply Hnew in Hcur as [Hlogged|Hfresh].
    + apply (logged_entries_not_predictions periodLogs), Hlogged.
    + specialize (Hfresh entry Hentry). rewrite Edate, isSameDay_sym in Hfresh.
      congruence.
  - exfalso. pose proof (List.find_none _ _ E entry (Hkeep entry Hentry)) as Hno.
    simpl in Hno. rewrite Edate in Hno. unfold isSameDay in Hno.
    rewrite Z.eqb_refl in Hno. discriminate.
Qed.

Lemma getCurrentPhase_on_logged_day_witness :
  let logs := [ mkPeriodLog None (ymd 2024 1 1) (ymd 2024 1 5) FlowMedium;
                mkPeriodLog None (ymd 2024 1 29) (ymd 2024 2 2) FlowHeavy ] in
  getCurrentPhase (loadLogs logs) (ymd 2024 1 31) = (period, 0).
Proof.
  intros logs.
  assert (Hin : In (mkPeriodLog None (ymd 2024 1 29) (ymd 2024 2 2) FlowHeavy)
                   (loadLogs logs)) by (vm_compute; find_in).
  apply (getCurrentPhase_on_logged_day (loadLogs logs) _ (ymd 2024 1 31) Hin).
  - apply calendarDate_ymd.
  - apply calendarDate_ymd.
  - apply calendarDate_ymd.
  - vm_compute. split; discriminate.
Defined.

Lemma StronglySorted_filter {A : Type} (R : A -> A -> Prop) (f : A -> bool) (l : list A) :
  StronglySorted R l -> StronglySorted R (List.filter f l).
Proof.
  induction 1 as [|x l _ IH Hx]; simpl; [constructor|].
  destruct (f x); [|exact IH]. constructor; [exact IH|].
  rewrite List.Forall_forall in *. intros y Hy. apply List.filter_In in Hy as [Hy _].
  auto.
Qed.

(** In a sorted list the first hit of a weaker test comes no later than
    the first hit of a stronger one. *)
Lemma find_weaker_first {A : Type} (R : A -> A -> Prop) (P Q : A -> bool) (l : list A) :
  (forall x, R x x) ->
  (forall x, Q x = true -> P x = true) ->
  StronglySorted R l ->
  forall q, List.find Q l = Some q ->
            exists p, List.find P l = Some p /\ R p q.
Proof.
  intros Hrefl HQP. induction 1 as [|x l _ IH Hx]; intros q Hq; simpl in *;
    [discriminate|].
  destruct (Q x) eqn:EQ.
  - injection Hq as <-. rewrite (HQP x EQ). exists x. split; [reflexivity | apply Hrefl].
  - destruct (P x) eqn:EP.
    + exists x. split; [reflexivity|]. rewrite List.Forall_forall in Hx.
      apply Hx. apply List.find_some in Hq as [Hq _]. exact Hq.
    + apply IH, Hq.
Qed.

(** X9.  [getFertilityInfo]: an ovulation day is reported fertile too;
    the next fertile start and the next ovulation lie strictly after the
    date asked about; and whenever a next ovulation is reported, a next
    fertile start is reported as well and is not later than it. *)
Theorem getFertilityInfo_consistent (periodLogs : list PeriodLog) (date : Date) :
  let info := getFertilityInfo periodLogs date in
  (isOvulation info = true -> isFertile info = true)
  /\ (forall f, nextFertileStart info = Some f -> date < f)
  /\ (forall o, nextOvulation info = Some o ->
                date < o /\ exists f, nextFertileStart info = Some f /\ f <= o).
Proof.
  unfold getFertilityInfo.
  destruct (Z.of_nat (length periodLogs) =? 0); cbv zeta;
    [simpl; repeat split; discriminate|].
  set (predictions := predictNextCycle periodLogs date).
  set (futureDays :=
         List.filter (fun day => isAfter (CycleCalculation.date day) date) predictions).
  cbn [isFertile isOvulation nextFertileStart nextOvulation].
  assert (Hfuture : forall P day, List.find P futureDays = Some day ->
                                  date < CycleCalculation.date day).
  { intros P day H. apply List.find_some in H as [H _].
    apply List.filter_In in H as [_ H]. unfold isAfter in H. lia. }
  assert (Hsorted : StronglySorted earliestFirst futureDays).
  { apply StronglySorted_filter, projection_sorted. }
  split; [|split].
  - destruct (List.find _ predictions) as [day|]; [|discriminate].
    destruct (phase day); simpl; congruence.
  - intros f Hf. destruct (List.find _ futureDays) as [day|] eqn:E; [|discriminate].
    injection Hf as <-. apply (Hfuture _ _ E).
  - intros o Ho.
    destruct (List.find (fun day => isOvulationPhase (phase day)) futureDays)
      as [oday|] eqn:Eo; [|discriminate].
    injection Ho as <-. split; [apply (Hfuture _ _ Eo)|].
    destruct (find_weaker_first earliestFirst
                (fun day => fertileOrOvulation (phase day))
                (fun day => isOvulationPhase (phase day)) futureDays) with (q := oday)
      as (fday & Ef & Hle).
    + intros x. unfold earliestFirst. lia.
    + intros x. destruct (phase x); simpl; congruence.
    + exact Hsorted.
    + exact Eo.
    + exists (CycleCalculation.date fday). rewrite Ef. split; [reflexivity | exact Hle].
Qed.

End Queries.

(** ** The fixed-boundary phase of a cycle day *)

Section FixedBoundaryPhase.
Import PhaseOfCycle.

(** X10.  [calculateCurrentPhase] for a [today] that is whole days after
    the last period date: the day of the cycle counts from 1; the days
    until the next phase lead to day 6, 13, 17 or [cycleLength + 1]
    according to the phase; the days until the next period lead to day
    [cycleLength + 1]; and the phase is luteal from day 17 on, without
    end. *)
Theorem calculateCurrentPhase_consistent (today lastPeriodDate : Date) (cycleLength : Z) :
  lastPeriodDate <= today -> (MS_PER_DAY | today - lastPeriodDate) ->
  let r := calculateCurrentPhase today lastPeriodDate cycleLength in
  1 <= dayOfCycle r
  /\ today = addDays lastPeriodDate (dayOfCycle r - 1)
  /\ dayOfCycle r + daysUntilNextPhase r = firstDayAfter (phase r) cycleLength
  /\ dayOfCycle r + nextPeriodIn r = cycleLength + 1
  /\ (phase r = menstrual <-> dayOfCycle r <= 5)
  /\ (phase r = follicular <-> 6 <= dayOfCycle r <= 12)
  /\ (phase r = ovulation <-> 13 <= dayOfCycle r <= 16)
  /\ (phase r = luteal <-> 17 <= dayOfCycle r).
Proof.
  intros Hle [k Hk] r.
  assert (Hk0 : 0 <= k) by (rewrite MS_PER_DAY_value in Hk; lia).
  assert (Ed : differenceInDays today lastPeriodDate = k)
    by (apply differenceInDays_aligned; exact Hk).
  assert (En : differenceInDays (addDays lastPeriodDate cycleLength) today = cycleLength - k)
    by (apply differenceInDays_aligned; unfold addDays; lia).
  unfold r, calculateCurrentPhase. rewrite Ed, En.
  destruct (Z.leb_spec (k + 1) 5); [|destruct (Z.leb_spec (k + 1) 12);
                                     [|destruct (Z.leb_spec (k + 1) 16)]];
    cbn [phase dayOfCycle daysUntilNextPhase nextPeriodIn firstDayAfter];
    unfold addDays;
    (repeat split; try lia; try discriminate; try reflexivity; intros; try lia;
     try discriminate).
Qed.

Lemma calculateCurrentPhase_consistent_witness :
  let r := calculateCurrentPhase (ymd 2024 2 20) (ymd 2024 1 29) 28 in
  dayOfCycle r = 23 /\ nextPeriodIn r = 6 /\ daysUntilNextPhase r = 6.
Proof.
  intros r.
  destruct (calculateCurrentPhase_consistent (ymd 2024 2 20) (ymd 2024 1 29) 28)
    as (_ & _ & Hphase & Hperiod & _).
  - vm_compute. discriminate.
  - exists 22. reflexivity.
  - repeat split.
Defined.

End FixedBoundaryPhase.

(** ** Birth control utilities *)

Section BirthControlUtilities.
Import BirthControl.

Lemma filter_length_le {A : Type} (f : A -> bool) (l : list A) :
  (length (List.filter f l) <= length l)%nat.
Proof. induction l as [|x l IH]; simpl; [lia|]. destruct (f x); simpl; lia. Qed.

Lemma filter_length_all {A : Type} (f : A -> bool) (l : list A) :
  length (List.filter f l) = length l <-> forall x, In x l -> f x = true.
Proof.
  induction l as [|x l IH]; simpl; [split; [intros _ x [] | reflexivity]|].
  pose proof (filter_length_le f l) as Hle.
  destruct (f x) eqn:E; simpl.
  - split.
    + intros H y [<-|Hy]; [exact E|]. apply IH; [lia | exact Hy].
    + intros H. f_equal. apply IH. intros y Hy. apply H. right. exact Hy.
  - split; [lia|]. intros H. specialize (H x (or_introl eq_refl)). congruence.
Qed.

(** X11.  The adherence rate lies between 0 and 100; it is 100 for an
    empty log list, and for a non-empty one it is 100 exactly when every
    log is taken. *)
Theorem adherence_rate_range (logs : list BirthControlLog) :
  (0 <= getAdherenceRate logs <= 100)%Q
  /\ (logs = [] -> getAdherenceRate logs = 100%Q)
  /\ (logs <> [] ->
      ((getAdherenceRate logs == 100)%Q <-> forall log, In log logs -> taken log = true)).
Proof.
  unfold getAdherenceRate.
  destruct logs as [|log rest]; [repeat split; try discriminate; congruence|].
  set (logs := log :: rest).
  pose proof (filter_length_le taken logs) as Hle.
  pose proof (filter_length_all taken logs) as Hall.
  destruct (Z.eqb_spec (Z.of_nat (length logs)) 0) as [H0|_]; [simpl in H0; lia|].
  cbv zeta.
  assert (Hn : exists n, Z.of_nat (length logs) = Z.pos n).
  { destruct (Z.of_nat (length logs)) eqn:E; simpl in E; try lia. eauto. }
  destruct Hn as [n Hn]. rewrite Hn.
  set (t := Z.of_nat (length (List.filter taken logs))).
  assert (Ht : 0 <= t <= Z.pos n) by (unfold t; lia).
  assert (Eall : t = Z.pos n <-> length (List.filter taken logs) = length logs)
    by (unfold t; lia).
  unfold Qdiv, Qinv, Qmult, Qle, Qeq. simpl.
  split; [split; lia|]. split; [discriminate|]. intros _. split.
  - intros Hrate. apply Hall, Eall. lia.
  - intros Htaken. apply Hall, Eall in Htaken. lia.
Qed.

Lemma adherence_rate_range_witness :
  (getAdherenceRate [mkLog "pill" (ymd 2024 3 1) true false;
                     mkLog "pill" (ymd 2024 3 2) true false] == 100)%Q.
Proof.
  apply (adherence_rate_range [mkLog "pill" (ymd 2024 3 1) true false;
                               mkLog "pill" (ymd 2024 3 2) true false]).
  - discriminate.
  - intros log [<-|[<-|[]]]; reflexivity.
Defined.

(** X12.  [getMissedDoses] returns, newest first, exactly the logs that
    were not taken and are dated on or after the cutoff, [days] days
    before now. *)
Theorem missed_doses_are_the_recent_untaken_logs
    (now : Date) (logs : list BirthControlLog) (days : Z) :
  StronglySorted (fun a b => date b <= date a) (getMissedDoses now logs days)
  /\ (forall log, In log (getMissedDoses now logs days) <->
                  In log logs /\ taken log = false /\ addDays now (- days) <= date log)
  /\ (length (getMissedDoses now logs days) <= length logs)%nat.
Proof.
  unfold getMissedDoses.
  set (missed := List.filter _ logs).
  pose proof (Array_sort_Permutation byDateDescending missed) as HP.
  split; [|split].
  - apply (StronglySorted_weaken (inOrder byDateDescending)).
    + unfold inOrder, byDateDescending. intros a b. lia.
    + apply Array_sort_sorted; unfold byDateDescending; lia.
  - intros log. split.
    + intros H. apply (Permutation_in log HP) in H.
      apply List.filter_In in H as [Hin H]. apply andb_true_iff in H as [Ht Hd].
      repeat split; [exact Hin | destruct (taken log); [discriminate | reflexivity] | lia].
    + intros (Hin & Ht & Hd). apply (Permutation_in log (Permutation_sym HP)).
      apply List.filter_In. split; [exact Hin|]. rewrite Ht. simpl. apply Z.leb_le, Hd.
  - rewrite (Permutation_length HP). apply filter_length_le.
Qed.

Lemma startOfDay_same (a b : Date) :
  Calendar.startOfDay a = Calendar.startOfDay b <-> dayNumber a = dayNumber b.
Proof. unfold Calendar.startOfDay. rewrite MS_PER_DAY_value. lia. Qed.

(** X13.  [shouldTakeToday] is false for an inactive method, false when a
    taken log is dated today, and false for every frequency other than
    daily, weekly and monthly; an active daily method is due exactly when
    no taken log is dated today. *)
Theorem shouldTakeToday_rules
    (now : Date) (method : BirthControlMethod) (logs : list BirthControlLog) :
  let takenToday :=
    exists log, In log logs /\ taken log = true /\ dayNumber (date log) = dayNumber now in
  (active method = false -> shouldTakeToday now method logs = false)
  /\ (takenToday -> shouldTakeToday now method logs = false)
  /\ (frequency method <> daily -> frequency method <> weekly ->
      frequency method <> monthly -> shouldTakeToday now method logs = false)
  /\ (active method = true -> frequency method = daily ->
      (shouldTakeToday now method logs = true <-> ~ takenToday)).
Proof.
  intros takenToday. unfold shouldTakeToday.
  set (today := Calendar.startOfDay now).
  assert (Htoday : dayNumber today = dayNumber now).
  { unfold today, Calendar.startOfDay, dayNumber. apply Z.div_mul.
    rewrite MS_PER_DAY_value. lia. }
  assert (Hfind : takenToday <->
                  exists log, List.find (fun log => (Calendar.startOfDay (date log) =? today)
                                                    && taken log) logs = Some log).
  { split.
    - intros (log & Hin & Ht & Hd).
      destruct (List.find _ logs) as [found|] eqn:E; [eauto|]. exfalso.
      pose proof (List.find_none _ _ E log Hin) as Hno. simpl in Hno.
      rewrite Ht, andb_true_r in Hno. apply Z.eqb_neq in Hno. apply Hno.
      unfold today. apply startOfDay_same. exact Hd.
    - intros (log & E). apply List.find_some in E as [Hin H].
      apply andb_true_iff in H as [Hd Ht]. exists log. repeat split; try assumption.
      apply Z.eqb_eq in Hd. unfold today in Hd. apply startOfDay_same in Hd. exact Hd. }
  split; [intros ->; reflexivity|]. split; [|split].
  - intros H. apply Hfind in H as (log & ->). destruct (negb (active method)); reflexivity.
  - intros Hd Hw Hm. destruct (negb (active method)); [reflexivity|].
    destruct (List.find _ logs); [reflexivity|].
    destruct (frequency method); congruence.
  - intros -> ->. simpl. destruct (List.find _ logs) as [found|] eqn:E.
    + split; [discriminate|]. intros H. exfalso. apply H, Hfind. eauto.
    + split; [|reflexivity]. intros _ H. apply Hfind in H as (log & H). discriminate.
Qed.

Lemma shouldTakeToday_rules_witness :
  shouldTakeToday (ymd 2024 3 2 + 3600000)
    (mkMethod daily (ymd 2024 1 1) None true)
    [mkLog "pill" (ymd 2024 3 2) true false] = false.
Proof.
  destruct (shouldTakeToday_rules (ymd 2024 3 2 + 3600000)
              (mkMethod daily (ymd 2024 1 1) None true)
              [mkLog "pill" (ymd 2024 3 2) true false]) as (_ & Htaken & _).
  apply Htaken.
  exists (mkLog "pill" (ymd 2024 3 2) true false).
  split; [left; reflexivity|]. split; reflexivity.
Defined.

End BirthControlUtilities.

(** ** More on the summary prediction *)

Section SummaryPredictionMore.
Import CyclePrediction.
Local Open Scope R_scope.

Lemma Int_part_IZR (z : Z) : Int_part (IZR z) = z.
Proof.
  destruct (base_Int_part (IZR z)) as [Hle Hgt].
  apply le_IZR in Hle.
  assert (Hlt : IZR (z - 1) < IZR (Int_part (IZR z))) by (rewrite minus_IZR; lra).
  apply lt_IZR in Hlt. lia.
Qed.

Lemma Math_round_between (lo hi : Z) (x : R) :
  IZR lo <= x <= IZR hi -> (lo <= Int_part (x + / 2) <= hi)%Z.
Proof.
  intros [Hlo Hhi]. destruct (base_Int_part (x + / 2)) as [Hle Hgt]. split.
  - assert (H : IZR (lo - 1) < IZR (Int_part (x + / 2))) by (rewrite minus_IZR; lra).
    apply lt_IZR in H. lia.
  - assert (H : IZR (Int_part (x + / 2)) < IZR (hi + 1)) by (rewrite plus_IZR; lra).
    apply lt_IZR in H. lia.
Qed.

(** X14.  The confidence is a whole number between 0 and 100. *)
Theorem confidence_is_whole_percentage (analysis : CycleAnalysis) (cycleCount : Z) :
  mean analysis <> 0 ->
  exists z : Z,
    calculatePredictionConfidence analysis cycleCount = IZR z /\ (0 <= z <= 100)%Z.
Proof.
  intros _. unfold calculatePredictionConfidence, Math_round, Math_max, Math_min.
  eexists. split; [reflexivity|]. apply Math_round_between. apply clamp_range.
Qed.

Lemma confidence_is_whole_percentage_witness :
  exists z : Z,
    calculatePredictionConfidence (mkAnalysis 28 1 90 true) 6 = IZR z
    /\ (0 <= z <= 100)%Z.
Proof.
  apply (confidence_is_whole_percentage (mkAnalysis 28 1 90 true) 6). simpl. lra.
Defined.

(** X15.  For a regularity score within 0..100, a nonnegative deviation,
    a positive mean and at least three cycles, the confidence lies
    between the rounded 56 percent of the regularity score and the
    rounded regularity score itself. *)
Theorem confidence_between_score_fractions (analysis : CycleAnalysis) (cycleCount : Z) :
  0 <= regularityScore analysis <= 100 ->
  0 <= standardDeviation analysis -> 0 < mean analysis ->
  (3 <= cycleCount)%Z ->
  Math_round (56 / 100 * regularityScore analysis)
    <= calculatePredictionConfidence analysis cycleCount
    <= Math_round (regularityScore analysis).
Proof.
  intros [Hr0 Hr100] Hsd Hmean Hcount.
  unfold calculatePredictionConfidence, Math_max, Math_min, MIN_CYCLES_FOR_PREDICTION.
  destruct (cycleCountFactor_monotone cycleCount cycleCount Hcount ltac:(lia)) as [Hf0 _].
  assert (Hf1 : Rmin 1 (IZR (cycleCount - 3) / 9) <= 1) by apply Rmin_l.
  set (f := Rmin 1 (IZR (cycleCount - 3) / 9)) in *.
  assert (Hratio : 0 <= standardDeviation analysis / mean analysis).
  { apply Rmult_le_pos; [exact Hsd|]. left. apply Rinv_0_lt_compat, Hmean. }
  assert (Hp : 0 <= Rmax 0 (1 - standardDeviation analysis / mean analysis) <= 1).
  { split; [apply Rmax_l|]. apply Rmax_lub; lra. }
  set (penalty := Rmax 0 (1 - standardDeviation analysis / mean analysis)) in *.
  set (r := regularityScore analysis) in *.
  assert (Hlow : 56 / 100 * r <= r * (7 / 10 + 3 / 10 * f) * (8 / 10 + 2 / 10 * penalty)).
  { assert (7 / 10 * (8 / 10) <= (7 / 10 + 3 / 10 * f) * (8 / 10 + 2 / 10 * penalty)).
    { apply Rmult_le_compat; lra. }
    nra. }
  assert (Hhigh : r * (7 / 10 + 3 / 10 * f) * (8 / 10 + 2 / 10 * penalty) <= r).
  { assert ((7 / 10 + 3 / 10 * f) * (8 / 10 + 2 / 10 * penalty) <= 1 * 1).
    { apply Rmult_le_compat; lra. }
    nra. }
  split; apply Math_round_monotone.
  - unfold Rmax, Rmin. destruct (Rle_dec 100 _); destruct (Rle_dec 0 _); lra.
  - unfold Rmax, Rmin. destruct (Rle_dec 100 _); destruct (Rle_dec 0 _); lra.
Qed.

Lemma confidence_between_score_fractions_witness :
  Math_round (56 / 100 * 90)
    <= calculatePredictionConfidence (mkAnalysis 28 1 90 true) 6
    <= Math_round 90.
Proof.
  apply (confidence_between_score_fractions (mkAnalysis 28 1 90 true) 6); simpl;
    try lra; lia.
Defined.

(** X16.  An analysis is flagged regular exactly when its regularity
    score is at least 50. *)
Theorem isRegular_iff_score_at_least_50 (cycles : list CycleLog.t) :
  (3 <= List.length cycles)%nat ->
  usableLengths cycles <> [] ->
  arithmeticMean (usableLengths cycles) <> 0 ->
  exists analysis,
    analyzeCycles cycles = inr analysis
    /\ (isRegular analysis = true <-> 50 <= regularityScore analysis).
Proof.
  intros Hlen _ _. unfold analyzeCycles.
  destruct (Z.ltb_spec (Z.of_nat (List.length cycles)) MIN_CYCLES_FOR_PREDICTION)
    as [Hlt|_]; [unfold MIN_CYCLES_FOR_PREDICTION in Hlt; lia|].
  eexists. split; [reflexivity|]. cbn [isRegular regularityScore].
  unfold Math_max, Math_min, REGULARITY_THRESHOLD.
  match goal with |- context [Rle_dec ?v (15 / 100)] => set (vc := v) end.
  destruct (Rle_dec vc (15 / 100)) as [Hle|Hgt].
  - split; [intros _|reflexivity].
    unfold Rmax, Rmin. destruct (Rle_dec 100 _); destruct (Rle_dec 0 _); lra.
  - split; [discriminate|]. intros H. exfalso. revert H.
    unfold Rmax, Rmin. destruct (Rle_dec 100 _); destruct (Rle_dec 0 _); lra.
Qed.

Lemma isRegular_iff_score_at_least_50_witness :
  let cycle := CycleLog.mk (ymd 2024 1 1) (Some (ymd 2024 1 29)) (Some 28) in
  exists analysis,
    analyzeCycles [cycle; cycle; cycle] = inr analysis
    /\ (isRegular analysis = true <-> 50 <= regularityScore analysis).
Proof.
  intros cycle.
  assert (E : usableLengths [cycle; cycle; cycle] = [28; 28; 28]).
  { unfold usableLengths. simpl. rewrite truthy_nonzero by lra. reflexivity. }
  apply (isRegular_iff_score_at_least_50 [cycle; cycle; cycle]).
  - simpl. lia.
  - rewrite E. discriminate.
  - rewrite E. unfold arithmeticMean. simpl. lra.
Defined.

Lemma timeClip_IZR_plus (d : Z) (a : R) : 0 <= a -> (d <= timeClip (IZR d + a))%Z.
Proof.
  intros Ha. unfold timeClip. destruct (Rle_dec 0 (IZR d + a)) as [Hpos|Hneg].
  - rewrite <- (Int_part_IZR d) at 1. apply Int_part_monotone. lra.
  - assert (H : (Int_part (- (IZR d + a)) <= Int_part (IZR (- d)))%Z).
    { apply Int_part_monotone. rewrite opp_IZR. lra. }
    rewrite Int_part_IZR in H. lia.
Qed.

(** X17.  The predicted phases are menstrual, follicular, ovulation and
    luteal in this order; the first starts at the cycle start, each next
    one starts at the instant the previous one ends, and for a
    nonnegative cycle length no phase ends before it starts. *)
Theorem predictCyclePhases_contiguous (cycleStart : Date) (cycleLength : R) :
  0 <= cycleLength ->
  exists e1 e2 e3 e4 : Date,
    predictCyclePhases cycleStart cycleLength
    = [ (menstrual, (cycleStart, e1)); (follicular, (e1, e2));
        (ovulation, (e2, e3)); (luteal, (e3, e4)) ]
    /\ (cycleStart <= e1 <= e2 /\ e2 <= e3 <= e4)%Z.
Proof.
  intros HL. unfold predictCyclePhases, TYPICAL_PHASE_LENGTHS.
  cbn [fold_left snd app].
  set (total := 0 + (3 + 7) / 2 + (7 + 14) / 2 + (1 + 2) / 2 + (12 + 16) / 2).
  assert (Htotal : total = 31) by (unfold total; lra).
  assert (Hscale : 0 <= cycleLength / total).
  { rewrite Htotal. lra. }
  set (scale := cycleLength / total) in *.
  do 4 eexists. split; [reflexivity|].
  repeat split; apply timeClip_IZR_plus; nra.
Qed.

Lemma predictCyclePhases_contiguous_witness :
  exists e1 e2 e3 e4 : Date,
    predictCyclePhases (ymd 2024 2 26) 28
    = [ (menstrual, (ymd 2024 2 26, e1)); (follicular, (e1, e2));
        (ovulation, (e2, e3)); (luteal, (e3, e4)) ]
    /\ (ymd 2024 2 26 <= e1 <= e2 /\ e2 <= e3 <= e4)%Z.
Proof. apply (predictCyclePhases_contiguous (ymd 2024 2 26) 28). lra. Defined.

End SummaryPredictionMore.

(** ** Daily fertility status *)

Section DailyFertility.
Import FertilityPrediction FertilityDaily.

(** X19.  The daily probability of a prediction: 0.3 times the confidence
    from three days before the ovulation instant up to that instant, 0.2
    times it after that up to two days later, 0.1 times it from five to
    three days before, and 0 everywhere else. *)
Theorem daily_probability_by_distance
    (lastCycle : CycleLog.t) (rest : list CycleLog.t) (stats : FertilityStats)
    (date : Date) :
  let ov := addDays (CycleLog.startDate lastCycle) (averageOvulationDay stats) in
  exists p,
    predictNextOvulation (lastCycle :: rest) stats = Some p
    /\ expectedDate p = ov
    /\ (addDays ov (-3) <= date <= ov ->
        calculateDailyProbability date p = ((3 # 10) * confidenceLevel stats)%Q)
    /\ (ov < date <= addDays ov 2 ->
        calculateDailyProbability date p = ((2 # 10) * confidenceLevel stats)%Q)
    /\ (addDays ov (-5) <= date < addDays ov (-3) ->
        calculateDailyProbability date p = ((1 # 10) * confidenceLevel stats)%Q)
    /\ (date < addDays ov (-5) \/ addDays ov 2 < date ->
        calculateDailyProbability date p = 0%Q).
Proof.
  intros ov. eexists. split; [reflexivity|]. split; [reflexivity|].
  unfold calculateDailyProbability. cbn [fertilityWindows confidence].
  fold ov. rewrite windowsAround_days. cbn [List.find].
  unfold inWindow. cbn [start end_ probability].
  unfold addDays. rewrite MS_PER_DAY_value.
  repeat split; intros H;
    repeat match goal with
           | |- context [?a <=? ?b] => destruct (Z.leb_spec a b); cbn [andb]
           end;
    try reflexivity; lia.
Qed.

Lemma daily_probability_by_distance_witness :
  exists p,
    predictNextOvulation [CycleLog.mk (ymd 2024 3 1) None None] (mkStats 14 (1 # 2))
    = Some p
    /\ calculateDailyProbability (ymd 2024 3 15) p = ((3 # 10) * (1 # 2))%Q.
Proof.
  destruct (daily_probability_by_distance
              (CycleLog.mk (ymd 2024 3 1) None None) [] (mkStats 14 (1 # 2))
              (ymd 2024 3 15)) as (p & E & _ & Hhigh & _).
  exists p. split; [exact E|]. apply Hhigh. vm_compute. split; discriminate.
Defined.

Lemma daysDiff_iff (date ov k : Z) :
  k <= Math_round_div (date - ov) (1000 * 60 * 60 * 24)
  <-> ov + k * 86400000 - 43200000 <= date.
Proof.
  split.
  - unfold Math_round_div. change (1000 * 60 * 60 * 24) with 86400000. intros H.
    pose proof (Z.mul_div_le (2 * (date - ov) + 86400000) (2 * 86400000) ltac:(lia)).
    lia.
  - intros H. apply daysDiff_lower. unfold addDays. rewrite MS_PER_DAY_value.
    change (86400000 / 2) with 43200000. lia.
Qed.

Lemma fertility_phase_cases (date : Date) (p : OvulationPrediction) :
  let q := Math_round_div (date - expectedDate p) (1000 * 60 * 60 * 24) in
  (q = 0 /\ determineFertilityPhase date p = OVULATION)
  \/ (q < 0 /\ determineFertilityPhase date p = FOLLICULAR)
  \/ (1 <= q <= 14 /\ determineFertilityPhase date p = LUTEAL)
  \/ (15 <= q /\ determineFertilityPhase date p = FOLLICULAR).
Proof.
  intros q. unfold determineFertilityPhase. fold q.
  destruct (Z.eqb_spec q 0); [left; split; [assumption | reflexivity]|].
  destruct (Z.ltb_spec q 0), (Z.leb_spec (-5) q), (Z.ltb_spec 0 q), (Z.leb_spec q 14);
    cbn [andb]; try lia;
    first [ right; left; split; [lia | reflexivity]
          | right; right; left; split; [lia | reflexivity]
          | right; right; right; split; [lia | reflexivity] ].
Qed.

Lemma daily_notes_cases (date : Date) (p : OvulationPrediction) :
  let q := Math_round_div (date - expectedDate p) (1000 * 60 * 60 * 24) in
  (q = 0 /\ generateDailyNotes date p
            = [ "Ovulation day - highest chance of conception";
                "Egg survives for about 24 hours after release" ]%string)
  \/ (-3 <= q < 0 /\ generateDailyNotes date p
                      = [ "Highly fertile days - recommended for conception";
                          "Sperm can survive up to 5 days in fertile cervical mucus" ]%string)
  \/ ((q < -3 \/ 0 < q) /\ generateDailyNotes date p = []).
Proof.
  intros q. unfold generateDailyNotes. fold q.
  destruct (Z.eqb_spec q 0); [left; split; [assumption | reflexivity]|].
  destruct (Z.leb_spec (-3) q), (Z.ltb_spec q 0); cbn [andb];
    first [ right; left; split; [lia | reflexivity]
          | right; right; split; [lia | reflexivity] ].
Qed.

(** X20.  The phase of a date by its distance from the expected ovulation
    instant: OVULATION within half a day before and after it, LUTEAL from
    half a day after it until fourteen and a half days after it,
    FOLLICULAR everywhere else, and never MENSTRUAL. *)
Theorem fertility_phase_by_distance (date : Date) (p : OvulationPrediction) :
  let ov := expectedDate p in
  let half := MS_PER_DAY / 2 in
  let phase := determineFertilityPhase date p in
  (phase = OVULATION <-> ov - half <= date < ov + half)
  /\ (phase = LUTEAL <-> ov + half <= date < addDays ov 14 + half)
  /\ (phase = FOLLICULAR <-> date < ov - half \/ addDays ov 14 + half <= date)
  /\ phase <> MENSTRUAL.
Proof.
  intros ov half phase.
  pose proof (daysDiff_iff date ov 0) as [H0a H0b].
  pose proof (daysDiff_iff date ov 1) as [H1a H1b].
  pose proof (daysDiff_iff date ov 15) as [H15a H15b].
  unfold addDays, half. rewrite MS_PER_DAY_value. change (86400000 / 2) with 43200000.
  destruct (fertility_phase_cases date p) as [[Hq E]|[[Hq E]|[[Hq E]|[Hq E]]]];
    fold ov in Hq; unfold phase; rewrite E;
    (split; [split; intros; first [discriminate | reflexivity | lia]|]);
    (split; [split; intros; first [discriminate | reflexivity | lia]|]);
    (split; [split; intros; first [discriminate | reflexivity | lia]|]);
    discriminate.
Qed.

(** X21.  The notes of a date are not empty exactly from three and a half
    days before the expected ovulation instant to half a day after it;
    they are the ovulation notes exactly when the phase of the date is
    OVULATION, and a date with the highly-fertile notes is FOLLICULAR. *)
Theorem daily_notes_match_phase (date : Date) (p : OvulationPrediction) :
  let ov := expectedDate p in
  let half := MS_PER_DAY / 2 in
  (generateDailyNotes date p <> [] <-> addDays ov (-3) - half <= date < ov + half)
  /\ (generateDailyNotes date p
      = [ "Ovulation day - highest chance of conception";
          "Egg survives for about 24 hours after release" ]%string
      <-> determineFertilityPhase date p = OVULATION)
  /\ (generateDailyNotes date p
      = [ "Highly fertile days - recommended for conception";
          "Sperm can survive up to 5 days in fertile cervical mucus" ]%string
      -> determineFertilityPhase date p = FOLLICULAR).
Proof.
  intros ov half.
  pose proof (daysDiff_iff date ov (-3)) as [H3a H3b].
  pose proof (daysDiff_iff date ov 1) as [H1a H1b].
  unfold addDays, half. rewrite MS_PER_DAY_value. change (86400000 / 2) with 43200000.
  destruct (fertility_phase_cases date p) as [[Hq E]|[[Hq E]|[[Hq E]|[Hq E]]]];
    destruct (daily_notes_cases date p) as [[Hn En]|[[Hn En]|[Hn En]]];
    fold ov in Hq, Hn; try lia; rewrite E, En;
    (split; [split; intros; first [discriminate | congruence | lia]|]);
    (split; [split; intros; first [discriminate | reflexivity | lia]|]);
    intros; first [discriminate | reflexivity | lia].
Qed.

Lemma dailyLoop_rounds (p : OvulationPrediction) (endDate : Date) (fuel : nat) :
  forall currentDate,
    (fuel = 0%nat \/ addDays currentDate (Z.of_nat fuel - 1) <= endDate) ->
    dailyLoop fuel currentDate endDate p
    = map (fun i => {| date := addDays currentDate i;
                       phase := determineFertilityPhase (addDays currentDate i) p;
                       probability := calculateDailyProbability (addDays currentDate i) p;
                       notes := generateDailyNotes (addDays currentDate i) p |})
          (CycleCalculation.range 0 (Z.of_nat fuel)).
Proof.
  unfold CycleCalculation.range. rewrite Nat2Z.id.
  induction fuel as [|fuel IH]; intros currentDate Hfuel; [reflexivity|].
  destruct Hfuel as [Hfuel|Hfuel]; [discriminate|].
  assert (Hcur : currentDate <= endDate).
  { revert Hfuel. unfold addDays. rewrite MS_PER_DAY_value. lia. }
  cbn [dailyLoop]. replace (currentDate <=? endDate) with true
    by (symmetry; apply Z.leb_le; exact Hcur).
  cbn [seq map].
  assert (E0 : addDays currentDate (0 + Z.of_nat 0) = currentDate)
    by (unfold addDays; simpl; lia).
  rewrite E0. f_equal. rewrite IH.
  - rewrite <- List.seq_shift, !List.map_map. apply List.map_ext. intros k.
    replace (addDays (addDays currentDate 1) (0 + Z.of_nat k))
      with (addDays currentDate (0 + Z.of_nat (S k))) by (unfold addDays; lia).
    reflexivity.
  - destruct fuel; [left; reflexivity|]. right.
    revert Hfuel. unfold addDays. lia.
Qed.

(** X22.  [calculateDailyFertilityStatus] yields one status per day from
    the start date on, in order, each with the phase, probability and
    notes of its own date; the last one is the last day not after the end
    date, and nothing is yielded when the end date is before the start
    date. *)
Theorem daily_status_covers_range
    (startDate endDate : Date) (p : OvulationPrediction) :
  let days := (endDate - startDate) / MS_PER_DAY + 1 in
  calculateDailyFertilityStatus startDate endDate p
  = map (fun i => {| date := addDays startDate i;
                     phase := determineFertilityPhase (addDays startDate i) p;
                     probability := calculateDailyProbability (addDays startDate i) p;
                     notes := generateDailyNotes (addDays startDate i) p |})
        (CycleCalculation.range 0 days)
  /\ (startDate <= endDate -> addDays startDate (days - 1) <= endDate < addDays startDate days)
  /\ (endDate < startDate -> calculateDailyFertilityStatus startDate endDate p = []).
Proof.
  intros days. unfold calculateDailyFertilityStatus. fold days.
  assert (Hdiv : MS_PER_DAY * ((endDate - startDate) / MS_PER_DAY) <= endDate - startDate
                 < MS_PER_DAY * ((endDate - startDate) / MS_PER_DAY) + MS_PER_DAY).
  { rewrite MS_PER_DAY_value.
    pose proof (Z.div_mod (endDate - startDate) 86400000 ltac:(lia)).
    pose proof (Z.mod_pos_bound (endDate - startDate) 86400000 ltac:(lia)). lia. }
  split; [|split].
  - destruct (Z.le_gt_cases days 0) as [Hle|Hgt].
    + unfold CycleCalculation.range.
      replace (Z.to_nat days) with 0%nat by lia. reflexivity.
    + rewrite dailyLoop_rounds.
      * rewrite Z2Nat.id by lia. reflexivity.
      * right. rewrite Z2Nat.id by lia. unfold days, addDays. lia.
  - intros _. unfold days, addDays. lia.
  - intros Hlt. replace (Z.to_nat days) with 0%nat; [reflexivity|].
    assert ((endDate - startDate) / MS_PER_DAY < 0); [|lia].
    apply Z.div_lt_upper_bound; rewrite MS_PER_DAY_value; lia.
Qed.

End DailyFertility.

(** ** Fertility statistics *)

Section FertilityStatisticsProperties.
Import FertilityStatistics.
Local Open Scope R_scope.

Lemma ovulationDaysOf_length (cycles : list CycleLog.t) :
  List.length (ovulationDaysOf cycles) = (List.length cycles - 1)%nat.
Proof.
  induction cycles as [|c [|c' rest] IH]; try reflexivity.
  change (ovulationDaysOf (c :: c' :: rest))
    with ((Math_round_div (CycleLog.startDate c' - CycleLog.startDate c)
                          (1000 * 60 * 60 * 24) - AVERAGE_LUTEAL_PHASE)%Z
          :: ovulationDaysOf (c' :: rest)).
  simpl List.length in *. lia.
Qed.

(** X23.  [calculateFertilityStats] throws for fewer than three cycles.
    From three cycles on, with at least one cycle of positive rounded
    length, it returns statistics whose regularity lies in 0..1, whose
    confidence lies between 0.075 and 1, with one ovulation estimate per
    cycle but one and a luteal length of 14 for each estimate. *)
Theorem fertility_stats_ranges (now : Date) (cycles : list CycleLog.t) :
  ((List.length cycles < 3)%nat ->
   calculateFertilityStats now cycles
   = inl (Error "Insufficient cycle data for prediction"))
  /\ ((3 <= List.length cycles)%nat -> cycleLengthsOf cycles <> [] ->
      exists stats,
        calculateFertilityStats now cycles = inr stats
        /\ 0 <= cycleRegularity stats <= 1
        /\ 3 / 40 <= confidenceLevel stats <= 1
        /\ List.length (ovulationDays stats) = (List.length cycles - 1)%nat
        /\ lutealPhaseLengths stats = repeat 14%Z (List.length cycles - 1)).
Proof.
  unfold calculateFertilityStats, MINIMUM_CYCLES_FOR_PREDICTION. split; intros Hlen.
  - destruct (Z.ltb_spec (Z.of_nat (List.length cycles)) 3); [reflexivity | lia].
  - intros _. destruct (Z.ltb_spec (Z.of_nat (List.length cycles)) 3); [lia|].
    eexists. split; [reflexivity|].
    cbn [cycleRegularity confidenceLevel ovulationDays lutealPhaseLengths].
    match goal with |- context [Rmax 0 (Rmin 1 ?x)] => set (inner := x) end.
    assert (Hreg : 0 <= Rmax 0 (Rmin 1 inner) <= 1).
    { split; [apply Rmax_l|]. apply Rmax_lub; [lra | apply Rmin_l]. }
    set (reg := Rmax 0 (Rmin 1 inner)) in *.
    assert (Hn : 3 <= INR (List.length cycles)).
    { replace 3 with (INR 3) by (simpl; lra). apply le_INR. exact Hlen. }
    assert (Hcount : 1 / 4 <= Rmin (INR (List.length cycles) / 12) 1 <= 1).
    { split; [apply Rmin_glb; lra | apply Rmin_r]. }
    split; [exact Hreg|]. split; [|split].
    + split; [apply Rmin_glb; nra | apply Rmin_l].
    + apply ovulationDaysOf_length.
    + rewrite <- ovulationDaysOf_length. generalize (ovulationDaysOf cycles).
      induction l as [|d l IH]; simpl; [reflexivity | f_equal; exact IH].
Qed.

Lemma fertility_stats_ranges_witness :
  let cycle := CycleLog.mk (ymd 2024 1 1) (Some (ymd 2024 1 29)) (Some 28) in
  exists stats,
    calculateFertilityStats 0%Z [cycle; cycle; cycle] = inr stats
    /\ 0 <= cycleRegularity stats <= 1.
Proof.
  intros cycle.
  destruct (fertility_stats_ranges 0%Z [cycle; cycle; cycle]) as [_ H].
  destruct H as (stats & E & Hreg & _).
  - simpl. lia.
  - vm_compute. discriminate.
  - exists stats. split; assumption.
Defined.

Lemma Math_round_div_le (hi n d : Z) :
  (0 < d)%Z -> (n <= hi * d)%Z -> (Math_round_div n d <= hi)%Z.
Proof.
  intros Hd Hn. unfold Math_round_div.
  apply Z.lt_succ_r. apply Z.div_lt_upper_bound; lia.
Qed.

Lemma ovulationDaysOf_newest_first (cycles : list CycleLog.t) :
  StronglySorted newestCycleFirst cycles ->
  Forall (fun d => (d <= -14)%Z) (ovulationDaysOf cycles).
Proof.
  induction 1 as [|c rest Hrest IH Hc]; [constructor|].
  destruct rest as [|c' rest]; [constructor|].
  change (ovulationDaysOf (c :: c' :: rest))
    with ((Math_round_div (CycleLog.startDate c' - CycleLog.startDate c)
                          (1000 * 60 * 60 * 24) - AVERAGE_LUTEAL_PHASE)%Z
          :: ovulationDaysOf (c' :: rest)).
  constructor; [|exact IH].
  inversion Hc as [|? ? Hcc _]; subst. unfold newestCycleFirst in Hcc.
  assert ((Math_round_div (CycleLog.startDate c' - CycleLog.startDate c)
                          (1000 * 60 * 60 * 24) <= 0)%Z).
  { apply Math_round_div_le; lia. }
  unfold AVERAGE_LUTEAL_PHASE. lia.
Qed.

Lemma fold_add_le (hi : Z) (l : list Z) :
  Forall (fun d => (d <= hi)%Z) l ->
  forall acc, (fold_left Z.add l acc <= acc + hi * Z.of_nat (List.length l))%Z.
Proof.
  induction 1 as [|d l Hd _ IH]; intros acc; simpl; [lia|].
  specialize (IH (acc + d)%Z). lia.
Qed.

(** X24.  For cycles ordered newest first (the order in which
    [predictNextOvulation] takes the first entry as the last cycle), every
    ovulation estimate is at most -14, so is the average ovulation day,
    and the expected ovulation date predicted from these statistics lies
    at least 14 days before the start of the most recent cycle. *)
Theorem newest_first_cycles_give_past_ovulation
    (now : Date) (lastCycle : CycleLog.t) (rest : list CycleLog.t) (conf : Q) :
  (3 <= List.length (lastCycle :: rest))%nat ->
  StronglySorted newestCycleFirst (lastCycle :: rest) ->
  exists stats p,
    calculateFertilityStats now (lastCycle :: rest) = inr stats
    /\ Forall (fun d => (d <= -14)%Z) (ovulationDays stats)
    /\ (averageOvulationDay stats <= -14)%Z
    /\ FertilityPrediction.predictNextOvulation (lastCycle :: rest)
         (FertilityPrediction.mkStats (averageOvulationDay stats) conf) = Some p
    /\ (FertilityPrediction.expectedDate p
        <= addDays (CycleLog.startDate lastCycle) (-14))%Z.
Proof.
  intros Hlen Hsorted. set (cycles := lastCycle :: rest) in *.
  unfold calculateFertilityStats, MINIMUM_CYCLES_FOR_PREDICTION.
  destruct (Z.ltb_spec (Z.of_nat (List.length cycles)) 3); [lia|].
  pose proof (ovulationDaysOf_newest_first cycles Hsorted) as Hall.
  assert (Havg : (Math_round_div (fold_left Z.add (ovulationDaysOf cycles) 0%Z)
                                 (Z.of_nat (List.length (ovulationDaysOf cycles)))
                  <= -14)%Z).
  { apply Math_round_div_le.
    - rewrite ovulationDaysOf_length. lia.
    - pose proof (fold_add_le (-14) _ Hall 0%Z). lia. }
  do 2 eexists. split; [reflexivity|].
  cbn [ovulationDays averageOvulationDay]. split; [exact Hall|]. split; [exact Havg|].
  unfold cycles at 1. split; [reflexivity|].
  cbn [FertilityPrediction.expectedDate FertilityPrediction.averageOvulationDay].
  revert Havg. unfold addDays. rewrite MS_PER_DAY_value. fold cycles. lia.
Qed.

Lemma newest_first_cycles_give_past_ovulation_witness :
  exists stats,
    calculateFertilityStats 0%Z
      [ CycleLog.mk (ymd 2024 3 25) None None;
        CycleLog.mk (ymd 2024 2 26) (Some (ymd 2024 3 1)) None;
        CycleLog.mk (ymd 2024 1 29) (Some (ymd 2024 2 2)) None ] = inr stats
    /\ (averageOvulationDay stats <= -14)%Z.
Proof.
  destruct (newest_first_cycles_give_past_ovulation 0%Z
              (CycleLog.mk (ymd 2024 3 25) None None)
              [ CycleLog.mk (ymd 2024 2 26) (Some (ymd 2024 3 1)) None;
                CycleLog.mk (ymd 2024 1 29) (Some (ymd 2024 2 2)) None ] (1 # 2))
    as (stats & p & E & _ & Havg & _).
  - simpl. lia.
  - repeat constructor; unfold newestCycleFirst; vm_compute; discriminate.
  - exists stats. split; assumption.
Defined.

End FertilityStatisticsProperties.

(** ** The dashboard's own averages *)

Section Dashboard.
Import CycleCalculation Notions.

Lemma insertSorted_last {A : Type} (compareFn : A -> A -> Z) (x : A) (sorted : list A) :
  Forall (fun y => 0 <= compareFn x y) sorted ->
  insertSorted compareFn x sorted = sorted ++ [x].
Proof.
  induction 1 as [|y rest Hy _ IH]; simpl; [reflexivity|].
  destruct (Z.ltb_spec (compareFn x y) 0); [lia|]. rewrite IH. reflexivity.
Qed.

Lemma Array_sort_of_sorted {A : Type} (compareFn : A -> A -> Z) (l : list A) :
  StronglySorted (fun a b => 0 <= compareFn b a) l ->
  Array_sort compareFn l = l.
Proof.
  intros Hsorted. unfold Array_sort.
  assert (H : forall rest done,
             StronglySorted (fun a b => 0 <= compareFn b a) (done ++ rest) ->
             fold_left (fun sorted x => insertSorted compareFn x sorted) rest done
             = done ++ rest).
  { induction rest as [|x rest IH]; intros done Hs; simpl.
    - rewrite app_nil_r. reflexivity.
    - rewrite insertSorted_last.
      + rewrite IH; rewrite <- app_assoc; [reflexivity | exact Hs].
      + apply List.Forall_forall. intros y Hy.
        clear IH. induction done as [|d done IHd]; [destruct Hy|].
        simpl in Hs. inversion Hs as [|? ? Hs' Hd]; subst.
        destruct Hy as [<-|Hy]; [|apply IHd; assumption].
        rewrite List.Forall_forall in Hd. apply Hd.
        apply List.in_or_app. right. left. reflexivity. }
  apply (H l []). exact Hsorted.
Qed.

(** X25.  Loading logs that already are newest first (as the data
    service returns them) leaves the array in exactly that order. *)
Theorem loading_newest_first_logs_keeps_order (logs : list PeriodLog) :
  StronglySorted newestFirst logs -> loadLogs logs = logs.
Proof.
  intros Hsorted. unfold loadLogs.
  assert (H : forall rest done,
             StronglySorted newestFirst (done ++ rest) ->
             fold_left (fun periodLogs log => addPeriodLog log periodLogs) rest done
             = done ++ rest).
  { induction rest as [|log rest IH]; intros done Hs; simpl.
    - rewrite app_nil_r. reflexivity.
    - unfold addPeriodLog at 2. rewrite copied_log. rewrite Array_sort_of_sorted.
      + rewrite IH; rewrite <- app_assoc; [reflexivity | exact Hs].
      + replace (done ++ log :: rest) with ((done ++ [log]) ++ rest) in Hs
          by (rewrite <- app_assoc; reflexivity).
        assert (Hprefix : forall (l1 l2 : list PeriodLog),
                   StronglySorted newestFirst (l1 ++ l2) -> StronglySorted newestFirst l1).
        { induction l1 as [|a l1 IHl]; intros l2 Hl; [constructor|].
          simpl in Hl. inversion Hl as [|? ? Hl' Ha]; subst.
          constructor; [apply (IHl l2 Hl')|].
          rewrite List.Forall_forall in *. intros b Hb. apply Ha.
          apply List.in_or_app. left. exact Hb. }
        apply Hprefix in Hs. revert Hs. apply StronglySorted_weaken.
        intros a b. unfold newestFirst, byStartDescending. lia. }
  apply (H logs []). exact Hsorted.
Qed.

Lemma loading_newest_first_logs_keeps_order_witness :
  let logs := [ mkPeriodLog None (ymd 2024 1 29) (ymd 2024 2 2) FlowMedium;
                mkPeriodLog None (ymd 2024 1 1) (ymd 2024 1 5) FlowMedium ] in
  loadLogs logs = logs.
Proof.
  intros logs. apply (loading_newest_first_logs_keeps_order logs).
  repeat constructor. unfold newestFirst. vm_compute. discriminate.
Defined.

Lemma card_period_total (periodLogs : list PeriodLog) (acc : Z) :
  fold_left
    (fun totalPeriodDays log =>
       let periodDays := differenceInDays (endDate log) (startDate log) + 1 in
       if (3 <=? periodDays) && (periodDays <=? 10)
       then totalPeriodDays + periodDays else totalPeriodDays)
    periodLogs acc
  = acc + sumZ (List.filter plausiblePeriod (periodLengths periodLogs)).
Proof.
  revert acc. induction periodLogs as [|log rest IH]; intros acc; simpl; [lia|].
  rewrite IH. unfold plausiblePeriod at 2.
  destruct ((3 <=? differenceInDays (endDate log) (startDate log) + 1)
            && (differenceInDays (endDate log) (startDate log) + 1 <=? 10));
    [rewrite sumZ_cons|]; fold (periodLengths rest); lia.
Qed.

Lemma Math_round_div_fewer (t m n : Z) :
  0 <= t -> 0 < m <= n -> Math_round_div t n <= Math_round_div t m.
Proof.
  intros Ht Hmn. unfold Math_round_div.
  apply Z.div_le_lower_bound; [lia|].
  pose proof (Z.mul_div_le (2 * t + n) (2 * n) ltac:(lia)) as Hq.
  assert (H0 : 0 <= (2 * t + n) / (2 * n)) by (apply Z.div_pos; lia).
  generalize dependent ((2 * t + n) / (2 * n)). intros q Hq H0.
  destruct (Z.eq_dec q 0) as [->|Hne]; [lia|]. nia.
Qed.

(** X26.  On one and the same array of logs the dashboard computes the
    same average cycle length as the service.  Its average period length
    divides by the number of all logs instead of the number of plausible
    ones: it never exceeds the service's value, it equals it when every
    period length lies in 3..10 days, and it is 0 where the service falls
    back to 6 because no period length does. *)
Theorem dashboard_averages_against_service (periodLogs : list PeriodLog) :
  periodLogs <> [] ->
  let plausible := List.filter plausiblePeriod (periodLengths periodLogs) in
  SummaryCard.averageCycleLength periodLogs = calculateAverageCycleLength periodLogs
  /\ SummaryCard.averagePeriodLength periodLogs <= calculateAveragePeriodLength periodLogs
  /\ (plausible = periodLengths periodLogs ->
      SummaryCard.averagePeriodLength periodLogs = calculateAveragePeriodLength periodLogs)
  /\ (plausible = [] ->
      SummaryCard.averagePeriodLength periodLogs = 0
      /\ calculateAveragePeriodLength periodLogs = 6).
Proof.
  intros Hne plausible.
  assert (Hn : 0 < Z.of_nat (length periodLogs)).
  { destruct periodLogs; [congruence | simpl; lia]. }
  assert (Ecard : SummaryCard.averagePeriodLength periodLogs
                  = Math_round_div (sumZ plausible) (Z.of_nat (length periodLogs))).
  { unfold SummaryCard.averagePeriodLength. rewrite card_period_total.
    destruct (Z.ltb_spec 0 (Z.of_nat (length periodLogs))); [|lia].
    rewrite Z.add_0_l. reflexivity. }
  assert (Eserv : calculateAveragePeriodLength periodLogs
                  = match plausible with
                    | [] => 6
                    | _ => Math_round_div (sumZ plausible) (Z.of_nat (length plausible))
                    end).
  { unfold calculateAveragePeriodLength, periodLoop.
    destruct (Z.eqb_spec (Z.of_nat (length periodLogs)) 0); [lia|].
    rewrite periodLoop_from. fold plausible. rewrite !Z.add_0_l.
    destruct plausible as [|c l]; [reflexivity|].
    destruct (Z.ltb_spec 0 (Z.of_nat (length (c :: l)))) as [_|H];
      [reflexivity | simpl in H; lia]. }
  assert (Hlen : (length plausible <= length periodLogs)%nat).
  { unfold plausible. rewrite <- (length_map (fun log => differenceInDays (endDate log) (startDate log) + 1) periodLogs).
    apply filter_length_le. }
  pose proof (plausiblePeriod_bounds (periodLengths periodLogs)) as HF.
  fold plausible in HF. pose proof (sumZ_bounds 3 10 plausible HF) as Hsum.
  split; [|split; [|split]].
  - unfold SummaryCard.averageCycleLength, calculateAverageCycleLength.
    destruct (Z.ltb_spec (Z.of_nat (length periodLogs)) 2) as [Hshort|_]; [|reflexivity].
    destruct periodLogs as [|a [|b l]]; [congruence | reflexivity | simpl in Hshort; lia].
  - rewrite Ecard, Eserv. destruct plausible as [|c l] eqn:Ep.
    + unfold Math_round_div. simpl sumZ.
      assert ((2 * 0 + Z.of_nat (length periodLogs)) / (2 * Z.of_nat (length periodLogs)) < 1);
        [|lia].
      apply Z.div_lt_upper_bound; lia.
    + apply Math_round_div_fewer; [lia|]. simpl length in *. lia.
  - intros Hall. rewrite Ecard, Eserv.
    assert (El : length plausible = length periodLogs).
    { rewrite Hall. unfold periodLengths. apply length_map. }
    destruct plausible as [|c l]; [simpl in El; lia|]. rewrite El. reflexivity.
  - intros Hnone. rewrite Ecard, Eserv, Hnone. split; [|reflexivity].
    unfold Math_round_div. simpl sumZ. apply Z.div_small. lia.
Qed.

Lemma dashboard_averages_against_service_witness :
  let logs := [ mkPeriodLog None (ymd 2024 1 29) (ymd 2024 2 2) FlowMedium;
                mkPeriodLog None (ymd 2024 1 1) (ymd 2024 1 1) FlowLight ] in
  SummaryCard.averagePeriodLength logs <= calculateAveragePeriodLength logs.
Proof.
  intros logs. apply (dashboard_averages_against_service logs). discriminate.
Defined.

End Dashboard.

(** ** Flow patterns *)

Section FlowPatternsProperties.
Import FlowPatterns.

Lemma FlowIntensity_eqb_eq (a b : FlowIntensity) :
  FlowIntensity_eqb a b = true <-> a = b.
Proof. destruct a, b; simpl; split; congruence. Qed.

(** After counting, both counters of a flow agree; they are positive
    exactly when the flow was counted or was positive before. *)
Lemma countDays_counters (flow : FlowIntensity) (days : CycleDays) :
  forall patterns : Patterns,
    fst (patterns flow) = snd (patterns flow) -> 0 <= fst (patterns flow) ->
    let patterns' := fold_left countDay days patterns in
    fst (patterns' flow) = snd (patterns' flow)
    /\ 0 <= fst (patterns' flow)
    /\ (0 < fst (patterns' flow) <-> 0 < fst (patterns flow) \/ In (Some flow) days).
Proof.
  induction days as [|day days IH]; intros patterns Heq Hpos; simpl.
  - repeat split; try assumption; tauto.
  - assert (Hstep : fst (countDay patterns day flow) = snd (countDay patterns day flow)
                    /\ 0 <= fst (countDay patterns day flow)
                    /\ (0 < fst (countDay patterns day flow)
                        <-> 0 < fst (patterns flow) \/ day = Some flow)).
    { destruct day as [f|]; simpl.
      - destruct (FlowIntensity_eqb flow f) eqn:E; simpl.
        + apply FlowIntensity_eqb_eq in E. subst f.
          repeat split; try lia. intros _. right. reflexivity.
        + repeat split; try assumption; try tauto.
          intros [H|H]; [exact H|]. injection H as ->.
          assert (FlowIntensity_eqb flow flow = true) by (apply FlowIntensity_eqb_eq; reflexivity).
          congruence.
      - repeat split; try assumption; try tauto. intros [H|H]; [exact H | discriminate]. }
    destruct Hstep as (Heq' & Hpos' & Hiff).
    destruct (IH (countDay patterns day) Heq' Hpos') as (H1 & H2 & H3).
    cbv zeta in *. repeat split; try assumption.
    + intros H. apply H3 in H as [H|H]; [|tauto]. apply Hiff in H. tauto.
    + intros [H|[H|H]]; apply H3; [left; apply Hiff; left; exact H
                                   |left; apply Hiff; right; exact H
                                   |right; exact H].
Qed.

Lemma countCycles_counters (flow : FlowIntensity) (cycles : list CycleDays) :
  forall patterns : Patterns,
    fst (patterns flow) = snd (patterns flow) -> 0 <= fst (patterns flow) ->
    let patterns' :=
      fold_left (fun patterns cycle => fold_left countDay cycle patterns)
                cycles patterns in
    fst (patterns' flow) = snd (patterns' flow)
    /\ 0 <= fst (patterns' flow)
    /\ (0 < fst (patterns' flow) <-> 0 < fst (patterns flow) \/ occurs flow cycles).
Proof.
  induction cycles as [|cycle cycles IH]; intros patterns Heq Hpos; simpl.
  - repeat split; try assumption; [tauto|].
    intros [H|(c & [] & _)]. exact H.
  - destruct (countDays_counters flow cycle patterns Heq Hpos) as (Heq' & Hpos' & Hiff).
    destruct (IH (fold_left countDay cycle patterns) Heq' Hpos') as (H1 & H2 & H3).
    cbv zeta in *. repeat split; try assumption.
    + intros H. apply H3 in H as [H|(c & Hc & Hin)].
      * apply Hiff in H as [H|H]; [left; exact H|].
        right. exists cycle. split; [left; reflexivity | exact H].
      * right. exists c. split; [right; exact Hc | exact Hin].
    + intros [H|(c & [<-|Hc] & Hin)]; apply H3.
      * left. apply Hiff. left. exact H.
      * left. apply Hiff. right. exact Hin.
      * right. exists c. split; assumption.
Qed.

(** X27.  [analyzeFlowPatterns] reports, for every flow intensity,
    frequency 100 and average duration 1 when some day of some cycle has
    that flow, and frequency 0 and average duration 0 otherwise: the
    frequency is not a share of the days. *)
Theorem flow_pattern_frequency_is_all_or_nothing
    (cycles : list CycleDays) (flow : FlowIntensity) :
  (occurs flow cycles ->
   fst (analyzeFlowPatterns cycles flow) = 100
   /\ (snd (analyzeFlowPatterns cycles flow) == 1)%Q)
  /\ (~ occurs flow cycles -> analyzeFlowPatterns cycles flow = (0, 0%Q)).
Proof.
  destruct (countCycles_counters flow cycles emptyPatterns eq_refl ltac:(simpl; lia))
    as (Heq & Hpos & Hiff).
  cbv zeta in *. unfold analyzeFlowPatterns.
  destruct (fold_left (fun patterns cycle => fold_left countDay cycle patterns)
                      cycles emptyPatterns flow) as [count totalDays] eqn:E.
  simpl in Heq, Hpos, Hiff. subst totalDays. split.
  - intros Hocc. assert (Hc : 0 < count) by (apply Hiff; right; exact Hocc).
    destruct (Z.eqb_spec count 0); [lia|]. cbn [fst snd]. split.
    + unfold Math_round_div.
      replace (2 * (count * 100) + count) with (100 * (2 * count) + count) by lia.
      rewrite Z.div_add_l by lia. rewrite Z.div_small by lia. lia.
    + destruct count as [|c|c]; try lia.
      unfold Qdiv, Qinv, Qmult, Qeq. simpl. lia.
  - intros Hno. assert (Hc : count = 0).
    { destruct (Z.eq_dec count 0); [assumption|]. exfalso. apply Hno.
      destruct Hiff as [Hiff _]. destruct (Hiff ltac:(lia)) as [H|H]; [simpl in H; lia | exact H]. }
    subst count. reflexivity.
Qed.

Lemma flow_pattern_frequency_is_all_or_nothing_witness :
  fst (analyzeFlowPatterns [[Some HEAVY; Some MEDIUM; None]; [Some HEAVY]] HEAVY) = 100
  /\ analyzeFlowPatterns [[Some HEAVY; Some MEDIUM; None]; [Some HEAVY]] LIGHT = (0, 0%Q).
Proof.
  destruct (flow_pattern_frequency_is_all_or_nothing
              [[Some HEAVY; Some MEDIUM; None]; [Some HEAVY]] HEAVY) as [Hocc _].
  destruct (flow_pattern_frequency_is_all_or_nothing
              [[Some HEAVY; Some MEDIUM; None]; [Some HEAVY]] LIGHT) as [_ Hno].
  split.
  - apply Hocc. exists [Some HEAVY]. split; [right; left; reflexivity | left; reflexivity].
  - apply Hno. intros (cycle & [<-|[<-|[]]] & Hin); simpl in Hin;
      repeat destruct Hin as [Hin|Hin]; try discriminate; assumption.
Defined.

End FlowPatternsProperties.
